(** * PromptLayer Python client: the tracking and template helpers and the
      two langchain adapters, embedded from the sources under [promptlayer/].

    The helpers of [promptlayer/utils.py] talk to the remote service; every
    call to one of them is recorded, in order, and answered by a [world].
    A computation may return a value or raise a Python exception. *)

From Stdlib Require Import List String ZArith QArith Bool Lia Permutation.
Import ListNotations.
Open Scope string_scope.
Open Scope list_scope.
Close Scope Q_scope.

Set Implicit Arguments.
Set Warnings "-register-all".


(** ** Python values *)

(** The values the embedded functions inspect.  [PySub cls v] is an instance
    of a user-defined subclass [cls] of the class of [v] that inherits all of
    its behaviour (an [OrderedDict] for a [dict], say); [PyPromptTemplate d]
    is a [langchain.PromptTemplate] instance whose [.dict()] is [d]. *)
Inductive pyval : Type :=
| PyNone
| PyBool (b : bool)
| PyInt (z : Z)
| PyFloat (q : Q)
| PyStr (s : string)
| PyList (elems : list pyval)
| PyDict (items : list (pyval * pyval))
| PyPromptTemplate (config : list (pyval * pyval))
| PySub (cls : string) (base : pyval).

(** The builtin (or langchain) instance under any chain of subclasses. *)
Fixpoint base_value (v : pyval) : pyval :=
  match v with
  | PySub _ b => base_value b
  | _ => v
  end.

(** [x is None] *)
Definition is_None (v : pyval) : bool :=
  match v with PyNone => true | _ => false end.

(** [isinstance(v, dict)] *)
Definition isinstance_dict (v : pyval) : bool :=
  match base_value v with PyDict _ => true | _ => false end.

(** [type(v) == dict]: the exact class, subclasses excluded. *)
Definition type_is_dict (v : pyval) : bool :=
  match v with PyDict _ => true | _ => false end.

(** [isinstance(v, str)] *)
Definition isinstance_str (v : pyval) : bool :=
  match base_value v with PyStr _ => true | _ => false end.

(** [isinstance(v, int)]; [bool] is a subclass of [int]. *)
Definition isinstance_int (v : pyval) : bool :=
  match base_value v with PyInt _ | PyBool _ => true | _ => false end.

(** [isinstance(v, PromptTemplate)] *)
Definition isinstance_PromptTemplate (v : pyval) : bool :=
  match base_value v with PyPromptTemplate _ => true | _ => false end.

(** The integer an [int] instance compares as ([True] is 1, [False] is 0). *)
Definition int_value (v : pyval) : option Z :=
  match base_value v with
  | PyInt z => Some z
  | PyBool true => Some 1%Z
  | PyBool false => Some 0%Z
  | _ => None
  end.

(** The characters of a [str] instance. *)
Definition str_value (v : pyval) : option string :=
  match base_value v with PyStr s => Some s | _ => None end.

(** The items of a [dict] instance, in insertion order. *)
Definition dict_items (v : pyval) : option (list (pyval * pyval)) :=
  match base_value v with PyDict d => Some d | _ => None end.

(** Truth value of [v] in a condition. *)
Definition truthy (v : pyval) : bool :=
  match base_value v with
  | PyNone => false
  | PyBool b => b
  | PyInt z => negb (z =? 0)%Z
  | PyFloat q => negb (Qeq_bool q 0%Q)
  | PyStr s => negb (s =? "")%string
  | PyList l => match l with [] => false | _ => true end
  | PyDict d => match d with [] => false | _ => true end
  | PyPromptTemplate _ => true
  | PySub _ _ => true
  end.

(** Whether a dictionary key equals the string [k]. *)
Definition key_is (k : string) (key : pyval) : bool :=
  match str_value key with
  | Some s => (s =? k)%string
  | None => false
  end.

Fixpoint assoc_get (k : string) (d : list (pyval * pyval)) : option pyval :=
  match d with
  | [] => None
  | (key, v) :: d' => if key_is k key then Some v else assoc_get k d'
  end.

(** [d[k] = v] on the items of a dictionary: an existing key keeps its place,
    a new one goes last. *)
Fixpoint assoc_set (k : string) (v : pyval) (d : list (pyval * pyval))
  : list (pyval * pyval) :=
  match d with
  | [] => [(PyStr k, v)]
  | (key, w) :: d' =>
      if key_is k key then (key, v) :: d' else (key, w) :: assoc_set k v d'
  end.

(** ** Exceptions and outcomes *)

(** [Exception msg] is the builtin class the sources raise with a message;
    [Foreign] stands for whatever a library outside this package raises. *)
Inductive exn : Type :=
| Exception (msg : string)
| TypeError
| KeyError (key : string)
| IndexError
| Foreign (name : string).

Inductive outcome (A : Type) : Type :=
| Return (a : A)
| Raise (e : exn).
Arguments Raise {A} e.

Definition returns {A} (o : outcome A) : Prop := exists a, o = Return a.

(** ** Operations on values *)

(** [metadata.items()] of a [dict] instance, in insertion order. *)
Definition items_of (v : pyval) : list (pyval * pyval) :=
  match dict_items v with Some d => d | None => [] end.

(** The operand of [<] and [>] for an [int] instance. *)
Definition as_int (v : pyval) : Z :=
  match int_value v with Some z => z | None => 0%Z end.

(** [d[k]] for a string [k]: only a [dict] instance accepts a string
    subscript. *)
Definition py_getitem (d : pyval) (k : string) : outcome pyval :=
  match base_value d with
  | PyDict items =>
      match assoc_get k items with
      | Some v => Return v
      | None => Raise (KeyError k)
      end
  | _ => Raise TypeError
  end.

(** [d[k] = v] for a string [k]; the dictionary is updated in place, so the
    updated object is what every later read of it sees. *)
Fixpoint py_setitem (d : pyval) (k : string) (v : pyval) : outcome pyval :=
  match d with
  | PyDict items => Return (PyDict (assoc_set k v items))
  | PySub cls b =>
      match py_setitem b k v with
      | Return b' => Return (PySub cls b')
      | Raise e => Raise e
      end
  | _ => Raise TypeError
  end.

(** [k in c] for a string [k]: key membership in a [dict], element membership
    in a [list], substring test in a [str]; iterating a pydantic model yields
    (name, value) pairs, none of which equals a string; the other values are
    not iterable. *)
Definition py_in (k : string) (c : pyval) : outcome bool :=
  match base_value c with
  | PyDict items => Return (existsb (fun kv => key_is k (fst kv)) items)
  | PyList elems => Return (existsb (key_is k) elems)
  | PyStr s => Return (match index 0 k s with Some _ => true | None => false end)
  | PyPromptTemplate _ => Return false
  | _ => Raise TypeError
  end.

(** [prompt_template.dict()] *)
Definition dict_method (v : pyval) : pyval :=
  match base_value v with PyPromptTemplate d => PyDict d | _ => PyNone end.

(** [l[i]] on a list, for a natural index. *)
Definition py_index {A} (l : list A) (i : nat) : outcome A :=
  match nth_error l i with
  | Some x => Return x
  | None => Raise IndexError
  end.

(** The list [l] with the element at index [i] replaced by [x]. *)
Fixpoint list_set {A} (l : list A) (i : nat) (x : A) : list A :=
  match l, i with
  | [], _ => []
  | _ :: l', O => x :: l'
  | y :: l', S i' => y :: list_set l' i' x
  end.

(** Fields typed [str | None], [list[str] | None] and [bool | None], as
    values. *)
Definition of_opt_str (o : option string) : pyval :=
  match o with Some s => PyStr s | None => PyNone end.

Definition of_opt_strs (o : option (list string)) : pyval :=
  match o with Some l => PyList (map PyStr l) | None => PyNone end.

Definition of_opt_bool (o : option bool) : pyval :=
  match o with Some b => PyBool b | None => PyNone end.

(** The block both adapters run when [return_pl_id] is set:
    [if generation_info is None or not isinstance(generation_info, dict):
         generation_info = {}
     generation_info["pl_request_id"] = pl_request_id] *)
Definition set_pl_request_id (generation_info pl_request_id : pyval)
  : outcome pyval :=
  let generation_info :=
    if is_None generation_info || negb (isinstance_dict generation_info)
    then PyDict []
    else generation_info in
  py_setitem generation_info "pl_request_id" pl_request_id.

(** ** The helpers of [promptlayer/utils.py] *)

Module utils.

(** The arguments of one [promptlayer_api_request] call, named after the
    fields of the logging payload. *)
Record CallEvent : Type := mkCallEvent {
  function_name : string;
  provider_type : string;
  args : pyval;
  kwargs : pyval;
  tags : pyval;
  request_response : pyval;
  request_start_time : Q;
  request_end_time : Q;
  usage : pyval;
  metadata : pyval;
  return_pl_id : pyval
}.

(** One call to a helper, with its arguments. *)
Inductive call : Type :=
| promptlayer_api_request (ev : CallEvent)
| promptlayer_api_request_async (ev : CallEvent)
| promptlayer_track_prompt (request_id prompt_template_id version : pyval)
| promptlayer_track_metadata (request_id metadata : pyval)
| promptlayer_track_score (request_id score : pyval)
| promptlayer_get_prompt (prompt_name version : pyval)
| promptlayer_publish_prompt (prompt_name prompt_template tags : pyval).

(** How the helpers and the service behind them answer a call, given the
    calls made before it. *)
Definition world : Type := list call -> call -> outcome pyval.

End utils.

(** ** Computations that call the helpers *)

(** A computation reads the world and the calls made so far, and yields its
    outcome together with the calls it made itself, oldest first. *)
Definition PL (A : Type) : Type :=
  utils.world -> list utils.call -> outcome A * list utils.call.

Definition ret {A} (a : A) : PL A := fun _ _ => (Return a, []).

Definition raise {A} (e : exn) : PL A := fun _ _ => (Raise e, []).

Definition lift {A} (o : outcome A) : PL A := fun _ _ => (o, []).

Definition bind {A B} (m : PL A) (k : A -> PL B) : PL B :=
  fun w h =>
    match m w h with
    | (Return a, t1) => let (r, t2) := k a w (h ++ t1) in (r, t1 ++ t2)
    | (Raise e, t1) => (Raise e, t1)
    end.

Definition perform (c : utils.call) : PL pyval := fun w h => (w h c, [c]).

Notation "x <- m ;; k" := (bind m (fun x => k))
  (at level 61, m at next level, right associativity).
Notation "' pat <- m ;; k" := (bind m (fun x => match x with pat => k end))
  (at level 61, pat pattern, m at next level, right associativity).
Notation "m ;;; k" := (bind m (fun _ => k))
  (at level 61, right associativity).

(** ** [promptlayer/track/track.py] *)

Module track.

Definition prompt (request_id prompt_template_id version : pyval) : PL pyval :=
  perform (utils.promptlayer_track_prompt request_id prompt_template_id version).

(** The loop over [metadata.items()]: the first pair with a key or a value
    that is not a [str] raises. *)
Fixpoint check_items (items : list (pyval * pyval)) : PL unit :=
  match items with
  | [] => ret tt
  | (key, value) :: rest =>
      if negb (isinstance_str key) || negb (isinstance_str value)
      then raise (Exception
        "Please provide a dictionary of metadata with key value pair of strings.")
      else check_items rest
  end.

Definition metadata (request_id metadata : pyval) : PL pyval :=
  if negb (isinstance_dict metadata)
  then raise (Exception "Please provide a dictionary of metadata.")
  else
    check_items (items_of metadata) ;;;
    perform (utils.promptlayer_track_metadata request_id metadata).

Definition score (request_id score : pyval) : PL pyval :=
  if negb (isinstance_int score)
  then raise (Exception "Please provide a int score.")
  else if (as_int score <? 0)%Z || (as_int score >? 100)%Z
  then raise (Exception "Please provide a score between 0 and 100.")
  else perform (utils.promptlayer_track_score request_id score).

End track.

(** ** [promptlayer/prompts/prompts.py] *)

Module prompts.

Section Langchain.

(** [langchain.prompts.loading.load_prompt_from_config] *)
Variable load_prompt_from_config : pyval -> outcome pyval.

Definition get_prompt (prompt_name langchain version : pyval) : PL pyval :=
  prompt <- perform (utils.promptlayer_get_prompt prompt_name version) ;;
  if truthy langchain then
    prompt_template <- lift (py_getitem prompt "prompt_template") ;;
    present <- lift (py_in "_type" prompt_template) ;;
    prompt_template <-
      (if negb present
       then lift (py_setitem prompt_template "_type" (PyStr "prompt"))
       else ret prompt_template) ;;
    lift (load_prompt_from_config prompt_template)
  else
    lift (py_getitem prompt "prompt_template").

End Langchain.

(** The function has no [return]: it yields [None] once the helper is back. *)
Definition publish_prompt (prompt_name tags prompt_template : pyval) : PL pyval :=
  if type_is_dict prompt_template then
    perform (utils.promptlayer_publish_prompt prompt_name prompt_template tags) ;;;
    ret PyNone
  else if isinstance_PromptTemplate prompt_template then
    perform (utils.promptlayer_publish_prompt
               prompt_name (dict_method prompt_template) tags) ;;;
    ret PyNone
  else
    raise (Exception
      "Please provide either a JSON prompt template or a langchain prompt template.").

End prompts.

(** ** The langchain adapters *)

(** The three fields both adapter classes declare: [pl_tags: list[str] | None],
    [pl_project: str | None] and [return_pl_id: bool | None]. *)
Record fields : Type := mkFields {
  pl_tags : option (list string);
  pl_project : option string;
  return_pl_id : option bool
}.

(** [{ "project": self.pl_project if self.pl_project else None }] *)
Definition project_metadata (self : fields) : pyval :=
  PyDict [(PyStr "project",
           if truthy (of_opt_str (pl_project self))
           then of_opt_str (pl_project self)
           else PyNone)].

(** The result of the inherited call is built afresh by langchain for each
    call: every generation is an object of its own with a [generation_info]
    of its own.  The loops below update the generations in place and return
    the same result object; here a result is the value it holds, and the
    value returned is the one it holds after the loop. *)

(** *** [promptlayer/langchain/chat_models/promptlayer_openai.py] *)

Module PromptLayerChatOpenAI.

(** [langchain.schema]: a message, a chat generation and a chat result. *)
Record BaseMessage : Type := mkMessage {
  role : string;
  content : string
}.

Record ChatGeneration : Type := mkChatGeneration {
  text : string;
  message : BaseMessage;
  generation_info : pyval
}.

Record ChatResult : Type := mkChatResult {
  generations : list ChatGeneration;
  llm_output : pyval
}.

(** [generation.generation_info = info] *)
Definition set_generation_info (generation : ChatGeneration) (info : pyval)
  : ChatGeneration :=
  {| text := text generation;
     message := message generation;
     generation_info := info |}.

Section Methods.

(** The methods inherited from [ChatOpenAI]. *)
Variable super_generate :
  list BaseMessage -> option (list string) -> outcome ChatResult.
Variable super_agenerate :
  list BaseMessage -> option (list string) -> outcome ChatResult.
Variable super_create_message_dicts :
  list BaseMessage -> option (list string) -> outcome (pyval * pyval).

Variable self : fields.

(** The body of [for i, generation in enumerate(generated_responses.generations)]
    in [_generate]; the generations are updated in place, the list that comes
    back holds them after the loop. *)
Fixpoint generate_loop (stop : option (list string)) (message_dicts : pyval)
    (request_start_time request_end_time : Q) (llm_output : pyval)
    (generations : list ChatGeneration) : PL (list ChatGeneration) :=
  match generations with
  | [] => ret []
  | generation :: rest =>
      ' (response_dict, params) <-
        lift (super_create_message_dicts [message generation] stop) ;;
      request_usage <- lift (py_getitem llm_output "token_usage") ;;
      pl_request_id <- perform (utils.promptlayer_api_request
        {| utils.function_name := "langchain.PromptLayerChatOpenAI";
           utils.provider_type := "langchain";
           utils.args := message_dicts;
           utils.kwargs := params;
           utils.tags := of_opt_strs (pl_tags self);
           utils.request_response := response_dict;
           utils.request_start_time := request_start_time;
           utils.request_end_time := request_end_time;
           utils.usage := request_usage;
           utils.metadata := project_metadata self;
           utils.return_pl_id := of_opt_bool (return_pl_id self) |}) ;;
      generation <-
        (if truthy (of_opt_bool (return_pl_id self)) then
           info <- lift (set_pl_request_id (generation_info generation)
                                           pl_request_id) ;;
           ret (set_generation_info generation info)
         else ret generation) ;;
      rest <- generate_loop stop message_dicts request_start_time
                request_end_time llm_output rest ;;
      ret (generation :: rest)
  end.

(** [request_start_time] and [request_end_time] are the two readings of
    [datetime.datetime.now().timestamp()], before and after the inherited
    call. *)
Definition _generate (messages : list BaseMessage) (stop : option (list string))
    (request_start_time request_end_time : Q) : PL ChatResult :=
  generated_responses <- lift (super_generate messages stop) ;;
  ' (message_dicts, params) <- lift (super_create_message_dicts messages stop) ;;
  generations <- generate_loop stop message_dicts request_start_time
                   request_end_time (llm_output generated_responses)
                   (generations generated_responses) ;;
  ret {| generations := generations;
         llm_output := llm_output generated_responses |}.

(** The loop of [_agenerate]. *)
Fixpoint agenerate_loop (stop : option (list string)) (message_dicts : pyval)
    (request_start_time request_end_time : Q) (llm_output : pyval)
    (generations : list ChatGeneration) : PL (list ChatGeneration) :=
  match generations with
  | [] => ret []
  | generation :: rest =>
      ' (response_dict, params) <-
        lift (super_create_message_dicts [message generation] stop) ;;
      request_usage <- lift (py_getitem llm_output "token_usage") ;;
      pl_request_id <- perform (utils.promptlayer_api_request_async
        {| utils.function_name := "langchain.PromptLayerChatOpenAI.async";
           utils.provider_type := "langchain";
           utils.args := message_dicts;
           utils.kwargs := params;
           utils.tags := of_opt_strs (pl_tags self);
           utils.request_response := response_dict;
           utils.request_start_time := request_start_time;
           utils.request_end_time := request_end_time;
           utils.usage := request_usage;
           utils.metadata := project_metadata self;
           utils.return_pl_id := of_opt_bool (return_pl_id self) |}) ;;
      generation <-
        (if truthy (of_opt_bool (return_pl_id self)) then
           info <- lift (set_pl_request_id (generation_info generation)
                                           pl_request_id) ;;
           ret (set_generation_info generation info)
         else ret generation) ;;
      rest <- agenerate_loop stop message_dicts request_start_time
                request_end_time llm_output rest ;;
      ret (generation :: rest)
  end.

Definition _agenerate (messages : list BaseMessage) (stop : option (list string))
    (request_start_time request_end_time : Q) : PL ChatResult :=
  generated_responses <- lift (super_agenerate messages stop) ;;
  ' (message_dicts, params) <- lift (super_create_message_dicts messages stop) ;;
  generations <- agenerate_loop stop message_dicts request_start_time
                   request_end_time (llm_output generated_responses)
                   (generations generated_responses) ;;
  ret {| generations := generations;
         llm_output := llm_output generated_responses |}.

End Methods.

End PromptLayerChatOpenAI.

(** *** [promptlayer/langchain/llms/promptlayer_openai.py] *)

Module PromptLayerOpenAI.

(** [langchain.schema]: a generation and the result of a completion call,
    one list of generations per prompt. *)
Record Generation : Type := mkGeneration {
  text : string;
  generation_info : pyval
}.

Record LLMResult : Type := mkLLMResult {
  generations : list (list Generation);
  llm_output : pyval
}.

(** [generation.generation_info = info] *)
Definition set_generation_info (generation : Generation) (info : pyval)
  : Generation :=
  {| text := text generation; generation_info := info |}.

(** The generations after [generations[i][0]] has been updated in place. *)
Definition store (generations : list (list Generation)) (i : nat)
    (generation : Generation) : list (list Generation) :=
  match nth_error generations i with
  | Some row => list_set generations i (list_set row 0 generation)
  | None => generations
  end.

Section Methods.

(** The methods and the property inherited from [OpenAI]. *)
Variable super_generate :
  list string -> option (list string) -> outcome LLMResult.
Variable super_agenerate :
  list string -> option (list string) -> outcome LLMResult.
Variable _identifying_params : pyval.

Variable self : fields.

(** The body of [for i in range(len(prompts))] in [_generate], from index [i]
    on; [prompts] holds [prompts[i:]]. *)
Fixpoint generate_loop (request_start_time request_end_time : Q)
    (llm_output : pyval) (i : nat) (prompts : list string)
    (generations : list (list Generation)) : PL (list (list Generation)) :=
  match prompts with
  | [] => ret generations
  | prompt :: rest =>
      row <- lift (py_index generations i) ;;
      generation <- lift (py_index row 0) ;;
      let resp := PyDict [(PyStr "text", PyStr (text generation))] in
      request_usage <- lift (py_getitem llm_output "token_usage") ;;
      pl_request_id <- perform (utils.promptlayer_api_request
        {| utils.function_name := "langchain.PromptLayerOpenAI";
           utils.provider_type := "langchain";
           utils.args := PyList [PyStr prompt];
           utils.kwargs := _identifying_params;
           utils.tags := of_opt_strs (pl_tags self);
           utils.request_response := resp;
           utils.request_start_time := request_start_time;
           utils.request_end_time := request_end_time;
           utils.usage := request_usage;
           utils.metadata := project_metadata self;
           utils.return_pl_id := of_opt_bool (return_pl_id self) |}) ;;
      generations <-
        (if truthy (of_opt_bool (return_pl_id self)) then
           info <- lift (set_pl_request_id (generation_info generation)
                                           pl_request_id) ;;
           ret (store generations i (set_generation_info generation info))
         else ret generations) ;;
      generate_loop request_start_time request_end_time llm_output
        (S i) rest generations
  end.

Definition _generate (prompts : list string) (stop : option (list string))
    (request_start_time request_end_time : Q) : PL LLMResult :=
  generated_responses <- lift (super_generate prompts stop) ;;
  generations <- generate_loop request_start_time request_end_time
                   (llm_output generated_responses) 0 prompts
                   (generations generated_responses) ;;
  ret {| generations := generations;
         llm_output := llm_output generated_responses |}.

(** The loop of [_agenerate]. *)
Fixpoint agenerate_loop (request_start_time request_end_time : Q)
    (llm_output : pyval) (i : nat) (prompts : list string)
    (generations : list (list Generation)) : PL (list (list Generation)) :=
  match prompts with
  | [] => ret generations
  | prompt :: rest =>
      row <- lift (py_index generations i) ;;
      generation <- lift (py_index row 0) ;;
      let resp := PyDict [(PyStr "text", PyStr (text generation))] in
      request_usage <- lift (py_getitem llm_output "token_usage") ;;
      pl_request_id <- perform (utils.promptlayer_api_request_async
        {| utils.function_name := "langchain.PromptLayerOpenAI.async";
           utils.provider_type := "langchain";
           utils.args := PyList [PyStr prompt];
           utils.kwargs := _identifying_params;
           utils.tags := of_opt_strs (pl_tags self);
           utils.request_response := resp;
           utils.request_start_time := request_start_time;
           utils.request_end_time := request_end_time;
           utils.usage := request_usage;
           utils.metadata := project_metadata self;
           utils.return_pl_id := of_opt_bool (return_pl_id self) |}) ;;
      generations <-
        (if truthy (of_opt_bool (return_pl_id self)) then
           info <- lift (set_pl_request_id (generation_info generation)
                                           pl_request_id) ;;
           ret (store generations i (set_generation_info generation info))
         else ret generations) ;;
      agenerate_loop request_start_time request_end_time llm_output
        (S i) rest generations
  end.

Definition _agenerate (prompts : list string) (stop : option (list string))
    (request_start_time request_end_time : Q) : PL LLMResult :=
  generated_responses <- lift (super_agenerate prompts stop) ;;
  generations <- agenerate_loop request_start_time request_end_time
                   (llm_output generated_responses) 0 prompts
                   (generations generated_responses) ;;
  ret {| generations := generations;
         llm_output := llm_output generated_responses |}.

End Methods.

End PromptLayerOpenAI.

(** ** The adapters with object identity *)

(** The loops write the request id through [generation.generation_info]: the
    generation is an object, and its [generation_info] refers to an object
    that another generation, or the result's [llm_output], may refer to as
    well.  Here every generation object and every object a [generation_info]
    or [llm_output] refers to has an identity (a number); a [store] gives the
    generation and the value found at each identity, and [next] is the first
    identity not yet in use. *)
Module identity.

Record generation (A : Type) : Type := mkGeneration {
  attributes : A;
  generation_info : nat
}.

Record store (A : Type) : Type := mkStore {
  generation_at : nat -> generation A;
  value_at : nat -> pyval;
  next : nat
}.

(** What [generation.generation_info] evaluates to. *)
Definition info_of {A} (s : store A) (g : nat) : pyval :=
  value_at s (generation_info (generation_at s g)).

(** [generation.generation_info = {}]: a new dictionary object, to which
    only this generation refers. *)
Definition assign_new_dict {A} (s : store A) (g : nat) : store A :=
  {| generation_at := fun g' =>
       if (g' =? g)%nat
       then {| attributes := attributes (generation_at s g);
               generation_info := next s |}
       else generation_at s g';
     value_at := fun c => if (c =? next s)%nat then PyDict [] else value_at s c;
     next := S (next s) |}.

(** [generation.generation_info[k] = v]: the object referred to is updated
    in place, for everyone who refers to it. *)
Definition setitem_in_place {A} (s : store A) (g : nat) (k : string) (v : pyval)
  : outcome (store A) :=
  match py_setitem (info_of s g) k v with
  | Return d =>
      Return {| generation_at := generation_at s;
                value_at := fun c =>
                  if (c =? generation_info (generation_at s g))%nat
                  then d else value_at s c;
                next := next s |}
  | Raise e => Raise e
  end.

(** The block both adapters run when [return_pl_id] is set:
    [if generation.generation_info is None or not isinstance(
         generation.generation_info, dict):
         generation.generation_info = {}
     generation.generation_info["pl_request_id"] = pl_request_id] *)
Definition stash_request_id {A} (s : store A) (g : nat) (pl_request_id : pyval)
  : outcome (store A) :=
  let s :=
    if is_None (info_of s g) || negb (isinstance_dict (info_of s g))
    then assign_new_dict s g
    else s in
  setitem_in_place s g "pl_request_id" pl_request_id.

End identity.

(** *** [PromptLayerChatOpenAI] over a store *)

Module PromptLayerChatOpenAI_identity.

(** The attributes of a chat generation that the adapter only reads. *)
Record attributes : Type := mkAttributes {
  text : string;
  message : PromptLayerChatOpenAI.BaseMessage
}.

(** A chat result: the identities of its generations, in order, and the
    identity of its [llm_output]. *)
Record ChatResult : Type := mkChatResult {
  generations : list nat;
  llm_output : nat
}.

Section Methods.

(** The methods inherited from [ChatOpenAI]; the inherited call yields its
    result together with the store its objects live in. *)
Variable super_generate :
  list PromptLayerChatOpenAI.BaseMessage -> option (list string) ->
  outcome (ChatResult * identity.store attributes).
Variable super_agenerate :
  list PromptLayerChatOpenAI.BaseMessage -> option (list string) ->
  outcome (ChatResult * identity.store attributes).
Variable super_create_message_dicts :
  list PromptLayerChatOpenAI.BaseMessage -> option (list string) ->
  outcome (pyval * pyval).

Variable self : fields.

(** The body of [for i, generation in enumerate(generated_responses.generations)]
    in [_generate]. *)
Fixpoint generate_loop (stop : option (list string)) (message_dicts : pyval)
    (request_start_time request_end_time : Q) (llm_output : nat)
    (generations : list nat) (s : identity.store attributes)
  : PL (identity.store attributes) :=
  match generations with
  | [] => ret s
  | generation :: rest =>
      ' (response_dict, params) <-
        lift (super_create_message_dicts
                [message (identity.attributes
                            (identity.generation_at s generation))] stop) ;;
      request_usage <-
        lift (py_getitem (identity.value_at s llm_output) "token_usage") ;;
      pl_request_id <- perform (utils.promptlayer_api_request
        {| utils.function_name := "langchain.PromptLayerChatOpenAI";
           utils.provider_type := "langchain";
           utils.args := message_dicts;
           utils.kwargs := params;
           utils.tags := of_opt_strs (pl_tags self);
           utils.request_response := response_dict;
           utils.request_start_time := request_start_time;
           utils.request_end_time := request_end_time;
           utils.usage := request_usage;
           utils.metadata := project_metadata self;
           utils.return_pl_id := of_opt_bool (return_pl_id self) |}) ;;
      s <-
        (if truthy (of_opt_bool (return_pl_id self))
         then lift (identity.stash_request_id s generation pl_request_id)
         else ret s) ;;
      generate_loop stop message_dicts request_start_time request_end_time
        llm_output rest s
  end.

Definition _generate (messages : list PromptLayerChatOpenAI.BaseMessage)
    (stop : option (list string)) (request_start_time request_end_time : Q)
  : PL (ChatResult * identity.store attributes) :=
  ' (generated_responses, s) <- lift (super_generate messages stop) ;;
  ' (message_dicts, params) <- lift (super_create_message_dicts messages stop) ;;
  s <- generate_loop stop message_dicts request_start_time request_end_time
         (llm_output generated_responses) (generations generated_responses) s ;;
  ret (generated_responses, s).

(** The loop of [_agenerate]. *)
Fixpoint agenerate_loop (stop : option (list string)) (message_dicts : pyval)
    (request_start_time request_end_time : Q) (llm_output : nat)
    (generations : list nat) (s : identity.store attributes)
  : PL (identity.store attributes) :=
  match generations with
  | [] => ret s
  | generation :: rest =>
      ' (response_dict, params) <-
        lift (super_create_message_dicts
                [message (identity.attributes
                            (identity.generation_at s generation))] stop) ;;
      request_usage <-
        lift (py_getitem (identity.value_at s llm_output) "token_usage") ;;
      pl_request_id <- perform (utils.promptlayer_api_request_async
        {| utils.function_name := "langchain.PromptLayerChatOpenAI.async";
           utils.provider_type := "langchain";
           utils.args := message_dicts;
           utils.kwargs := params;
           utils.tags := of_opt_strs (pl_tags self);
           utils.request_response := response_dict;
           utils.request_start_time := request_start_time;
           utils.request_end_time := request_end_time;
           utils.usage := request_usage;
           utils.metadata := project_metadata self;
           utils.return_pl_id := of_opt_bool (return_pl_id self) |}) ;;
      s <-
        (if truthy (of_opt_bool (return_pl_id self))
         then lift (identity.stash_request_id s generation pl_request_id)
         else ret s) ;;
      agenerate_loop stop message_dicts request_start_time request_end_time
        llm_output rest s
  end.

Definition _agenerate (messages : list PromptLayerChatOpenAI.BaseMessage)
    (stop : option (list string)) (request_start_time request_end_time : Q)
  : PL (ChatResult * identity.store attributes) :=
  ' (generated_responses, s) <- lift (super_agenerate messages stop) ;;
  ' (message_dicts, params) <- lift (super_create_message_dicts messages stop) ;;
  s <- agenerate_loop stop message_dicts request_start_time request_end_time
         (llm_output generated_responses) (generations generated_responses) s ;;
  ret (generated_responses, s).

End Methods.

End PromptLayerChatOpenAI_identity.

(** *** [PromptLayerOpenAI] over a store *)

Module PromptLayerOpenAI_identity.

(** A completion result: one row of generation identities per prompt, and
    the identity of its [llm_output]. *)
Record LLMResult : Type := mkLLMResult {
  generations : list (list nat);
  llm_output : nat
}.

Section Methods.

(** The methods and the property inherited from [OpenAI]; the only
    attribute of a generation the adapter reads is its [text]. *)
Variable super_generate :
  list string -> option (list string) ->
  outcome (LLMResult * identity.store string).
Variable super_agenerate :
  list string -> option (list string) ->
  outcome (LLMResult * identity.store string).
Variable _identifying_params : pyval.

Variable self : fields.

(** The body of [for i in range(len(prompts))] in [_generate], from index [i]
    on; [prompts] holds [prompts[i:]]. *)
Fixpoint generate_loop (request_start_time request_end_time : Q)
    (llm_output : nat) (generations : list (list nat)) (i : nat)
    (prompts : list string) (s : identity.store string)
  : PL (identity.store string) :=
  match prompts with
  | [] => ret s
  | prompt :: rest =>
      row <- lift (py_index generations i) ;;
      generation <- lift (py_index row 0) ;;
      let resp :=
        PyDict [(PyStr "text",
                 PyStr (identity.attributes
                          (identity.generation_at s generation)))] in
      request_usage <-
        lift (py_getitem (identity.value_at s llm_output) "token_usage") ;;
      pl_request_id <- perform (utils.promptlayer_api_request
        {| utils.function_name := "langchain.PromptLayerOpenAI";
           utils.provider_type := "langchain";
           utils.args := PyList [PyStr prompt];
           utils.kwargs := _identifying_params;
           utils.tags := of_opt_strs (pl_tags self);
           utils.request_response := resp;
           utils.request_start_time := request_start_time;
           utils.request_end_time := request_end_time;
           utils.usage := request_usage;
           utils.metadata := project_metadata self;
           utils.return_pl_id := of_opt_bool (return_pl_id self) |}) ;;
      s <-
        (if truthy (of_opt_bool (return_pl_id self))
         then lift (identity.stash_request_id s generation pl_request_id)
         else ret s) ;;
      generate_loop request_start_time request_end_time llm_output generations
        (S i) rest s
  end.

Definition _generate (prompts : list string) (stop : option (list string))
    (request_start_time request_end_time : Q)
  : PL (LLMResult * identity.store string) :=
  ' (generated_responses, s) <- lift (super_generate prompts stop) ;;
  s <- generate_loop request_start_time request_end_time
         (llm_output generated_responses) (generations generated_responses)
         0 prompts s ;;
  ret (generated_responses, s).

(** The loop of [_agenerate]. *)
Fixpoint agenerate_loop (request_start_time request_end_time : Q)
    (llm_output : nat) (generations : list (list nat)) (i : nat)
    (prompts : list string) (s : identity.store string)
  : PL (identity.store string) :=
  match prompts with
  | [] => ret s
  | prompt :: rest =>
      row <- lift (py_index generations i) ;;
      generation <- lift (py_index row 0) ;;
      let resp :=
        PyDict [(PyStr "text",
                 PyStr (identity.attributes
                          (identity.generation_at s generation)))] in
      request_usage <-
        lift (py_getitem (identity.value_at s llm_output) "token_usage") ;;
      pl_request_id <- perform (utils.promptlayer_api_request_async
        {| utils.function_name := "langchain.PromptLayerOpenAI.async";
           utils.provider_type := "langchain";
           utils.args := PyList [PyStr prompt];
           utils.kwargs := _identifying_params;
           utils.tags := of_opt_strs (pl_tags self);
           utils.request_response := resp;
           utils.request_start_time := request_start_time;
           utils.request_end_time := request_end_time;
           utils.usage := request_usage;
           utils.metadata := project_metadata self;
           utils.return_pl_id := of_opt_bool (return_pl_id self) |}) ;;
      s <-
        (if truthy (of_opt_bool (return_pl_id self))
         then lift (identity.stash_request_id s generation pl_request_id)
         else ret s) ;;
      agenerate_loop request_start_time request_end_time llm_output generations
        (S i) rest s
  end.

Definition _agenerate (prompts : list string) (stop : option (list string))
    (request_start_time request_end_time : Q)
  : PL (LLMResult * identity.store string) :=
  ' (generated_responses, s) <- lift (super_agenerate prompts stop) ;;
  s <- agenerate_loop request_start_time request_end_time
         (llm_output generated_responses) (generations generated_responses)
         0 prompts s ;;
  ret (generated_responses, s).

End Methods.

End PromptLayerOpenAI_identity.

(** ** Sample worlds and inputs *)

(** A service that acknowledges every call with a fresh request number. *)
Definition world_counting : utils.world :=
  fun h _ => Return (PyInt (Z.of_nat (List.length h) + 1)).

(** A service whose helpers come back empty-handed. *)
Definition world_silent : utils.world := fun _ _ => Return PyNone.

(** A service that cannot be reached: every helper raises. *)
Definition world_unreachable : utils.world :=
  fun _ _ => Raise (Foreign "requests.exceptions.ConnectionError").

(** A service that answers with an empty dictionary, and one that answers
    with a null template. *)
Definition world_empty_answer : utils.world := fun _ _ => Return (PyDict []).

Definition world_null_template : utils.world :=
  fun _ _ => Return (PyDict [(PyStr "prompt_template", PyNone)]).

(** A service that serves one stored template without a ["_type"] entry. *)
Definition stored_template : pyval :=
  PyDict [(PyStr "template", PyStr "Hello {name}");
          (PyStr "input_variables", PyList [PyStr "name"])].

Definition world_template : utils.world :=
  fun _ _ => Return (PyDict [(PyStr "prompt_template", stored_template)]).

(** A loader that hands back the configuration it is given. *)
Definition load_identity : pyval -> outcome pyval := fun config => Return config.

(** Two clock readings, two seconds apart. *)
Definition clock_before : Q := (1699000000 # 1)%Q.
Definition clock_after : Q := (1699000002 # 1)%Q.

(** Two adapter configurations: one that asks for request ids and names no
    project, one that names a project and asks for no ids. *)
Definition self_with_ids : fields :=
  {| pl_tags := Some ["demo"]; pl_project := None; return_pl_id := Some true |}.

Definition self_plain : fields :=
  {| pl_tags := None; pl_project := Some "billing"; return_pl_id := Some false |}.

Definition token_usage : pyval :=
  PyDict [(PyStr "prompt_tokens", PyInt 5); (PyStr "completion_tokens", PyInt 7);
          (PyStr "total_tokens", PyInt 12)].

Definition sample_llm_output : pyval :=
  PyDict [(PyStr "token_usage", token_usage);
          (PyStr "model_name", PyStr "gpt-3.5-turbo")].

(** A chat exchange: one question, one answer. *)
Definition hello : PromptLayerChatOpenAI.BaseMessage :=
  {| PromptLayerChatOpenAI.role := "user";
     PromptLayerChatOpenAI.content := "Hello" |}.

Definition reply : PromptLayerChatOpenAI.BaseMessage :=
  {| PromptLayerChatOpenAI.role := "assistant";
     PromptLayerChatOpenAI.content := "Hi there" |}.

Definition chat_result : PromptLayerChatOpenAI.ChatResult :=
  {| PromptLayerChatOpenAI.generations :=
       [ {| PromptLayerChatOpenAI.text := "Hi there";
            PromptLayerChatOpenAI.message := reply;
            PromptLayerChatOpenAI.generation_info := PyNone |} ];
     PromptLayerChatOpenAI.llm_output := sample_llm_output |}.

Definition chat_super
  : list PromptLayerChatOpenAI.BaseMessage -> option (list string) ->
    outcome PromptLayerChatOpenAI.ChatResult :=
  fun _ _ => Return chat_result.

Definition chat_super_failing
  : list PromptLayerChatOpenAI.BaseMessage -> option (list string) ->
    outcome PromptLayerChatOpenAI.ChatResult :=
  fun _ _ => Raise (Foreign "openai.error.RateLimitError").

Definition message_dicts_of (messages : list PromptLayerChatOpenAI.BaseMessage)
    (stop : option (list string)) : outcome (pyval * pyval) :=
  Return
    (PyList
       (map (fun m =>
               PyDict [(PyStr "role", PyStr (PromptLayerChatOpenAI.role m));
                       (PyStr "content",
                        PyStr (PromptLayerChatOpenAI.content m))])
            messages),
     PyDict [(PyStr "model", PyStr "gpt-3.5-turbo")]).

(** An inherited chat call that comes back without generations and without
    [llm_output]. *)
Definition chat_super_empty
  : list PromptLayerChatOpenAI.BaseMessage -> option (list string) ->
    outcome PromptLayerChatOpenAI.ChatResult :=
  fun _ _ => Return {| PromptLayerChatOpenAI.generations := [];
                       PromptLayerChatOpenAI.llm_output := PyNone |}.

(** A completion call: one prompt answered with two generations. *)
Definition finish_info : pyval := PyDict [(PyStr "finish_reason", PyStr "stop")].

Definition first_choice : PromptLayerOpenAI.Generation :=
  {| PromptLayerOpenAI.text := "first";
     PromptLayerOpenAI.generation_info := finish_info |}.

Definition second_choice : PromptLayerOpenAI.Generation :=
  {| PromptLayerOpenAI.text := "second";
     PromptLayerOpenAI.generation_info := finish_info |}.

Definition completion_result : PromptLayerOpenAI.LLMResult :=
  {| PromptLayerOpenAI.generations := [[first_choice; second_choice]];
     PromptLayerOpenAI.llm_output := sample_llm_output |}.

Definition completion_super
  : list string -> option (list string) -> outcome PromptLayerOpenAI.LLMResult :=
  fun _ _ => Return completion_result.

Definition completion_super_failing
  : list string -> option (list string) -> outcome PromptLayerOpenAI.LLMResult :=
  fun _ _ => Raise (Foreign "openai.error.RateLimitError").

Definition sample_identifying_params : pyval :=
  PyDict [(PyStr "model_name", PyStr "text-davinci-003")].

(** An inherited chat call in streaming mode: one generation, and no
    [llm_output]. *)
Definition streamed_generation : PromptLayerChatOpenAI.ChatGeneration :=
  {| PromptLayerChatOpenAI.text := "Hi there";
     PromptLayerChatOpenAI.message := reply;
     PromptLayerChatOpenAI.generation_info := PyNone |}.

Definition chat_super_streaming
  : list PromptLayerChatOpenAI.BaseMessage -> option (list string) ->
    outcome PromptLayerChatOpenAI.ChatResult :=
  fun _ _ => Return {| PromptLayerChatOpenAI.generations := [streamed_generation];
                       PromptLayerChatOpenAI.llm_output := PyNone |}.







(** Two prompts, one generation each, and both generations refer to one and
    the same dictionary (at 0); [llm_output] is at 1. *)
Definition shared_store : identity.store string :=
  {| identity.generation_at := fun g =>
       match g with
       | O => {| identity.attributes := "first";
                 identity.generation_info := 0 |}
       | _ => {| identity.attributes := "second";
                 identity.generation_info := 0 |}
       end;
     identity.value_at := fun c =>
       match c with
       | O => finish_info
       | _ => sample_llm_output
       end;
     identity.next := 2 |}.

Definition completion_super_shared
  : list string -> option (list string) ->
    outcome (PromptLayerOpenAI_identity.LLMResult * identity.store string) :=
  fun _ _ =>
    Return ({| PromptLayerOpenAI_identity.generations := [[0%nat]; [1%nat]];
               PromptLayerOpenAI_identity.llm_output := 1 |},
            shared_store).

(** One prompt, one generation, whose [generation_info] is the very
    dictionary [llm_output] refers to (at 0). *)
Definition aliased_store : identity.store string :=
  {| identity.generation_at := fun _ =>
       {| identity.attributes := "first"; identity.generation_info := 0 |};
     identity.value_at := fun _ => sample_llm_output;
     identity.next := 1 |}.

Definition completion_super_aliased
  : list string -> option (list string) ->
    outcome (PromptLayerOpenAI_identity.LLMResult * identity.store string) :=
  fun _ _ =>
    Return ({| PromptLayerOpenAI_identity.generations := [[0%nat]];
               PromptLayerOpenAI_identity.llm_output := 0 |},
            aliased_store).

(** What [generation.generation_info] of generation [g] holds when the run
    has returned, and what the object at [c] holds then. *)
Definition final_info {R A}
    (run : outcome (R * identity.store A) * list utils.call) (g : nat)
  : option pyval :=
  match fst run with
  | Return (_, s) => Some (identity.info_of s g)
  | Raise _ => None
  end.

Definition final_value {R A}
    (run : outcome (R * identity.store A) * list utils.call) (c : nat)
  : option pyval :=
  match fst run with
  | Return (_, s) => Some (identity.value_at s c)
  | Raise _ => None
  end.


(** ** The input shapes the tracking helpers accept *)

(** A string-to-string mapping: a [dict] instance whose keys and values are
    all [str] instances. *)
Definition str_str_mapping (v : pyval) : bool :=
  isinstance_dict v &&
  forallb (fun kv => isinstance_str (fst kv) && isinstance_str (snd kv))
          (items_of v).

(** An integer in the closed range from 0 to 100. *)
Definition score_in_range (v : pyval) : bool :=
  isinstance_int v && (0 <=? as_int v)%Z && (as_int v <=? 100)%Z.

(** ** The two loops of each adapter, side by side *)

(** The sync and the async loop of an adapter differ in the function name
    they report and in the helper they call.  [chat_loop] and
    [completion_loop] abstract over both; the loops of the four methods are
    shown to be instances of them, so that a property is argued once. *)
Fixpoint chat_loop (fname : string) (helper : utils.CallEvent -> utils.call)
    (create_message_dicts :
       list PromptLayerChatOpenAI.BaseMessage -> option (list string) ->
       outcome (pyval * pyval))
    (self : fields) (stop : option (list string)) (message_dicts : pyval)
    (request_start_time request_end_time : Q) (llm_output : pyval)
    (generations : list PromptLayerChatOpenAI.ChatGeneration)
  : PL (list PromptLayerChatOpenAI.ChatGeneration) :=
  match generations with
  | [] => ret []
  | generation :: rest =>
      ' (response_dict, params) <-
        lift (create_message_dicts
                [PromptLayerChatOpenAI.message generation] stop) ;;
      request_usage <- lift (py_getitem llm_output "token_usage") ;;
      pl_request_id <- perform (helper
        {| utils.function_name := fname;
           utils.provider_type := "langchain";
           utils.args := message_dicts;
           utils.kwargs := params;
           utils.tags := of_opt_strs (pl_tags self);
           utils.request_response := response_dict;
           utils.request_start_time := request_start_time;
           utils.request_end_time := request_end_time;
           utils.usage := request_usage;
           utils.metadata := project_metadata self;
           utils.return_pl_id := of_opt_bool (return_pl_id self) |}) ;;
      generation <-
        (if truthy (of_opt_bool (return_pl_id self)) then
           info <- lift (set_pl_request_id
                           (PromptLayerChatOpenAI.generation_info generation)
                           pl_request_id) ;;
           ret (PromptLayerChatOpenAI.set_generation_info generation info)
         else ret generation) ;;
      rest <- chat_loop fname helper create_message_dicts self stop
                message_dicts request_start_time request_end_time
                llm_output rest ;;
      ret (generation :: rest)
  end.

Fixpoint completion_loop (fname : string)
    (helper : utils.CallEvent -> utils.call) (identifying_params : pyval)
    (self : fields) (request_start_time request_end_time : Q)
    (llm_output : pyval) (i : nat) (prompts : list string)
    (generations : list (list PromptLayerOpenAI.Generation))
  : PL (list (list PromptLayerOpenAI.Generation)) :=
  match prompts with
  | [] => ret generations
  | prompt :: rest =>
      row <- lift (py_index generations i) ;;
      generation <- lift (py_index row 0) ;;
      let resp :=
        PyDict [(PyStr "text", PyStr (PromptLayerOpenAI.text generation))] in
      request_usage <- lift (py_getitem llm_output "token_usage") ;;
      pl_request_id <- perform (helper
        {| utils.function_name := fname;
           utils.provider_type := "langchain";
           utils.args := PyList [PyStr prompt];
           utils.kwargs := identifying_params;
           utils.tags := of_opt_strs (pl_tags self);
           utils.request_response := resp;
           utils.request_start_time := request_start_time;
           utils.request_end_time := request_end_time;
           utils.usage := request_usage;
           utils.metadata := project_metadata self;
           utils.return_pl_id := of_opt_bool (return_pl_id self) |}) ;;
      generations <-
        (if truthy (of_opt_bool (return_pl_id self)) then
           info <- lift (set_pl_request_id
                           (PromptLayerOpenAI.generation_info generation)
                           pl_request_id) ;;
           ret (PromptLayerOpenAI.store generations i
                  (PromptLayerOpenAI.set_generation_info generation info))
         else ret generations) ;;
      completion_loop fname helper identifying_params self request_start_time
        request_end_time llm_output (S i) rest generations
  end.

(** The CallEvent an adapter builds for one generation. *)
Definition adapter_event (fname : string) (self : fields)
    (args kwargs response : pyval) (request_start_time request_end_time : Q)
    (request_usage : pyval) : utils.CallEvent :=
  {| utils.function_name := fname;
     utils.provider_type := "langchain";
     utils.args := args;
     utils.kwargs := kwargs;
     utils.tags := of_opt_strs (pl_tags self);
     utils.request_response := response;
     utils.request_start_time := request_start_time;
     utils.request_end_time := request_end_time;
     utils.usage := request_usage;
     utils.metadata := project_metadata self;
     utils.return_pl_id := of_opt_bool (return_pl_id self) |}.

(** The methods around the loops, in the same way. *)
Definition chat_method (fname : string) (helper : utils.CallEvent -> utils.call)
    (super_method :
       list PromptLayerChatOpenAI.BaseMessage -> option (list string) ->
       outcome PromptLayerChatOpenAI.ChatResult)
    (create_message_dicts :
       list PromptLayerChatOpenAI.BaseMessage -> option (list string) ->
       outcome (pyval * pyval))
    (self : fields) (messages : list PromptLayerChatOpenAI.BaseMessage)
    (stop : option (list string)) (request_start_time request_end_time : Q)
  : PL PromptLayerChatOpenAI.ChatResult :=
  generated_responses <- lift (super_method messages stop) ;;
  ' (message_dicts, params) <- lift (create_message_dicts messages stop) ;;
  generations <- chat_loop fname helper create_message_dicts self stop
                   message_dicts request_start_time request_end_time
                   (PromptLayerChatOpenAI.llm_output generated_responses)
                   (PromptLayerChatOpenAI.generations generated_responses) ;;
  ret {| PromptLayerChatOpenAI.generations := generations;
         PromptLayerChatOpenAI.llm_output :=
           PromptLayerChatOpenAI.llm_output generated_responses |}.

Definition completion_method (fname : string)
    (helper : utils.CallEvent -> utils.call)
    (super_method :
       list string -> option (list string) ->
       outcome PromptLayerOpenAI.LLMResult)
    (identifying_params : pyval) (self : fields) (prompts : list string)
    (stop : option (list string)) (request_start_time request_end_time : Q)
  : PL PromptLayerOpenAI.LLMResult :=
  generated_responses <- lift (super_method prompts stop) ;;
  generations <- completion_loop fname helper identifying_params self
                   request_start_time request_end_time
                   (PromptLayerOpenAI.llm_output generated_responses) 0 prompts
                   (PromptLayerOpenAI.generations generated_responses) ;;
  ret {| PromptLayerOpenAI.generations := generations;
         PromptLayerOpenAI.llm_output :=
           PromptLayerOpenAI.llm_output generated_responses |}.

(** The helper answers every report with a value (a request id or [None]). *)
Definition reports_return (w : utils.world)
    (helper : utils.CallEvent -> utils.call) : Prop :=
  forall h ev, returns (w h (helper ev)).

(** [info'] is a dictionary that holds [rid] under ["pl_request_id"] and,
    under every other key, what [info] held when [info] was a dictionary,
    and nothing when it was not. *)
Definition extended_with_request_id (info info' rid : pyval) : Prop :=
  isinstance_dict info' = true /\
  py_getitem info' "pl_request_id" = Return rid /\
  forall k, k <> "pl_request_id" ->
    py_getitem info' k =
      if isinstance_dict info then py_getitem info k else Raise (KeyError k).

(** The report at position [i] of [trace], made after the calls [h] and the
    earlier ones of [trace], was answered with a request id, and [info'] is
    [info] extended with that id. *)
Definition request_id_stashed (w : utils.world)
    (helper : utils.CallEvent -> utils.call) (h trace : list utils.call)
    (i : nat) (info info' : pyval) : Prop :=
  exists ev rid,
    nth_error trace i = Some (helper ev) /\
    w (h ++ firstn i trace) (helper ev) = Return rid /\
    extended_with_request_id info info' rid.





(** The generations [gens] are distinct objects, the objects their
    [generation_info] refers to exist in the store, and no two of them refer
    to the same dictionary. *)
Definition separate_generations {A} (s : identity.store A) (gens : list nat)
  : Prop :=
  NoDup gens /\
  (forall g, In g gens ->
     (identity.generation_info (identity.generation_at s g)
        < identity.next s)%nat) /\
  (forall g g', In g gens -> In g' gens -> g <> g' ->
     identity.generation_info (identity.generation_at s g) =
     identity.generation_info (identity.generation_at s g') ->
     isinstance_dict (identity.info_of s g) = false).





(** The same call as the async method makes it: the async helper, and
    [".async"] after the function name; every other field as it is. *)
Definition as_async (c : utils.call) : utils.call :=
  match c with
  | utils.promptlayer_api_request ev =>
      utils.promptlayer_api_request_async
        {| utils.function_name := utils.function_name ev ++ ".async";
           utils.provider_type := utils.provider_type ev;
           utils.args := utils.args ev;
           utils.kwargs := utils.kwargs ev;
           utils.tags := utils.tags ev;
           utils.request_response := utils.request_response ev;
           utils.request_start_time := utils.request_start_time ev;
           utils.request_end_time := utils.request_end_time ev;
           utils.usage := utils.usage ev;
           utils.metadata := utils.metadata ev;
           utils.return_pl_id := utils.return_pl_id ev |}
  | _ => c
  end.

(** A mapping from strings to strings, or [None]. *)
Definition str_str_mapping_or_null (v : pyval) : bool :=
  is_None v || str_str_mapping v.

(** The value [set_pl_request_id] leaves in [generation_info]. *)
Definition annotated (generation_info pl_request_id : pyval) : pyval :=
  match set_pl_request_id generation_info pl_request_id with
  | Return info => info
  | Raise _ => generation_info
  end.

(** The CallEvent a call to a reporting helper carries. *)
Definition event_of (c : utils.call) : option utils.CallEvent :=
  match c with
  | utils.promptlayer_api_request ev => Some ev
  | utils.promptlayer_api_request_async ev => Some ev
  | _ => None
  end.

(** ** Facts about values and computations *)

Lemma int_value_isinstance (v : pyval) :
  isinstance_int v = true <-> exists n, int_value v = Some n.
Proof.
  unfold isinstance_int, int_value.
  destruct (base_value v) as [| [|] | | | | | | |]; split; intros H;
    try discriminate; eauto; destruct H as [n H]; discriminate.
Qed.

Lemma as_int_value (v : pyval) (n : Z) : int_value v = Some n -> as_int v = n.
Proof. unfold as_int. now intros ->. Qed.

Lemma isinstance_dict_items (v : pyval) :
  isinstance_dict v = true <-> exists d, dict_items v = Some d.
Proof.
  unfold isinstance_dict, dict_items.
  destruct (base_value v); split; intros H; try discriminate; eauto;
    destruct H as [d H]; discriminate.
Qed.

Lemma bind_ret_l {A B} (a : A) (k : A -> PL B) (w : utils.world) h :
  bind (ret a) k w h = k a w h.
Proof.
  unfold bind, ret. rewrite app_nil_r. now destruct (k a w h).
Qed.

Lemma bind_lift_return {A B} (a : A) (k : A -> PL B) (w : utils.world) h :
  bind (lift (Return a)) k w h = k a w h.
Proof. apply bind_ret_l. Qed.

(** ** Facts about the sample worlds and inputs *)

Lemma world_counting_reports helper : reports_return world_counting helper.
Proof. intros h ev. eexists; reflexivity. Qed.

Lemma world_silent_reports helper : reports_return world_silent helper.
Proof. intros h ev. eexists; reflexivity. Qed.

Lemma message_dicts_of_returns stop :
  forall ms, returns (message_dicts_of ms stop).
Proof. intros ms. eexists; reflexivity. Qed.

Lemma sample_usage_returns : returns (py_getitem sample_llm_output "token_usage").
Proof. eexists; reflexivity. Qed.

Lemma completion_result_rows :
  forall i, (i < List.length ["Say hi"])%nat ->
    exists g tl,
      nth_error (PromptLayerOpenAI.generations completion_result) i
        = Some (g :: tl).
Proof.
  intros [| i] Hi; [| simpl in Hi; lia].
  exists first_choice, [second_choice]. reflexivity.
Qed.

(** ** [track]: local validation *)

Lemma check_items_ok (items : list (pyval * pyval)) (w : utils.world) h :
  forallb (fun kv => isinstance_str (fst kv) && isinstance_str (snd kv)) items
    = true ->
  track.check_items items w h = (Return tt, []).
Proof.
  induction items as [| [key value] rest IH]; simpl; intros H.
  - reflexivity.
  - apply andb_prop in H as [Hkv Hrest].
    apply andb_prop in Hkv as [-> ->]. simpl. now apply IH.
Qed.

Lemma check_items_bad (items : list (pyval * pyval)) (w : utils.world) h :
  forallb (fun kv => isinstance_str (fst kv) && isinstance_str (snd kv)) items
    = false ->
  track.check_items items w h =
    (Raise (Exception
       "Please provide a dictionary of metadata with key value pair of strings."),
     []).
Proof.
  induction items as [| [key value] rest IH]; simpl; intros H.
  - discriminate.
  - destruct (isinstance_str key); simpl in *; [| reflexivity].
    destruct (isinstance_str value); simpl in *; [| reflexivity].
    now apply IH.
Qed.

Lemma metadata_valid (w : utils.world) h (request_id metadata : pyval) :
  str_str_mapping metadata = true ->
  track.metadata request_id metadata w h =
    (w h (utils.promptlayer_track_metadata request_id metadata),
     [utils.promptlayer_track_metadata request_id metadata]).
Proof.
  unfold str_str_mapping, track.metadata. intros H.
  apply andb_prop in H as [-> Hitems]. simpl.
  unfold bind. rewrite (check_items_ok _ w h Hitems).
  unfold perform. now rewrite app_nil_r.
Qed.

Lemma metadata_invalid (w : utils.world) h (request_id metadata : pyval) :
  str_str_mapping metadata = false ->
  exists msg, track.metadata request_id metadata w h = (Raise (Exception msg), []).
Proof.
  unfold str_str_mapping, track.metadata. intros H.
  destruct (isinstance_dict metadata); simpl in *.
  - unfold bind. rewrite (check_items_bad _ w h H). eexists; reflexivity.
  - eexists; reflexivity.
Qed.

Lemma score_valid (w : utils.world) h (request_id score : pyval) :
  score_in_range score = true ->
  track.score request_id score w h =
    (w h (utils.promptlayer_track_score request_id score),
     [utils.promptlayer_track_score request_id score]).
Proof.
  unfold score_in_range, track.score. intros H.
  apply andb_prop in H as [H Hhi]. apply andb_prop in H as [-> Hlo]. simpl.
  replace (as_int score <? 0)%Z with false by (symmetry; apply Z.ltb_ge; lia).
  replace (as_int score >? 100)%Z with false
    by (symmetry; rewrite Z.gtb_ltb; apply Z.ltb_ge; lia).
  reflexivity.
Qed.

Lemma score_invalid (w : utils.world) h (request_id score : pyval) :
  score_in_range score = false ->
  exists msg, track.score request_id score w h = (Raise (Exception msg), []).
Proof.
  unfold score_in_range, track.score. intros H.
  destruct (isinstance_int score); simpl in *; [| eexists; reflexivity].
  destruct (as_int score <? 0)%Z eqn:Hlo; simpl; [eexists; reflexivity |].
  destruct (as_int score >? 100)%Z eqn:Hhi; simpl; [eexists; reflexivity |].
  exfalso. apply Z.ltb_ge in Hlo. rewrite Z.gtb_ltb in Hhi.
  apply Z.ltb_ge in Hhi.
  apply andb_false_iff in H as [H | H].
  - apply Z.leb_gt in H. lia.
  - apply Z.leb_gt in H. lia.
Qed.

(** C5. For every request id, [track.score] raises its validation exception,
    without calling the service, when the score is not an [int] instance or is
    an integer below 0 or above 100 (so at -1 and at 101); for an integer from
    0 to 100, both bounds included (so at 0 and at 100), it makes the one
    [promptlayer_track_score] call and yields what the call yields. *)
Theorem score_bounds_inclusive :
  forall (w : utils.world) (h : list utils.call) (request_id score : pyval),
    let remote := utils.promptlayer_track_score request_id score in
    (isinstance_int score = false ->
     track.score request_id score w h =
       (Raise (Exception "Please provide a int score."), [])) /\
    (forall n, int_value score = Some n -> (n < 0 \/ 100 < n)%Z ->
     track.score request_id score w h =
       (Raise (Exception "Please provide a score between 0 and 100."), [])) /\
    (forall n, int_value score = Some n -> (0 <= n <= 100)%Z ->
     track.score request_id score w h = (w h remote, [remote])) /\
    (score = PyInt (-1) \/ score = PyInt 101 ->
     track.score request_id score w h =
       (Raise (Exception "Please provide a score between 0 and 100."), [])) /\
    (score = PyInt 0 \/ score = PyInt 100 ->
     track.score request_id score w h = (w h remote, [remote])).
Proof.
  intros w h request_id score remote.
  assert (Hout : forall n, int_value score = Some n -> (n < 0 \/ 100 < n)%Z ->
            track.score request_id score w h =
              (Raise (Exception "Please provide a score between 0 and 100."), [])).
  { intros n Hn Hrange. unfold track.score.
    replace (isinstance_int score) with true
      by (symmetry; apply int_value_isinstance; eauto).
    rewrite (as_int_value _ Hn). simpl.
    destruct Hrange as [Hlo | Hhi].
    - apply Z.ltb_lt in Hlo. now rewrite Hlo.
    - destruct (n <? 0)%Z; [reflexivity |]. simpl.
      rewrite Z.gtb_ltb. apply Z.ltb_lt in Hhi. now rewrite Hhi. }
  assert (Hin : forall n, int_value score = Some n -> (0 <= n <= 100)%Z ->
            track.score request_id score w h = (w h remote, [remote])).
  { intros n Hn Hrange. apply score_valid. unfold score_in_range.
    replace (isinstance_int score) with true
      by (symmetry; apply int_value_isinstance; eauto).
    rewrite (as_int_value _ Hn). simpl.
    apply andb_true_intro; split; apply Z.leb_le; lia. }
  repeat split.
  - intros Hint. unfold track.score. now rewrite Hint.
  - exact Hout.
  - exact Hin.
  - intros [-> | ->]; [apply (Hout (-1)%Z) | apply (Hout 101%Z)];
      (reflexivity || lia).
  - intros [-> | ->]; [apply (Hin 0%Z) | apply (Hin 100%Z)];
      (reflexivity || lia).
Qed.

Lemma score_bounds_inclusive_witness :
  track.score (PyInt 7) (PyFloat (1 # 2)%Q) world_counting [] =
    (Raise (Exception "Please provide a int score."), []) /\
  track.score (PyInt 7) (PyInt 101) world_counting [] =
    (Raise (Exception "Please provide a score between 0 and 100."), []) /\
  track.score (PyInt 7) (PyInt 100) world_counting [] =
    (Return (PyInt 1), [utils.promptlayer_track_score (PyInt 7) (PyInt 100)]).
Proof.
  split; [| split].
  - apply (score_bounds_inclusive world_counting [] (PyInt 7) (PyFloat (1 # 2)%Q)).
    reflexivity.
  - apply (score_bounds_inclusive world_counting [] (PyInt 7) (PyInt 101)).
    right; reflexivity.
  - apply (score_bounds_inclusive world_counting [] (PyInt 7) (PyInt 100)).
    right; reflexivity.
Defined.

(** C6. For every request id, [track.metadata] raises its validation
    exception, without calling the service, when the argument is not a [dict]
    instance or when some key or some value of the dictionary is not a [str]
    instance (as in [{"a": 1}]); when every key and every value is a string
    (as in [{"a": "1"}]) it makes the one [promptlayer_track_metadata] call
    and yields what the call yields. *)
Theorem metadata_strings_only :
  forall (w : utils.world) (h : list utils.call) (request_id metadata : pyval),
    let remote := utils.promptlayer_track_metadata request_id metadata in
    (isinstance_dict metadata = false ->
     track.metadata request_id metadata w h =
       (Raise (Exception "Please provide a dictionary of metadata."), [])) /\
    (isinstance_dict metadata = true ->
     (exists key value, In (key, value) (items_of metadata) /\
        (isinstance_str key = false \/ isinstance_str value = false)) ->
     track.metadata request_id metadata w h =
       (Raise (Exception
          "Please provide a dictionary of metadata with key value pair of strings."),
        [])) /\
    (isinstance_dict metadata = true ->
     (forall key value, In (key, value) (items_of metadata) ->
        isinstance_str key = true /\ isinstance_str value = true) ->
     track.metadata request_id metadata w h = (w h remote, [remote])).
Proof.
  intros w h request_id metadata remote. repeat split.
  - intros Hd. unfold track.metadata. now rewrite Hd.
  - intros Hd (key & value & Hin & Hbad). unfold track.metadata.
    rewrite Hd. simpl. unfold bind. rewrite check_items_bad; [reflexivity |].
    apply not_true_is_false. intros Hall.
    rewrite forallb_forall in Hall. specialize (Hall _ Hin). simpl in Hall.
    apply andb_prop in Hall as [Hk Hv].
    destruct Hbad as [Hbad | Hbad]; congruence.
  - intros Hd Hall. apply metadata_valid. unfold str_str_mapping.
    rewrite Hd. simpl. apply forallb_forall. intros [key value] Hin.
    simpl. destruct (Hall _ _ Hin) as [-> ->]. reflexivity.
Qed.

Lemma metadata_strings_only_witness :
  track.metadata (PyInt 7) (PyList [PyStr "a"]) world_counting [] =
    (Raise (Exception "Please provide a dictionary of metadata."), []) /\
  track.metadata (PyInt 7) (PyDict [(PyStr "a", PyInt 1)]) world_counting [] =
    (Raise (Exception
       "Please provide a dictionary of metadata with key value pair of strings."),
     []) /\
  track.metadata (PyInt 7) (PyDict [(PyStr "a", PyStr "1")]) world_counting [] =
    (Return (PyInt 1),
     [utils.promptlayer_track_metadata (PyInt 7) (PyDict [(PyStr "a", PyStr "1")])]).
Proof.
  split; [| split].
  - apply (metadata_strings_only world_counting [] (PyInt 7) (PyList [PyStr "a"])).
    reflexivity.
  - apply (metadata_strings_only world_counting [] (PyInt 7)
             (PyDict [(PyStr "a", PyInt 1)])).
    + reflexivity.
    + exists (PyStr "a"), (PyInt 1). split; [left; reflexivity | right; reflexivity].
  - apply (metadata_strings_only world_counting [] (PyInt 7)
             (PyDict [(PyStr "a", PyStr "1")])).
    + reflexivity.
    + intros key value [Heq | []]. inversion Heq. split; reflexivity.
Defined.

(** C2, as the code has it. [track.metadata] and [track.score] check the
    shape of their input first and, when it is not a string-to-string mapping
    or not an integer from 0 to 100, raise before any call to the service;
    [track.prompt] checks nothing: whatever its arguments, it hands them to
    [promptlayer_track_prompt] and yields what that call yields. *)
Theorem tracking_local_validation :
  forall (w : utils.world) (h : list utils.call) (request_id : pyval),
    (forall metadata, str_str_mapping metadata = false ->
       exists msg,
         track.metadata request_id metadata w h = (Raise (Exception msg), [])) /\
    (forall score, score_in_range score = false ->
       exists msg,
         track.score request_id score w h = (Raise (Exception msg), [])) /\
    (forall prompt_template_id version,
       track.prompt request_id prompt_template_id version w h =
         (w h (utils.promptlayer_track_prompt request_id prompt_template_id version),
          [utils.promptlayer_track_prompt request_id prompt_template_id version])).
Proof.
  intros w h request_id. split; [| split].
  - intros metadata. apply metadata_invalid.
  - intros score. apply score_invalid.
  - reflexivity.
Qed.

Lemma tracking_local_validation_witness :
  (exists msg, track.metadata (PyInt 7) (PyDict [(PyStr "a", PyInt 1)])
                 world_counting [] = (Raise (Exception msg), [])) /\
  (exists msg, track.score (PyInt 7) (PyInt (-1))
                 world_counting [] = (Raise (Exception msg), [])).
Proof.
  split.
  - apply (tracking_local_validation world_counting [] (PyInt 7)). reflexivity.
  - apply (tracking_local_validation world_counting [] (PyInt 7)). reflexivity.
Defined.

(** C2, as stated, fails for [track.prompt]: with a request id of [None] and
    a list where the template id belongs, the call still reaches the service
    and no exception is raised locally. *)
Lemma track_prompt_reaches_service :
  track.prompt PyNone (PyList []) (PyFloat (1 # 2)%Q) world_silent [] =
    (Return PyNone,
     [utils.promptlayer_track_prompt PyNone (PyList []) (PyFloat (1 # 2)%Q)]) /\
  ~ (exists e, track.prompt PyNone (PyList []) (PyFloat (1 # 2)%Q) world_silent [] =
                 (Raise e, [])).
Proof.
  split; [reflexivity |]. intros [e He]. discriminate He.
Qed.

(** ** [prompts]: publishing and fetching templates *)

(** C7. [prompts.publish_prompt] makes the one [promptlayer_publish_prompt]
    call, and yields [None] once that call is back, when the template is a
    plain [dict] (passed on as it is) or a [PromptTemplate] instance (passed
    on as its [.dict()]); for every other value, the integer 42 and the
    default [None] among them, it raises its validation exception without
    calling the service. *)
Theorem publish_prompt_template_kinds :
  forall (w : utils.world) (h : list utils.call)
         (prompt_name tags prompt_template : pyval),
    (type_is_dict prompt_template = true ->
     let remote :=
       utils.promptlayer_publish_prompt prompt_name prompt_template tags in
     snd (prompts.publish_prompt prompt_name tags prompt_template w h) = [remote] /\
     (forall ack, w h remote = Return ack ->
        fst (prompts.publish_prompt prompt_name tags prompt_template w h)
          = Return PyNone)) /\
    (type_is_dict prompt_template = false ->
     isinstance_PromptTemplate prompt_template = true ->
     let remote :=
       utils.promptlayer_publish_prompt prompt_name
         (dict_method prompt_template) tags in
     snd (prompts.publish_prompt prompt_name tags prompt_template w h) = [remote] /\
     (forall ack, w h remote = Return ack ->
        fst (prompts.publish_prompt prompt_name tags prompt_template w h)
          = Return PyNone)) /\
    (type_is_dict prompt_template = false ->
     isinstance_PromptTemplate prompt_template = false ->
     prompts.publish_prompt prompt_name tags prompt_template w h =
       (Raise (Exception
          "Please provide either a JSON prompt template or a langchain prompt template."),
        [])) /\
    (prompt_template = PyInt 42 \/ prompt_template = PyNone ->
     prompts.publish_prompt prompt_name tags prompt_template w h =
       (Raise (Exception
          "Please provide either a JSON prompt template or a langchain prompt template."),
        [])).
Proof.
  intros w h prompt_name tags prompt_template.
  split; [| split; [| split]].
  - intros Hdict remote. unfold prompts.publish_prompt. rewrite Hdict.
    unfold bind, perform. fold remote. split.
    + destruct (w h remote); reflexivity.
    + intros ack Hack. now rewrite Hack.
  - intros Hdict Htemplate remote. unfold prompts.publish_prompt.
    rewrite Hdict, Htemplate. unfold bind, perform. fold remote. split.
    + destruct (w h remote); reflexivity.
    + intros ack Hack. now rewrite Hack.
  - intros Hdict Htemplate. unfold prompts.publish_prompt.
    now rewrite Hdict, Htemplate.
  - intros [-> | ->]; reflexivity.
Qed.

Lemma publish_prompt_template_kinds_witness :
  prompts.publish_prompt (PyStr "x") (PyList []) stored_template world_counting []
    = (Return PyNone,
       [utils.promptlayer_publish_prompt (PyStr "x") stored_template (PyList [])]) /\
  snd (prompts.publish_prompt (PyStr "x") (PyList [])
         (PyPromptTemplate [(PyStr "template", PyStr "Hi")]) world_counting [])
    = [utils.promptlayer_publish_prompt (PyStr "x")
         (PyDict [(PyStr "template", PyStr "Hi")]) (PyList [])] /\
  prompts.publish_prompt (PyStr "x") (PyList [])
    (PySub "OrderedDict" stored_template) world_counting []
    = (Raise (Exception
         "Please provide either a JSON prompt template or a langchain prompt template."),
       []) /\
  prompts.publish_prompt (PyStr "x") (PyList []) (PyInt 42) world_counting []
    = (Raise (Exception
         "Please provide either a JSON prompt template or a langchain prompt template."),
       []).
Proof.
  pose proof (publish_prompt_template_kinds world_counting []
                (PyStr "x") (PyList []) stored_template) as (Hdict & _).
  pose proof (publish_prompt_template_kinds world_counting []
                (PyStr "x") (PyList [])
                (PyPromptTemplate [(PyStr "template", PyStr "Hi")]))
    as (_ & Htemplate & _).
  pose proof (publish_prompt_template_kinds world_counting []
                (PyStr "x") (PyList []) (PySub "OrderedDict" stored_template))
    as (_ & _ & Hother & _).
  pose proof (publish_prompt_template_kinds world_counting []
                (PyStr "x") (PyList []) (PyInt 42)) as (_ & _ & _ & Hint).
  split; [| split; [| split]].
  - destruct (Hdict eq_refl) as [Hcalls Hout].
    specialize (Hout (PyInt 1) eq_refl).
    destruct (prompts.publish_prompt _ _ _ _ _) as [o c]. simpl in *.
    now subst.
  - apply (Htemplate eq_refl eq_refl).
  - apply (Hother eq_refl eq_refl).
  - apply Hint. left; reflexivity.
Defined.

Lemma py_in_dict (k : string) (c : pyval) (items : list (pyval * pyval)) :
  dict_items c = Some items ->
  py_in k c =
    Return (match assoc_get k items with Some _ => true | None => false end).
Proof.
  unfold dict_items, py_in. destruct (base_value c); try discriminate.
  intros [= ->]. f_equal.
  induction items as [| [key v] rest IH]; simpl; [reflexivity |].
  destruct (key_is k key); simpl; [reflexivity | exact IH].
Qed.

Lemma py_setitem_dict (k : string) (v d : pyval) (items : list (pyval * pyval)) :
  dict_items d = Some items ->
  exists d', py_setitem d k v = Return d' /\
             dict_items d' = Some (assoc_set k v items).
Proof.
  unfold dict_items. induction d; simpl; try discriminate.
  - intros [= ->]. eexists; split; reflexivity.
  - intros Hd. destruct (IHd Hd) as (d' & -> & Hd'). eexists; split; eauto.
Qed.

Lemma assoc_set_absent (k : string) (v : pyval) (items : list (pyval * pyval)) :
  assoc_get k items = None -> assoc_set k v items = items ++ [(PyStr k, v)].
Proof.
  induction items as [| [key w] rest IH]; simpl; [reflexivity |].
  destruct (key_is k key); [discriminate |]. intros H. now rewrite IH.
Qed.

Lemma assoc_get_set_same (k : string) (v : pyval) (items : list (pyval * pyval)) :
  assoc_get k (assoc_set k v items) = Some v.
Proof.
  induction items as [| [key w] rest IH]; simpl.
  - unfold key_is, str_value. simpl. now rewrite String.eqb_refl.
  - destruct (key_is k key) eqn:Hk; simpl; rewrite Hk; [reflexivity | exact IH].
Qed.

Lemma key_is_two (k k' : string) (key : pyval) :
  k <> k' -> key_is k key = true -> key_is k' key = false.
Proof.
  unfold key_is. destruct (str_value key) as [s |]; [| discriminate].
  intros Hne Hk. apply String.eqb_eq in Hk. subst s.
  now apply String.eqb_neq.
Qed.

Lemma assoc_get_set_other (k k' : string) (v : pyval)
    (items : list (pyval * pyval)) :
  k <> k' -> assoc_get k' (assoc_set k v items) = assoc_get k' items.
Proof.
  intros Hne. induction items as [| [key w] rest IH]; simpl.
  - unfold key_is, str_value. simpl.
    destruct (String.eqb_spec k k'); [contradiction | reflexivity].
  - destruct (key_is k key) eqn:Hk; simpl.
    + now rewrite (key_is_two _ Hne Hk).
    + now rewrite IH.
Qed.

(** C10. [prompts.get_prompt] fetches the prompt with one
    [promptlayer_get_prompt] call.  With a true [langchain] argument and a
    template dictionary that has no ["_type"] key, the loader receives the
    dictionary with ["_type"] = ["prompt"] added after its other items; when
    the key is there, the loader receives the dictionary as fetched; with a
    false [langchain] argument (the default) the fetched template is returned
    as it is, whatever it holds. *)
Theorem get_prompt_type_default :
  forall (load : pyval -> outcome pyval) (w : utils.world) (h : list utils.call)
         (prompt_name langchain version prompt prompt_template : pyval),
    let remote := utils.promptlayer_get_prompt prompt_name version in
    w h remote = Return prompt ->
    py_getitem prompt "prompt_template" = Return prompt_template ->
    (truthy langchain = false ->
     prompts.get_prompt load prompt_name langchain version w h =
       (Return prompt_template, [remote])) /\
    (forall items, truthy langchain = true ->
     dict_items prompt_template = Some items ->
     assoc_get "_type" items = None ->
     exists completed,
       dict_items completed = Some (items ++ [(PyStr "_type", PyStr "prompt")]) /\
       prompts.get_prompt load prompt_name langchain version w h =
         (load completed, [remote])) /\
    (forall items value, truthy langchain = true ->
     dict_items prompt_template = Some items ->
     assoc_get "_type" items = Some value ->
     prompts.get_prompt load prompt_name langchain version w h =
       (load prompt_template, [remote])).
Proof.
  intros load w h prompt_name langchain version prompt prompt_template remote
         Hremote Hget.
  split; [| split].
  - intros Hl. unfold prompts.get_prompt, bind, perform.
    fold remote. rewrite Hremote, Hl. unfold lift. now rewrite Hget.
  - intros items Hl Hitems Habsent.
    destruct (@py_setitem_dict "_type" (PyStr "prompt") _ _ Hitems)
      as (completed & Hset & Hcompleted).
    exists completed. split.
    + now rewrite Hcompleted, (@assoc_set_absent _ _ _ Habsent).
    + unfold prompts.get_prompt, bind, perform.
      fold remote. rewrite Hremote, Hl. unfold lift.
      rewrite Hget, (@py_in_dict "_type" _ _ Hitems), Habsent. simpl.
      rewrite Hset. simpl. now destruct (load completed).
  - intros items value Hl Hitems Hpresent.
    unfold prompts.get_prompt, bind, perform.
    fold remote. rewrite Hremote, Hl. unfold lift.
    rewrite Hget, (@py_in_dict "_type" _ _ Hitems), Hpresent. simpl.
    now destruct (load prompt_template).
Qed.

Lemma get_prompt_type_default_witness :
  prompts.get_prompt load_identity (PyStr "greeting") (PyBool false) PyNone
    world_template [] =
    (Return stored_template,
     [utils.promptlayer_get_prompt (PyStr "greeting") PyNone]) /\
  exists completed,
    dict_items completed =
      Some (items_of stored_template ++ [(PyStr "_type", PyStr "prompt")]) /\
    prompts.get_prompt load_identity (PyStr "greeting") (PyBool true) PyNone
      world_template [] =
      (Return completed,
       [utils.promptlayer_get_prompt (PyStr "greeting") PyNone]).
Proof.
  destruct (get_prompt_type_default load_identity world_template []
              (PyStr "greeting") (PyBool false) PyNone
              (prompt := PyDict [(PyStr "prompt_template", stored_template)])
              (prompt_template := stored_template) eq_refl eq_refl)
    as (Hplain & _).
  destruct (get_prompt_type_default load_identity world_template []
              (PyStr "greeting") (PyBool true) PyNone
              (prompt := PyDict [(PyStr "prompt_template", stored_template)])
              (prompt_template := stored_template) eq_refl eq_refl)
    as (_ & Hdefault & _).
  split.
  - apply Hplain. reflexivity.
  - apply (Hdefault (items_of stored_template)); reflexivity.
Defined.

(** ** The adapters: the loops as instances of the common shape *)

Lemma chat_generate_loop_shape create_message_dicts self stop message_dicts
    t0 t1 llm_output generations :
  PromptLayerChatOpenAI.generate_loop create_message_dicts self stop
    message_dicts t0 t1 llm_output generations =
  chat_loop "langchain.PromptLayerChatOpenAI" utils.promptlayer_api_request
    create_message_dicts self stop message_dicts t0 t1 llm_output generations.
Proof.
  induction generations as [| generation rest IH]; simpl;
    [reflexivity | now rewrite IH].
Qed.

Lemma chat_agenerate_loop_shape create_message_dicts self stop message_dicts
    t0 t1 llm_output generations :
  PromptLayerChatOpenAI.agenerate_loop create_message_dicts self stop
    message_dicts t0 t1 llm_output generations =
  chat_loop "langchain.PromptLayerChatOpenAI.async"
    utils.promptlayer_api_request_async
    create_message_dicts self stop message_dicts t0 t1 llm_output generations.
Proof.
  induction generations as [| generation rest IH]; simpl;
    [reflexivity | now rewrite IH].
Qed.

Lemma bind_ext {A B} (m : PL A) (k1 k2 : A -> PL B) (w : utils.world) h :
  (forall a w' h', k1 a w' h' = k2 a w' h') -> bind m k1 w h = bind m k2 w h.
Proof.
  intros Hk. unfold bind. destruct (m w h) as [[a | e] t1]; [| reflexivity].
  now rewrite Hk.
Qed.

Lemma completion_generate_loop_shape identifying_params self t0 t1 llm_output
    prompts :
  forall i generations w h,
    PromptLayerOpenAI.generate_loop identifying_params self t0 t1 llm_output
      i prompts generations w h =
    completion_loop "langchain.PromptLayerOpenAI" utils.promptlayer_api_request
      identifying_params self t0 t1 llm_output i prompts generations w h.
Proof.
  induction prompts as [| prompt rest IH]; intros i generations w h; simpl;
    [reflexivity |].
  repeat (apply bind_ext; intros). apply IH.
Qed.

Lemma completion_agenerate_loop_shape identifying_params self t0 t1 llm_output
    prompts :
  forall i generations w h,
    PromptLayerOpenAI.agenerate_loop identifying_params self t0 t1 llm_output
      i prompts generations w h =
    completion_loop "langchain.PromptLayerOpenAI.async"
      utils.promptlayer_api_request_async
      identifying_params self t0 t1 llm_output i prompts generations w h.
Proof.
  induction prompts as [| prompt rest IH]; intros i generations w h; simpl;
    [reflexivity |].
  repeat (apply bind_ext; intros). apply IH.
Qed.

(** ** The adapters: one turn of a loop *)

Lemma set_pl_request_id_returns (info rid : pyval) :
  set_pl_request_id info rid = Return (annotated info rid).
Proof.
  unfold annotated, set_pl_request_id.
  destruct (is_None info || negb (isinstance_dict info)) eqn:Hfresh.
  - reflexivity.
  - apply orb_false_elim in Hfresh as [_ Hd].
    apply negb_false_iff, isinstance_dict_items in Hd as [items Hitems].
    destruct (@py_setitem_dict "pl_request_id" rid _ _ Hitems) as (d' & -> & _).
    reflexivity.
Qed.

Lemma chat_loop_step fname helper create_message_dicts self stop message_dicts
    t0 t1 llm_output generation rest (w : utils.world) h :
  chat_loop fname helper create_message_dicts self stop message_dicts t0 t1
    llm_output (generation :: rest) w h =
  match create_message_dicts [PromptLayerChatOpenAI.message generation] stop with
  | Raise e => (Raise e, [])
  | Return (response_dict, params) =>
      match py_getitem llm_output "token_usage" with
      | Raise e => (Raise e, [])
      | Return request_usage =>
          let c := helper (adapter_event fname self message_dicts params
                             response_dict t0 t1 request_usage) in
          match w h c with
          | Raise e => (Raise e, [c])
          | Return pl_request_id =>
              let generation' :=
                if truthy (of_opt_bool (return_pl_id self))
                then PromptLayerChatOpenAI.set_generation_info generation
                       (annotated
                          (PromptLayerChatOpenAI.generation_info generation)
                          pl_request_id)
                else generation in
              match chat_loop fname helper create_message_dicts self stop
                      message_dicts t0 t1 llm_output rest w (h ++ [c]) with
              | (Return rest', t) => (Return (generation' :: rest'), c :: t)
              | (Raise e, t) => (Raise e, c :: t)
              end
          end
      end
  end.
Proof.
  cbn [chat_loop].
  destruct (create_message_dicts _ stop) as [[response_dict params] | e];
    [rewrite bind_lift_return | reflexivity].
  destruct (py_getitem llm_output "token_usage") as [request_usage | e];
    [rewrite bind_lift_return | reflexivity].
  fold (adapter_event fname self message_dicts params response_dict t0 t1
          request_usage).
  set (c := helper _). cbv zeta.
  unfold bind at 1. unfold perform at 1.
  destruct (w h c) as [pl_request_id | e]; [| reflexivity].
  destruct (truthy (of_opt_bool (return_pl_id self))).
  - unfold bind at 1. unfold bind at 1.
    rewrite set_pl_request_id_returns. cbn [lift ret app].
    unfold bind. unfold ret. rewrite ?app_nil_r.
    destruct (chat_loop _ _ _ _ _ _ _ _ _ rest w _) as [[rest' | e] t];
      cbn; now rewrite ?app_nil_r.
  - unfold bind. unfold ret. cbn [app]. rewrite ?app_nil_r.
    destruct (chat_loop _ _ _ _ _ _ _ _ _ rest w _) as [[rest' | e] t];
      cbn; now rewrite ?app_nil_r.
Qed.

Lemma completion_loop_step fname helper identifying_params self t0 t1
    llm_output i prompt rest generations (w : utils.world) h :
  completion_loop fname helper identifying_params self t0 t1 llm_output i
    (prompt :: rest) generations w h =
  match py_index generations i with
  | Raise e => (Raise e, [])
  | Return row =>
      match py_index row 0 with
      | Raise e => (Raise e, [])
      | Return generation =>
          match py_getitem llm_output "token_usage" with
          | Raise e => (Raise e, [])
          | Return request_usage =>
              let c := helper (adapter_event fname self (PyList [PyStr prompt])
                         identifying_params
                         (PyDict [(PyStr "text",
                                   PyStr (PromptLayerOpenAI.text generation))])
                         t0 t1 request_usage) in
              match w h c with
              | Raise e => (Raise e, [c])
              | Return pl_request_id =>
                  let generations' :=
                    if truthy (of_opt_bool (return_pl_id self))
                    then PromptLayerOpenAI.store generations i
                           (PromptLayerOpenAI.set_generation_info generation
                              (annotated
                                 (PromptLayerOpenAI.generation_info generation)
                                 pl_request_id))
                    else generations in
                  let (r, t) :=
                    completion_loop fname helper identifying_params self t0 t1
                      llm_output (S i) rest generations' w (h ++ [c]) in
                  (r, c :: t)
              end
          end
      end
  end.
Proof.
  cbn [completion_loop].
  destruct (py_index generations i) as [row | e];
    [rewrite bind_lift_return | reflexivity].
  destruct (py_index row 0) as [generation | e];
    [rewrite bind_lift_return | reflexivity].
  cbv zeta.
  destruct (py_getitem llm_output "token_usage") as [request_usage | e];
    [rewrite bind_lift_return | reflexivity].
  fold (adapter_event fname self (PyList [PyStr prompt]) identifying_params
          (PyDict [(PyStr "text", PyStr (PromptLayerOpenAI.text generation))])
          t0 t1 request_usage).
  set (c := helper _).
  unfold bind at 1. unfold perform at 1.
  destruct (w h c) as [pl_request_id | e]; [| reflexivity].
  destruct (truthy (of_opt_bool (return_pl_id self))).
  - unfold bind at 1. unfold bind at 1.
    rewrite set_pl_request_id_returns. cbn [lift ret app].
    rewrite ?app_nil_r.
    destruct (completion_loop _ _ _ _ _ _ _ _ rest _ w _) as [r t].
    reflexivity.
  - unfold bind at 1. cbn [ret app]. rewrite ?app_nil_r.
    destruct (completion_loop _ _ _ _ _ _ _ _ rest _ w _) as [r t].
    reflexivity.
Qed.

Lemma chat_generate_shape super_generate create_message_dicts self messages
    stop t0 t1 (w : utils.world) h :
  PromptLayerChatOpenAI._generate super_generate create_message_dicts self
    messages stop t0 t1 w h =
  chat_method "langchain.PromptLayerChatOpenAI" utils.promptlayer_api_request
    super_generate create_message_dicts self messages stop t0 t1 w h.
Proof.
  unfold PromptLayerChatOpenAI._generate, chat_method.
  apply bind_ext; intros generated_responses w' h'.
  apply bind_ext; intros [message_dicts params] w'' h''.
  now rewrite chat_generate_loop_shape.
Qed.

Lemma chat_agenerate_shape super_agenerate create_message_dicts self messages
    stop t0 t1 (w : utils.world) h :
  PromptLayerChatOpenAI._agenerate super_agenerate create_message_dicts self
    messages stop t0 t1 w h =
  chat_method "langchain.PromptLayerChatOpenAI.async"
    utils.promptlayer_api_request_async
    super_agenerate create_message_dicts self messages stop t0 t1 w h.
Proof.
  unfold PromptLayerChatOpenAI._agenerate, chat_method.
  apply bind_ext; intros generated_responses w' h'.
  apply bind_ext; intros [message_dicts params] w'' h''.
  now rewrite chat_agenerate_loop_shape.
Qed.

Lemma completion_generate_shape super_generate identifying_params self prompts
    stop t0 t1 (w : utils.world) h :
  PromptLayerOpenAI._generate super_generate identifying_params self
    prompts stop t0 t1 w h =
  completion_method "langchain.PromptLayerOpenAI" utils.promptlayer_api_request
    super_generate identifying_params self prompts stop t0 t1 w h.
Proof.
  unfold PromptLayerOpenAI._generate, completion_method.
  apply bind_ext; intros generated_responses w' h'.
  unfold bind. now rewrite completion_generate_loop_shape.
Qed.

Lemma completion_agenerate_shape super_agenerate identifying_params self
    prompts stop t0 t1 (w : utils.world) h :
  PromptLayerOpenAI._agenerate super_agenerate identifying_params self
    prompts stop t0 t1 w h =
  completion_method "langchain.PromptLayerOpenAI.async"
    utils.promptlayer_api_request_async
    super_agenerate identifying_params self prompts stop t0 t1 w h.
Proof.
  unfold PromptLayerOpenAI._agenerate, completion_method.
  apply bind_ext; intros generated_responses w' h'.
  unfold bind. now rewrite completion_agenerate_loop_shape.
Qed.

Lemma chat_method_step fname helper super_method create_message_dicts self
    messages stop t0 t1 (w : utils.world) h :
  chat_method fname helper super_method create_message_dicts self messages
    stop t0 t1 w h =
  match super_method messages stop with
  | Raise e => (Raise e, [])
  | Return generated_responses =>
      match create_message_dicts messages stop with
      | Raise e => (Raise e, [])
      | Return (message_dicts, _) =>
          match chat_loop fname helper create_message_dicts self stop
                  message_dicts t0 t1
                  (PromptLayerChatOpenAI.llm_output generated_responses)
                  (PromptLayerChatOpenAI.generations generated_responses) w h
          with
          | (Return generations, t) =>
              (Return
                 {| PromptLayerChatOpenAI.generations := generations;
                    PromptLayerChatOpenAI.llm_output :=
                      PromptLayerChatOpenAI.llm_output generated_responses |},
               t)
          | (Raise e, t) => (Raise e, t)
          end
      end
  end.
Proof.
  unfold chat_method.
  destruct (super_method messages stop) as [generated_responses | e];
    [rewrite bind_lift_return | reflexivity].
  destruct (create_message_dicts messages stop) as [[message_dicts params] | e];
    [rewrite bind_lift_return | reflexivity].
  unfold bind, ret.
  destruct (chat_loop _ _ _ _ _ _ _ _ _ _ w h) as [[generations | e] t];
    [now rewrite app_nil_r | reflexivity].
Qed.

Lemma completion_method_step fname helper super_method identifying_params self
    prompts stop t0 t1 (w : utils.world) h :
  completion_method fname helper super_method identifying_params self prompts
    stop t0 t1 w h =
  match super_method prompts stop with
  | Raise e => (Raise e, [])
  | Return generated_responses =>
      match completion_loop fname helper identifying_params self t0 t1
              (PromptLayerOpenAI.llm_output generated_responses) 0 prompts
              (PromptLayerOpenAI.generations generated_responses) w h
      with
      | (Return generations, t) =>
          (Return
             {| PromptLayerOpenAI.generations := generations;
                PromptLayerOpenAI.llm_output :=
                  PromptLayerOpenAI.llm_output generated_responses |},
           t)
      | (Raise e, t) => (Raise e, t)
      end
  end.
Proof.
  unfold completion_method.
  destruct (super_method prompts stop) as [generated_responses | e];
    [rewrite bind_lift_return | reflexivity].
  unfold bind, ret.
  destruct (completion_loop _ _ _ _ _ _ _ _ _ _ w h) as [[generations | e] t];
    [now rewrite app_nil_r | reflexivity].
Qed.

(** ** The adapters: what every report carries *)

Lemma chat_loop_reports (P : utils.CallEvent -> Prop) fname helper
    create_message_dicts self stop message_dicts t0 t1 llm_output
    (w : utils.world) :
  (forall params response_dict request_usage,
     P (adapter_event fname self message_dicts params response_dict t0 t1
          request_usage)) ->
  forall generations h,
    Forall (fun c => exists ev, c = helper ev /\ P ev)
      (snd (chat_loop fname helper create_message_dicts self stop
              message_dicts t0 t1 llm_output generations w h)).
Proof.
  intros HP. induction generations as [| generation rest IH]; intros h.
  - constructor.
  - rewrite chat_loop_step.
    destruct (create_message_dicts _ stop) as [[response_dict params] | e];
      [| constructor].
    destruct (py_getitem llm_output "token_usage") as [request_usage | e];
      [| constructor].
    cbv zeta.
    destruct (w h _) as [pl_request_id | e].
    + specialize (IH (h ++ [helper (adapter_event fname self message_dicts
                                      params response_dict t0 t1
                                      request_usage)])).
      destruct (chat_loop _ _ _ _ _ _ _ _ _ rest w _) as [[rest' | e] t];
        simpl in *; constructor; eauto.
    + simpl. constructor; eauto.
Qed.

Lemma completion_loop_reports (P : utils.CallEvent -> Prop) fname helper
    identifying_params self t0 t1 llm_output (w : utils.world) :
  (forall prompt response request_usage,
     P (adapter_event fname self (PyList [PyStr prompt]) identifying_params
          response t0 t1 request_usage)) ->
  forall prompts i generations h,
    Forall (fun c => exists ev, c = helper ev /\ P ev)
      (snd (completion_loop fname helper identifying_params self t0 t1
              llm_output i prompts generations w h)).
Proof.
  intros HP. induction prompts as [| prompt rest IH]; intros i generations h.
  - constructor.
  - rewrite completion_loop_step.
    destruct (py_index generations i) as [row | e]; [| constructor].
    destruct (py_index row 0) as [generation | e]; [| constructor].
    destruct (py_getitem llm_output "token_usage") as [request_usage | e];
      [| constructor].
    cbv zeta.
    destruct (w h _) as [pl_request_id | e].
    + match goal with
      | |- context [completion_loop ?f ?hp ?ip ?s ?a ?b ?l ?j rest ?g w ?h'] =>
          specialize (IH j g h');
          destruct (completion_loop f hp ip s a b l j rest g w h') as [r t]
      end.
      simpl in *. constructor; eauto.
    + simpl. constructor; eauto.
Qed.

Lemma chat_method_reports (P : utils.CallEvent -> Prop) fname helper
    super_method create_message_dicts self messages stop t0 t1
    (w : utils.world) h :
  (forall args kwargs response request_usage,
     P (adapter_event fname self args kwargs response t0 t1 request_usage)) ->
  Forall (fun c => exists ev, c = helper ev /\ P ev)
    (snd (chat_method fname helper super_method create_message_dicts self
            messages stop t0 t1 w h)).
Proof.
  intros HP. rewrite chat_method_step.
  destruct (super_method messages stop) as [generated_responses | e];
    [| constructor].
  destruct (create_message_dicts messages stop) as [[message_dicts params] | e];
    [| constructor].
  pose proof (@chat_loop_reports P fname helper create_message_dicts self stop
                message_dicts t0 t1
                (PromptLayerChatOpenAI.llm_output generated_responses) w
                (fun _ _ _ => HP _ _ _ _)
                (PromptLayerChatOpenAI.generations generated_responses) h)
    as Hloop.
  destruct (chat_loop _ _ _ _ _ _ _ _ _ _ w h) as [[generations | e] t];
    exact Hloop.
Qed.

Lemma completion_method_reports (P : utils.CallEvent -> Prop) fname helper
    super_method identifying_params self prompts stop t0 t1
    (w : utils.world) h :
  (forall args kwargs response request_usage,
     P (adapter_event fname self args kwargs response t0 t1 request_usage)) ->
  Forall (fun c => exists ev, c = helper ev /\ P ev)
    (snd (completion_method fname helper super_method identifying_params self
            prompts stop t0 t1 w h)).
Proof.
  intros HP. rewrite completion_method_step.
  destruct (super_method prompts stop) as [generated_responses | e];
    [| constructor].
  pose proof (@completion_loop_reports P fname helper identifying_params self
                t0 t1 (PromptLayerOpenAI.llm_output generated_responses) w
                (fun _ _ _ => HP _ _ _ _) prompts 0
                (PromptLayerOpenAI.generations generated_responses) h)
    as Hloop.
  destruct (completion_loop _ _ _ _ _ _ _ _ _ _ w h) as [[generations | e] t];
    exact Hloop.
Qed.

Lemma project_metadata_entry (self : fields) :
  project_metadata self =
  PyDict [(PyStr "project",
           match pl_project self with
           | Some s => if (s =? "")%string then PyNone else PyStr s
           | None => PyNone
           end)].
Proof.
  unfold project_metadata. destruct (pl_project self) as [s |]; [| reflexivity].
  cbn. now destruct (s =? "")%string.
Qed.

(** C9. When the inherited call raises, each of the four adapter methods
    raises that same exception and has called no helper: nothing is reported,
    nothing catches or replaces the exception. *)
Theorem target_exception_propagates :
  forall (e : exn) (self : fields) (stop : option (list string)) (t0 t1 : Q)
         (w : utils.world) (h : list utils.call),
    (forall super_generate create_message_dicts messages,
       super_generate messages stop = Raise e ->
       PromptLayerChatOpenAI._generate super_generate create_message_dicts
         self messages stop t0 t1 w h = (Raise e, [])) /\
    (forall super_agenerate create_message_dicts messages,
       super_agenerate messages stop = Raise e ->
       PromptLayerChatOpenAI._agenerate super_agenerate create_message_dicts
         self messages stop t0 t1 w h = (Raise e, [])) /\
    (forall super_generate identifying_params prompts,
       super_generate prompts stop = Raise e ->
       PromptLayerOpenAI._generate super_generate identifying_params
         self prompts stop t0 t1 w h = (Raise e, [])) /\
    (forall super_agenerate identifying_params prompts,
       super_agenerate prompts stop = Raise e ->
       PromptLayerOpenAI._agenerate super_agenerate identifying_params
         self prompts stop t0 t1 w h = (Raise e, [])).
Proof.
  intros e self stop t0 t1 w h. repeat split.
  - intros super_generate create_message_dicts messages Hraise.
    unfold PromptLayerChatOpenAI._generate. rewrite Hraise. reflexivity.
  - intros super_agenerate create_message_dicts messages Hraise.
    unfold PromptLayerChatOpenAI._agenerate. rewrite Hraise. reflexivity.
  - intros super_generate identifying_params prompts Hraise.
    unfold PromptLayerOpenAI._generate. rewrite Hraise. reflexivity.
  - intros super_agenerate identifying_params prompts Hraise.
    unfold PromptLayerOpenAI._agenerate. rewrite Hraise. reflexivity.
Qed.

Lemma target_exception_propagates_witness :
  PromptLayerChatOpenAI._generate chat_super_failing message_dicts_of
    self_with_ids [hello] None clock_before clock_after
    world_counting [] =
    (Raise (Foreign "openai.error.RateLimitError"), []) /\
  PromptLayerOpenAI._agenerate completion_super_failing
    sample_identifying_params self_plain ["Say hi"] None
    clock_before clock_after world_counting [] =
    (Raise (Foreign "openai.error.RateLimitError"), []).
Proof.
  split.
  - apply (target_exception_propagates (Foreign "openai.error.RateLimitError")
             self_with_ids None clock_before clock_after
             world_counting []).
    reflexivity.
  - apply (target_exception_propagates (Foreign "openai.error.RateLimitError")
             self_plain None clock_before clock_after
             world_counting []).
    reflexivity.
Defined.

(** C4, as the code has it. Every CallEvent the four adapter methods hand to
    a reporting helper carries as metadata a dictionary with the single key
    ["project"]; its value is the [pl_project] string when that is set and
    not empty, and [None] otherwise.  So the metadata is a string-to-string
    mapping exactly when a non-empty project is configured. *)
Theorem adapter_metadata_project_entry :
  forall (self : fields) (stop : option (list string)) (t0 t1 : Q)
         (w : utils.world) (h : list utils.call),
    let value :=
      match pl_project self with
      | Some s => if (s =? "")%string then PyNone else PyStr s
      | None => PyNone
      end in
    let carries (helper : utils.CallEvent -> utils.call) (c : utils.call) :=
      exists ev, c = helper ev /\
                 utils.metadata ev = PyDict [(PyStr "project", value)] in
    (forall super_generate create_message_dicts messages,
       Forall (carries utils.promptlayer_api_request)
         (snd (PromptLayerChatOpenAI._generate super_generate
                 create_message_dicts self messages stop t0 t1 w h))) /\
    (forall super_agenerate create_message_dicts messages,
       Forall (carries utils.promptlayer_api_request_async)
         (snd (PromptLayerChatOpenAI._agenerate super_agenerate
                 create_message_dicts self messages stop t0 t1 w h))) /\
    (forall super_generate identifying_params prompts,
       Forall (carries utils.promptlayer_api_request)
         (snd (PromptLayerOpenAI._generate super_generate identifying_params
                 self prompts stop t0 t1 w h))) /\
    (forall super_agenerate identifying_params prompts,
       Forall (carries utils.promptlayer_api_request_async)
         (snd (PromptLayerOpenAI._agenerate super_agenerate identifying_params
                 self prompts stop t0 t1 w h))) /\
    (str_str_mapping_or_null (PyDict [(PyStr "project", value)]) = true <->
     exists s, pl_project self = Some s /\ s <> "").
Proof.
  intros self stop t0 t1 w h value carries.
  assert (Hev : forall fname args kwargs response request_usage,
            utils.metadata
              (adapter_event fname self args kwargs response t0 t1 request_usage)
            = PyDict [(PyStr "project", value)])
    by (intros; apply project_metadata_entry).
  split; [| split; [| split; [| split]]].
  - intros. rewrite chat_generate_shape.
    apply chat_method_reports with (P := fun ev => utils.metadata ev = _).
    intros; apply Hev.
  - intros. rewrite chat_agenerate_shape.
    apply chat_method_reports with (P := fun ev => utils.metadata ev = _).
    intros; apply Hev.
  - intros. rewrite completion_generate_shape.
    apply completion_method_reports with (P := fun ev => utils.metadata ev = _).
    intros; apply Hev.
  - intros. rewrite completion_agenerate_shape.
    apply completion_method_reports with (P := fun ev => utils.metadata ev = _).
    intros; apply Hev.
  - subst value. destruct (pl_project self) as [s |].
    + destruct (s =? "")%string eqn:Hs; split.
      * discriminate.
      * intros (s' & Heq & Hs'). exfalso. apply Hs'.
        apply String.eqb_eq in Hs. congruence.
      * intros _. exists s. split; [reflexivity | now apply String.eqb_neq].
      * reflexivity.
    + split; [discriminate | intros (s & Hs & _); discriminate].
Qed.

Lemma adapter_metadata_project_entry_witness :
  str_str_mapping_or_null (PyDict [(PyStr "project", PyStr "billing")]) = true /\
  Forall (fun c => exists ev,
            c = utils.promptlayer_api_request ev /\
            utils.metadata ev = PyDict [(PyStr "project", PyStr "billing")])
    (snd (PromptLayerChatOpenAI._generate chat_super message_dicts_of
            self_plain [hello] None clock_before clock_after
            world_counting [])).
Proof.
  destruct (adapter_metadata_project_entry self_plain None clock_before
              clock_after world_counting [])
    as (Hchat & _ & _ & _ & Hmapping).
  split.
  - apply Hmapping. exists "billing". split; [reflexivity | discriminate].
  - apply Hchat.
Defined.

(** C4, as stated, fails: with no project configured the chat adapter
    reports metadata whose one value is [None], which is neither a
    string-to-string mapping nor null. *)
Lemma unset_project_reported_as_none :
  map (fun c => option_map utils.metadata (event_of c))
      (snd (PromptLayerChatOpenAI._generate chat_super message_dicts_of
              self_with_ids [hello] None clock_before clock_after
              world_counting []))
    = [Some (PyDict [(PyStr "project", PyNone)])] /\
  str_str_mapping_or_null (PyDict [(PyStr "project", PyNone)]) = false.
Proof. split; reflexivity. Qed.

(** ** The adapters: the async path against the sync path *)

Lemma chat_loop_async_calls fname create_message_dicts self stop message_dicts
    t0 t1 llm_output (w_sync w_async : utils.world) :
  reports_return w_sync utils.promptlayer_api_request ->
  reports_return w_async utils.promptlayer_api_request_async ->
  forall generations h_sync h_async,
    snd (chat_loop (fname ++ ".async") utils.promptlayer_api_request_async
           create_message_dicts self stop message_dicts t0 t1 llm_output
           generations w_async h_async) =
    map as_async
      (snd (chat_loop fname utils.promptlayer_api_request
              create_message_dicts self stop message_dicts t0 t1 llm_output
              generations w_sync h_sync)).
Proof.
  intros Hsync Hasync.
  induction generations as [| generation rest IH]; intros h_sync h_async.
  - reflexivity.
  - rewrite !chat_loop_step.
    destruct (create_message_dicts _ stop) as [[response_dict params] | e];
      [| reflexivity].
    destruct (py_getitem llm_output "token_usage") as [request_usage | e];
      [| reflexivity].
    cbv zeta.
    destruct (Hsync h_sync (adapter_event fname self message_dicts params
                              response_dict t0 t1 request_usage))
      as [id_sync ->].
    destruct (Hasync h_async (adapter_event (fname ++ ".async") self
                                message_dicts params response_dict t0 t1
                                request_usage))
      as [id_async ->].
    match goal with
    | |- snd match ?la with _ => _ end = map _ (snd match ?ls with _ => _ end) =>
        match la with
        | chat_loop _ _ _ _ _ _ _ _ _ _ _ ?ha =>
            match ls with
            | chat_loop _ _ _ _ _ _ _ _ _ _ _ ?hs =>
                specialize (IH hs ha);
                destruct la as [[ra | ea] ta]; destruct ls as [[rs | es] ts]
            end
        end
    end; simpl in *; now rewrite IH.
Qed.

Lemma Forall2_nth_error_cases {A B} (R : A -> B -> Prop) l1 l2 i :
  Forall2 R l1 l2 ->
  (nth_error l1 i = None /\ nth_error l2 i = None) \/
  (exists a b, nth_error l1 i = Some a /\ nth_error l2 i = Some b /\ R a b).
Proof.
  intros H. revert i. induction H as [| a b l1 l2 Hab _ IH]; intros [| i]; simpl.
  - now left.
  - now left.
  - right. now exists a, b.
  - apply IH.
Qed.

Lemma Forall2_list_set {A B} (R : A -> B -> Prop) l1 l2 i a b :
  Forall2 R l1 l2 -> R a b -> Forall2 R (list_set l1 i a) (list_set l2 i b).
Proof.
  intros H Hab. revert i.
  induction H as [| x y l1 l2 Hxy Hl IH]; intros [| i]; simpl;
    constructor; auto.
Qed.

Lemma Forall2_same {A} (R : A -> A -> Prop) (l : list A) :
  (forall a, R a a) -> Forall2 R l l.
Proof. intros HR. induction l; constructor; auto. Qed.

Lemma store_same_texts gs ga i g g' :
  Forall2 (Forall2 (fun a b =>
             PromptLayerOpenAI.text a = PromptLayerOpenAI.text b)) gs ga ->
  PromptLayerOpenAI.text g = PromptLayerOpenAI.text g' ->
  Forall2 (Forall2 (fun a b =>
             PromptLayerOpenAI.text a = PromptLayerOpenAI.text b))
    (PromptLayerOpenAI.store gs i g) (PromptLayerOpenAI.store ga i g').
Proof.
  intros Hrel Htext. unfold PromptLayerOpenAI.store.
  destruct (Forall2_nth_error_cases i Hrel)
    as [[-> ->] | (row & row' & -> & -> & Hrow)]; [exact Hrel |].
  apply Forall2_list_set; [exact Hrel |].
  now apply Forall2_list_set.
Qed.

Lemma completion_loop_async_calls fname identifying_params self t0 t1
    llm_output (w_sync w_async : utils.world) :
  reports_return w_sync utils.promptlayer_api_request ->
  reports_return w_async utils.promptlayer_api_request_async ->
  forall prompts i gs ga h_sync h_async,
    Forall2 (Forall2 (fun a b =>
               PromptLayerOpenAI.text a = PromptLayerOpenAI.text b)) gs ga ->
    snd (completion_loop (fname ++ ".async")
           utils.promptlayer_api_request_async identifying_params self t0 t1
           llm_output i prompts ga w_async h_async) =
    map as_async
      (snd (completion_loop fname utils.promptlayer_api_request
              identifying_params self t0 t1 llm_output i prompts gs
              w_sync h_sync)).
Proof.
  intros Hsync Hasync.
  induction prompts as [| prompt rest IH]; intros i gs ga h_sync h_async Hrel.
  - reflexivity.
  - rewrite !completion_loop_step. unfold py_index.
    destruct (Forall2_nth_error_cases i Hrel)
      as [[-> ->] | (row & row' & -> & -> & Hrow)]; [reflexivity |].
    destruct (Forall2_nth_error_cases 0 Hrow)
      as [[-> ->] | (g & g' & -> & -> & Htext)]; [reflexivity |].
    destruct (py_getitem llm_output "token_usage") as [request_usage | e];
      [| reflexivity].
    cbv zeta. rewrite <- Htext.
    destruct (Hsync h_sync (adapter_event fname self (PyList [PyStr prompt])
                identifying_params
                (PyDict [(PyStr "text", PyStr (PromptLayerOpenAI.text g))])
                t0 t1 request_usage)) as [id_sync ->].
    destruct (Hasync h_async (adapter_event (fname ++ ".async") self
                (PyList [PyStr prompt]) identifying_params
                (PyDict [(PyStr "text", PyStr (PromptLayerOpenAI.text g))])
                t0 t1 request_usage)) as [id_async ->].
    match goal with
    | |- snd (let (_, _) := ?la in _) = map _ (snd (let (_, _) := ?ls in _)) =>
        match la with
        | completion_loop _ _ _ _ _ _ _ _ _ ?ga' _ ?ha =>
            match ls with
            | completion_loop _ _ _ _ _ _ _ _ _ ?gs' _ ?hs =>
                assert (Hrel' : Forall2 (Forall2 (fun a b =>
                          PromptLayerOpenAI.text a = PromptLayerOpenAI.text b))
                          gs' ga');
                [ destruct (truthy (of_opt_bool (return_pl_id self)));
                  [apply store_same_texts; [exact Hrel | exact Htext]
                  | exact Hrel]
                | specialize (IH (S i) gs' ga' hs ha Hrel');
                  destruct la as [ra ta]; destruct ls as [rs ts] ]
            end
        end
    end.
    simpl in *. now rewrite IH.
Qed.

(** C3, as the code has it. For the same configuration, arguments, clock
    readings and inherited result, and helpers that answer every report, the
    async method of each adapter hands its helper the same CallEvents as the
    sync method, one for one and in the same order: provider, args, kwargs,
    tags, response, times, usage, metadata and return_pl_id are equal, and
    the function name is the sync one followed by [".async"]. *)
Theorem async_reports_match_sync :
  forall (self : fields) (stop : option (list string)) (t0 t1 : Q)
         (w_sync w_async : utils.world) (h_sync h_async : list utils.call),
    reports_return w_sync utils.promptlayer_api_request ->
    reports_return w_async utils.promptlayer_api_request_async ->
    (forall super_generate super_agenerate create_message_dicts messages,
       super_agenerate messages stop = super_generate messages stop ->
       snd (PromptLayerChatOpenAI._agenerate super_agenerate
              create_message_dicts self messages stop t0 t1 w_async h_async) =
       map as_async
         (snd (PromptLayerChatOpenAI._generate super_generate
                 create_message_dicts self messages stop t0 t1
                 w_sync h_sync))) /\
    (forall super_generate super_agenerate identifying_params prompts,
       super_agenerate prompts stop = super_generate prompts stop ->
       snd (PromptLayerOpenAI._agenerate super_agenerate identifying_params
              self prompts stop t0 t1 w_async h_async) =
       map as_async
         (snd (PromptLayerOpenAI._generate super_generate identifying_params
                 self prompts stop t0 t1 w_sync h_sync))).
Proof.
  intros self stop t0 t1 w_sync w_async h_sync h_async Hsync Hasync. split.
  - intros super_generate super_agenerate create_message_dicts messages Hsame.
    rewrite chat_agenerate_shape, chat_generate_shape, !chat_method_step, Hsame.
    destruct (super_generate messages stop) as [generated_responses | e];
      [| reflexivity].
    destruct (create_message_dicts messages stop)
      as [[message_dicts params] | e]; [| reflexivity].
    pose proof (@chat_loop_async_calls "langchain.PromptLayerChatOpenAI"
                  create_message_dicts self stop message_dicts t0 t1
                  (PromptLayerChatOpenAI.llm_output generated_responses)
                  w_sync w_async Hsync Hasync
                  (PromptLayerChatOpenAI.generations generated_responses)
                  h_sync h_async) as Hloop.
    cbn [append] in Hloop.
    destruct (chat_loop "langchain.PromptLayerChatOpenAI.async" _ _ _ _ _ _ _
                _ _ w_async h_async) as [[ga | ea] ta];
      destruct (chat_loop "langchain.PromptLayerChatOpenAI" _ _ _ _ _ _ _
                  _ _ w_sync h_sync) as [[gs | es] ts];
      exact Hloop.
  - intros super_generate super_agenerate identifying_params prompts Hsame.
    rewrite completion_agenerate_shape, completion_generate_shape,
      !completion_method_step, Hsame.
    destruct (super_generate prompts stop) as [generated_responses | e];
      [| reflexivity].
    pose proof (@completion_loop_async_calls "langchain.PromptLayerOpenAI"
                  identifying_params self t0 t1
                  (PromptLayerOpenAI.llm_output generated_responses)
                  w_sync w_async Hsync Hasync prompts 0
                  (PromptLayerOpenAI.generations generated_responses)
                  (PromptLayerOpenAI.generations generated_responses)
                  h_sync h_async
                  (Forall2_same _ _
                     (fun row => Forall2_same _ row (fun g => eq_refl))))
      as Hloop.
    cbn [append] in Hloop.
    destruct (completion_loop "langchain.PromptLayerOpenAI.async" _ _ _ _ _ _
                _ _ _ w_async h_async) as [[ga | ea] ta];
      destruct (completion_loop "langchain.PromptLayerOpenAI" _ _ _ _ _ _
                  _ _ _ w_sync h_sync) as [[gs | es] ts];
      exact Hloop.
Qed.

Lemma async_reports_match_sync_witness :
  snd (PromptLayerChatOpenAI._agenerate chat_super message_dicts_of
         self_with_ids [hello] None clock_before clock_after
         world_silent []) =
  map as_async
    (snd (PromptLayerChatOpenAI._generate chat_super message_dicts_of
            self_with_ids [hello] None clock_before clock_after
            world_counting [])) /\
  snd (PromptLayerOpenAI._agenerate completion_super sample_identifying_params
         self_with_ids ["Say hi"] None clock_before clock_after
         world_silent []) =
  map as_async
    (snd (PromptLayerOpenAI._generate completion_super
            sample_identifying_params self_with_ids ["Say hi"] None
            clock_before clock_after world_counting [])).
Proof.
  destruct (@async_reports_match_sync self_with_ids None
              clock_before clock_after world_counting world_silent
              [] [] (world_counting_reports _) (world_silent_reports _))
    as [Hchat Hcompletion].
  split.
  - apply Hchat. reflexivity.
  - apply Hcompletion. reflexivity.
Defined.

(** C3, as stated, fails on the function name: for one and the same chat
    call the sync method reports ["langchain.PromptLayerChatOpenAI"] and the
    async method ["langchain.PromptLayerChatOpenAI.async"], so the two
    CallEvents are not equal. *)
Lemma async_function_name_differs :
  map (fun c => option_map utils.function_name (event_of c))
      (snd (PromptLayerChatOpenAI._generate chat_super message_dicts_of
              self_plain [hello] None clock_before clock_after
              world_counting []))
    = [Some "langchain.PromptLayerChatOpenAI"] /\
  map (fun c => option_map utils.function_name (event_of c))
      (snd (PromptLayerChatOpenAI._agenerate chat_super message_dicts_of
              self_plain [hello] None clock_before clock_after
              world_counting []))
    = [Some "langchain.PromptLayerChatOpenAI.async"] /\
  map event_of
      (snd (PromptLayerChatOpenAI._generate chat_super message_dicts_of
              self_plain [hello] None clock_before clock_after
              world_counting []))
  <> map event_of
      (snd (PromptLayerChatOpenAI._agenerate chat_super message_dicts_of
              self_plain [hello] None clock_before clock_after
              world_counting [])).
Proof.
  split; [reflexivity | split; [reflexivity |]].
  intros Heq. vm_compute in Heq. discriminate Heq.
Qed.

(** ** The adapters: the result when no request id is asked for *)

Lemma return_pl_id_falsy (self : fields) :
  return_pl_id self <> Some true ->
  truthy (of_opt_bool (return_pl_id self)) = false.
Proof.
  destruct (return_pl_id self) as [[|] |]; intros H;
    [congruence | reflexivity | reflexivity].
Qed.


Lemma chat_loop_unchanged fname helper create_message_dicts self stop
    message_dicts t0 t1 llm_output (w : utils.world) :
  return_pl_id self <> Some true ->
  reports_return w helper ->
  (forall ms, returns (create_message_dicts ms stop)) ->
  returns (py_getitem llm_output "token_usage") ->
  forall generations h,
    fst (chat_loop fname helper create_message_dicts self stop message_dicts
           t0 t1 llm_output generations w h) = Return generations.
Proof.
  intros Hflag Hreports Hdicts [request_usage Husage].
  apply return_pl_id_falsy in Hflag.
  induction generations as [| generation rest IH]; intros h.
  - reflexivity.
  - rewrite chat_loop_step.
    destruct (Hdicts [PromptLayerChatOpenAI.message generation])
      as [[response_dict params] ->].
    rewrite Husage. cbv zeta.
    destruct (Hreports h (adapter_event fname self message_dicts params
                response_dict t0 t1 request_usage)) as [pl_request_id ->].
    rewrite Hflag.
    match goal with
    | |- context [chat_loop _ _ _ _ _ _ _ _ _ rest w ?h'] =>
        specialize (IH h');
        destruct (chat_loop fname helper create_message_dicts self stop
                    message_dicts t0 t1 llm_output rest w h')
          as [[rest' | e] t]
    end; simpl in *; congruence.
Qed.

Lemma completion_loop_unchanged fname helper identifying_params self t0 t1
    llm_output (w : utils.world) generations :
  return_pl_id self <> Some true ->
  reports_return w helper ->
  returns (py_getitem llm_output "token_usage") ->
  forall prompts i h,
    (forall k, k < List.length prompts ->
       exists g tl, nth_error generations (i + k) = Some (g :: tl)) ->
    fst (completion_loop fname helper identifying_params self t0 t1 llm_output
           i prompts generations w h) = Return generations.
Proof.
  intros Hflag Hreports [request_usage Husage].
  apply return_pl_id_falsy in Hflag.
  induction prompts as [| prompt rest IH]; intros i h Hrows.
  - reflexivity.
  - rewrite completion_loop_step. unfold py_index.
    destruct (Hrows 0) as (g & tl & Hrow); [simpl; lia |].
    rewrite Nat.add_0_r in Hrow. rewrite Hrow. cbn [nth_error].
    rewrite Husage. cbv zeta.
    destruct (Hreports h (adapter_event fname self (PyList [PyStr prompt])
                identifying_params
                (PyDict [(PyStr "text", PyStr (PromptLayerOpenAI.text g))])
                t0 t1 request_usage)) as [pl_request_id ->].
    rewrite Hflag.
    match goal with
    | |- context [completion_loop _ _ _ _ _ _ _ (S i) rest _ w ?h'] =>
        specialize (IH (S i) h');
        destruct (completion_loop fname helper identifying_params self t0 t1
                    llm_output (S i) rest generations w h') as [r t]
    end.
    simpl in *. apply IH. intros k Hk.
    destruct (Hrows (S k)) as (g' & tl' & Hrow'); [simpl; lia |].
    rewrite Nat.add_succ_r in Hrow'. eauto.
Qed.

Lemma chat_method_unchanged fname helper super_method create_message_dicts
    self messages stop t0 t1 (w : utils.world) h generated_responses :
  return_pl_id self <> Some true ->
  reports_return w helper ->
  super_method messages stop = Return generated_responses ->
  (forall ms, returns (create_message_dicts ms stop)) ->
  returns (py_getitem (PromptLayerChatOpenAI.llm_output generated_responses)
             "token_usage") ->
  fst (chat_method fname helper super_method create_message_dicts self
         messages stop t0 t1 w h) = Return generated_responses.
Proof.
  intros Hflag Hreports Hsuper Hdicts Husage.
  rewrite chat_method_step, Hsuper.
  destruct (Hdicts messages) as [[message_dicts params] ->].
  pose proof (@chat_loop_unchanged fname helper create_message_dicts self stop
                message_dicts t0 t1 _ w Hflag Hreports Hdicts Husage
                (PromptLayerChatOpenAI.generations generated_responses) h)
    as Hloop.
  destruct (chat_loop _ _ _ _ _ _ _ _ _ _ w h) as [[generations | e] t];
    simpl in *; [| discriminate].
  injection Hloop as ->. now destruct generated_responses.
Qed.

Lemma completion_method_unchanged fname helper super_method identifying_params
    self prompts stop t0 t1 (w : utils.world) h generated_responses :
  return_pl_id self <> Some true ->
  reports_return w helper ->
  super_method prompts stop = Return generated_responses ->
  (forall i, i < List.length prompts ->
     exists g tl,
       nth_error (PromptLayerOpenAI.generations generated_responses) i
         = Some (g :: tl)) ->
  returns (py_getitem (PromptLayerOpenAI.llm_output generated_responses)
             "token_usage") ->
  fst (completion_method fname helper super_method identifying_params self
         prompts stop t0 t1 w h) = Return generated_responses.
Proof.
  intros Hflag Hreports Hsuper Hrows Husage.
  rewrite completion_method_step, Hsuper.
  pose proof (@completion_loop_unchanged fname helper identifying_params self
                t0 t1 _ w
                (PromptLayerOpenAI.generations generated_responses)
                Hflag Hreports Husage prompts 0 h Hrows) as Hloop.
  destruct (completion_loop _ _ _ _ _ _ _ _ _ _ w h) as [[generations | e] t];
    simpl in *; [| discriminate].
  injection Hloop as ->. now destruct generated_responses.
Qed.

(** The adapter has no handler around the reporting helper: were the helper
    to raise on the report for the first generation, that exception would be
    the outcome of [_generate], after the one call. *)
Lemma helper_exception_reaches_caller super_generate create_message_dicts self
    messages stop t0 t1 (w : utils.world) h generation rest llm_output
    message_dicts params response_dict kwargs request_usage e :
  super_generate messages stop =
    Return {| PromptLayerChatOpenAI.generations := generation :: rest;
              PromptLayerChatOpenAI.llm_output := llm_output |} ->
  create_message_dicts messages stop = Return (message_dicts, params) ->
  create_message_dicts [PromptLayerChatOpenAI.message generation] stop =
    Return (response_dict, kwargs) ->
  py_getitem llm_output "token_usage" = Return request_usage ->
  w h (utils.promptlayer_api_request
         (adapter_event "langchain.PromptLayerChatOpenAI" self message_dicts
            kwargs response_dict t0 t1 request_usage)) = Raise e ->
  PromptLayerChatOpenAI._generate super_generate create_message_dicts self
    messages stop t0 t1 w h =
  (Raise e,
   [utils.promptlayer_api_request
      (adapter_event "langchain.PromptLayerChatOpenAI" self message_dicts
         kwargs response_dict t0 t1 request_usage)]).
Proof.
  intros Hsuper Hdicts Hresponse Husage Hraise.
  rewrite chat_generate_shape, chat_method_step, Hsuper, Hdicts.
  cbn [PromptLayerChatOpenAI.generations PromptLayerChatOpenAI.llm_output].
  rewrite chat_loop_step, Hresponse, Husage. cbv zeta. now rewrite Hraise.
Qed.

(** C1, as the code has it. When [return_pl_id] is false or unset, each of
    the four adapter methods returns exactly the result of the inherited
    call, whatever the reporting helper answers (a request id or [None]),
    provided the helper and [_create_message_dicts] return and the result
    carries [llm_output["token_usage"]] (and, for the completion adapter, a
    first generation for every prompt). *)
Theorem result_unchanged_without_request_id :
  forall (self : fields) (stop : option (list string)) (t0 t1 : Q)
         (w : utils.world) (h : list utils.call),
    return_pl_id self <> Some true ->
    (forall super_generate create_message_dicts messages generated_responses,
       reports_return w utils.promptlayer_api_request ->
       super_generate messages stop = Return generated_responses ->
       (forall ms, returns (create_message_dicts ms stop)) ->
       returns (py_getitem
                  (PromptLayerChatOpenAI.llm_output generated_responses)
                  "token_usage") ->
       fst (PromptLayerChatOpenAI._generate super_generate create_message_dicts
              self messages stop t0 t1 w h) = Return generated_responses) /\
    (forall super_agenerate create_message_dicts messages generated_responses,
       reports_return w utils.promptlayer_api_request_async ->
       super_agenerate messages stop = Return generated_responses ->
       (forall ms, returns (create_message_dicts ms stop)) ->
       returns (py_getitem
                  (PromptLayerChatOpenAI.llm_output generated_responses)
                  "token_usage") ->
       fst (PromptLayerChatOpenAI._agenerate super_agenerate
              create_message_dicts self messages stop t0 t1 w h)
         = Return generated_responses) /\
    (forall super_generate identifying_params prompts generated_responses,
       reports_return w utils.promptlayer_api_request ->
       super_generate prompts stop = Return generated_responses ->
       (forall i, (i < List.length prompts)%nat ->
          exists g tl,
            nth_error (PromptLayerOpenAI.generations generated_responses) i
              = Some (g :: tl)) ->
       returns (py_getitem (PromptLayerOpenAI.llm_output generated_responses)
                  "token_usage") ->
       fst (PromptLayerOpenAI._generate super_generate identifying_params
              self prompts stop t0 t1 w h) = Return generated_responses) /\
    (forall super_agenerate identifying_params prompts generated_responses,
       reports_return w utils.promptlayer_api_request_async ->
       super_agenerate prompts stop = Return generated_responses ->
       (forall i, (i < List.length prompts)%nat ->
          exists g tl,
            nth_error (PromptLayerOpenAI.generations generated_responses) i
              = Some (g :: tl)) ->
       returns (py_getitem (PromptLayerOpenAI.llm_output generated_responses)
                  "token_usage") ->
       fst (PromptLayerOpenAI._agenerate super_agenerate identifying_params
              self prompts stop t0 t1 w h) = Return generated_responses).
Proof.
  intros self stop t0 t1 w h Hflag. repeat split.
  - intros super_generate create_message_dicts messages generated_responses
           Hreports Hsuper Hdicts Husage.
    rewrite chat_generate_shape. now apply chat_method_unchanged.
  - intros super_agenerate create_message_dicts messages generated_responses
           Hreports Hsuper Hdicts Husage.
    rewrite chat_agenerate_shape. now apply chat_method_unchanged.
  - intros super_generate identifying_params prompts generated_responses
           Hreports Hsuper Hrows Husage.
    rewrite completion_generate_shape. now apply completion_method_unchanged.
  - intros super_agenerate identifying_params prompts generated_responses
           Hreports Hsuper Hrows Husage.
    rewrite completion_agenerate_shape. now apply completion_method_unchanged.
Qed.

Lemma result_unchanged_without_request_id_witness :
  fst (PromptLayerChatOpenAI._generate chat_super message_dicts_of self_plain
         [hello] None clock_before clock_after world_counting [])
    = Return chat_result /\
  fst (PromptLayerChatOpenAI._generate chat_super message_dicts_of self_plain
         [hello] None clock_before clock_after world_silent [])
    = Return chat_result /\
  fst (PromptLayerOpenAI._agenerate completion_super sample_identifying_params
         self_plain ["Say hi"] None clock_before clock_after world_silent [])
    = Return completion_result.
Proof.
  assert (Hflag : return_pl_id self_plain <> Some true) by discriminate.
  split; [| split].
  - apply (@result_unchanged_without_request_id self_plain None
             clock_before clock_after world_counting [] Hflag);
      [ apply world_counting_reports | reflexivity
      | apply message_dicts_of_returns | apply sample_usage_returns ].
  - apply (@result_unchanged_without_request_id self_plain None
             clock_before clock_after world_silent [] Hflag);
      [ apply world_silent_reports | reflexivity
      | apply message_dicts_of_returns | apply sample_usage_returns ].
  - apply (@result_unchanged_without_request_id self_plain None
             clock_before clock_after world_silent [] Hflag);
      [ apply world_silent_reports | reflexivity
      | apply completion_result_rows | apply sample_usage_returns ].
Defined.

(** C1, as stated, fails when [return_pl_id] is set: the chat adapter writes
    the helper's answer into each generation, so the value it returns is not
    the one the inherited call returned, and it differs between a helper that
    yields a request id and one that fails and yields [None]. *)
Lemma request_id_changes_result :
  fst (PromptLayerChatOpenAI._generate chat_super message_dicts_of
         self_with_ids [hello] None clock_before clock_after world_counting [])
    = Return
        {| PromptLayerChatOpenAI.generations :=
             [ {| PromptLayerChatOpenAI.text := "Hi there";
                  PromptLayerChatOpenAI.message := reply;
                  PromptLayerChatOpenAI.generation_info :=
                    PyDict [(PyStr "pl_request_id", PyInt 1)] |} ];
           PromptLayerChatOpenAI.llm_output := sample_llm_output |} /\
  fst (PromptLayerChatOpenAI._generate chat_super message_dicts_of
         self_with_ids [hello] None clock_before clock_after world_silent [])
    = Return
        {| PromptLayerChatOpenAI.generations :=
             [ {| PromptLayerChatOpenAI.text := "Hi there";
                  PromptLayerChatOpenAI.message := reply;
                  PromptLayerChatOpenAI.generation_info :=
                    PyDict [(PyStr "pl_request_id", PyNone)] |} ];
           PromptLayerChatOpenAI.llm_output := sample_llm_output |} /\
  chat_super [hello] None = Return chat_result /\
  fst (PromptLayerChatOpenAI._generate chat_super message_dicts_of
         self_with_ids [hello] None clock_before clock_after world_counting [])
    <> Return chat_result /\
  fst (PromptLayerChatOpenAI._generate chat_super message_dicts_of
         self_with_ids [hello] None clock_before clock_after world_counting [])
    <> fst (PromptLayerChatOpenAI._generate chat_super message_dicts_of
              self_with_ids [hello] None clock_before clock_after
              world_silent []).
Proof.
  repeat split; try reflexivity; intros Heq; vm_compute in Heq;
    discriminate Heq.
Qed.

(** ** The adapters: the result when a request id is asked for *)

Lemma py_getitem_items (d : pyval) (items : list (pyval * pyval)) (k : string) :
  dict_items d = Some items ->
  py_getitem d k =
    match assoc_get k items with
    | Some v => Return v
    | None => Raise (KeyError k)
    end.
Proof.
  unfold dict_items, py_getitem. destruct (base_value d); try discriminate.
  now intros [= ->].
Qed.


Lemma request_id_stashed_head (w : utils.world) helper h ev rid trace
    info info' :
  w h (helper ev) = Return rid ->
  extended_with_request_id info info' rid ->
  request_id_stashed w helper h (helper ev :: trace) 0 info info'.
Proof.
  intros Hw Hext. exists ev, rid. cbn [nth_error firstn].
  now rewrite app_nil_r.
Qed.

Lemma request_id_stashed_shift (w : utils.world) helper h c trace i
    info info' :
  request_id_stashed w helper (h ++ [c]) trace i info info' ->
  request_id_stashed w helper h (c :: trace) (S i) info info'.
Proof.
  intros (ev & rid & Hnth & Hw & Hext). exists ev, rid.
  cbn [nth_error firstn]. rewrite <- app_assoc in Hw. auto.
Qed.

Lemma list_set_length {A} (l : list A) i x :
  List.length (list_set l i x) = List.length l.
Proof.
  revert i. induction l as [| y l IH]; intros [| i]; simpl; auto.
Qed.

Lemma nth_error_list_set_same {A} (l : list A) i x y :
  nth_error l i = Some y -> nth_error (list_set l i x) i = Some x.
Proof.
  revert i. induction l as [| z l IH]; intros [| i]; simpl;
    try discriminate; auto.
Qed.

Lemma nth_error_list_set_other {A} (l : list A) i j x :
  j <> i -> nth_error (list_set l i x) j = nth_error l j.
Proof.
  revert i j. induction l as [| z l IH]; intros [| i] [| j] Hne; simpl;
    try reflexivity; try congruence.
  apply IH. congruence.
Qed.

Lemma store_length generations i g :
  List.length (PromptLayerOpenAI.store generations i g)
    = List.length generations.
Proof.
  unfold PromptLayerOpenAI.store.
  destruct (nth_error generations i); [apply list_set_length | reflexivity].
Qed.

Lemma nth_error_store_same generations i g g0 tl :
  nth_error generations i = Some (g0 :: tl) ->
  nth_error (PromptLayerOpenAI.store generations i g) i = Some (g :: tl).
Proof.
  intros Hrow. unfold PromptLayerOpenAI.store. rewrite Hrow.
  now rewrite (@nth_error_list_set_same _ generations i _ _ Hrow).
Qed.

Lemma nth_error_store_other generations i j g :
  j <> i ->
  nth_error (PromptLayerOpenAI.store generations i g) j
    = nth_error generations j.
Proof.
  intros Hne. unfold PromptLayerOpenAI.store.
  destruct (nth_error generations i);
    [now apply nth_error_list_set_other | reflexivity].
Qed.

(** ** Further properties of [track] and [prompts] *)

(** X1. [track.score] checks the class with [isinstance(score, int)], and
    [bool] is a subclass of [int]: a score of [True] or [False] (or an
    instance of a subclass of either) passes both checks and is sent to the
    service as it is. *)
Theorem score_accepts_bool :
  forall (w : utils.world) (h : list utils.call) (request_id score : pyval)
         (b : bool),
    base_value score = PyBool b ->
    track.score request_id score w h =
      (w h (utils.promptlayer_track_score request_id score),
       [utils.promptlayer_track_score request_id score]).
Proof.
  intros w h request_id score b Hb. apply score_valid.
  unfold score_in_range, isinstance_int, as_int, int_value. rewrite Hb.
  now destruct b.
Qed.

Lemma score_accepts_bool_witness :
  track.score (PyInt 7) (PyBool true) world_counting [] =
    (Return (PyInt 1), [utils.promptlayer_track_score (PyInt 7) (PyBool true)]).
Proof.
  apply (@score_accepts_bool world_counting [] (PyInt 7) (PyBool true) true).
  reflexivity.
Defined.

(** X2. An instance of a subclass of [dict] is treated differently by the
    two modules: [track.metadata] tests [isinstance(metadata, dict)] and
    sends it on when its keys and values are strings, whereas
    [prompts.publish_prompt] tests [type(prompt_template) == dict] and
    rejects it without calling the service. *)
Theorem dict_subclass_accepted_by_track_only :
  forall (w : utils.world) (h : list utils.call)
         (request_id prompt_name tags : pyval) (cls : string)
         (items : list (pyval * pyval)),
    forallb (fun kv => isinstance_str (fst kv) && isinstance_str (snd kv)) items
      = true ->
    track.metadata request_id (PySub cls (PyDict items)) w h =
      (w h (utils.promptlayer_track_metadata request_id
              (PySub cls (PyDict items))),
       [utils.promptlayer_track_metadata request_id
          (PySub cls (PyDict items))]) /\
    prompts.publish_prompt prompt_name tags (PySub cls (PyDict items)) w h =
      (Raise (Exception
         "Please provide either a JSON prompt template or a langchain prompt template."),
       []).
Proof.
  intros w h request_id prompt_name tags cls items Hitems. split.
  - apply metadata_valid.
    unfold str_str_mapping, isinstance_dict, items_of, dict_items.
    cbn [base_value andb]. exact Hitems.
  - reflexivity.
Qed.

Lemma dict_subclass_accepted_by_track_only_witness :
  track.metadata (PyInt 7) (PySub "OrderedDict" (PyDict [(PyStr "a", PyStr "1")]))
    world_counting [] =
    (Return (PyInt 1),
     [utils.promptlayer_track_metadata (PyInt 7)
        (PySub "OrderedDict" (PyDict [(PyStr "a", PyStr "1")]))]) /\
  prompts.publish_prompt (PyStr "x") (PyList [])
    (PySub "OrderedDict" (PyDict [(PyStr "a", PyStr "1")])) world_counting [] =
    (Raise (Exception
       "Please provide either a JSON prompt template or a langchain prompt template."),
     []).
Proof.
  apply (@dict_subclass_accepted_by_track_only world_counting [] (PyInt 7)
           (PyStr "x") (PyList []) "OrderedDict" [(PyStr "a", PyStr "1")]).
  reflexivity.
Defined.

Lemma forallb_permutation {A} (f : A -> bool) (l l' : list A) :
  Permutation l l' -> forallb f l = forallb f l'.
Proof.
  induction 1 as [| x l l' _ IH | x y l | l l' l'' _ IH1 _ IH2]; simpl.
  - reflexivity.
  - now rewrite IH.
  - destruct (f x), (f y); reflexivity.
  - congruence.
Qed.

Lemma check_items_forallb (items : list (pyval * pyval)) (w : utils.world) h :
  track.check_items items w h =
    if forallb (fun kv => isinstance_str (fst kv) && isinstance_str (snd kv))
         items
    then (Return tt, [])
    else (Raise (Exception
            "Please provide a dictionary of metadata with key value pair of strings."),
          []).
Proof.
  destruct (forallb _ items) eqn:Hall;
    [now apply check_items_ok | now apply check_items_bad].
Qed.

(** X3. The loop of [track.metadata] over [metadata.items()] gives the same
    verdict whatever the order of the items: two dictionaries with the same
    items in a different order are both let through, or both rejected with
    the same exception. *)
Theorem metadata_check_order_independent :
  forall (items items' : list (pyval * pyval)) (w w' : utils.world)
         (h h' : list utils.call),
    Permutation items items' ->
    track.check_items items w h = track.check_items items' w' h'.
Proof.
  intros items items' w w' h h' Hperm.
  rewrite !check_items_forallb.
  now rewrite (forallb_permutation _ Hperm).
Qed.

Lemma metadata_check_order_independent_witness :
  track.check_items [(PyStr "a", PyStr "1"); (PyStr "b", PyInt 2)]
    world_counting [] =
  track.check_items [(PyStr "b", PyInt 2); (PyStr "a", PyStr "1")]
    world_silent [].
Proof.
  apply (@metadata_check_order_independent
           [(PyStr "a", PyStr "1"); (PyStr "b", PyInt 2)]
           [(PyStr "b", PyInt 2); (PyStr "a", PyStr "1")]
           world_counting world_silent [] []).
  apply perm_swap.
Defined.

Lemma get_prompt_calls (load : pyval -> outcome pyval) (w : utils.world) h
    (prompt_name langchain version : pyval) :
  snd (prompts.get_prompt load prompt_name langchain version w h) =
    [utils.promptlayer_get_prompt prompt_name version].
Proof.
  unfold prompts.get_prompt, bind, perform, lift, ret.
  destruct (w h _) as [prompt | e]; [| reflexivity].
  destruct (truthy langchain).
  - destruct (py_getitem prompt "prompt_template") as [template | e];
      [| reflexivity].
    destruct (py_in "_type" template) as [[|] | e]; cbn; try reflexivity.
    destruct (py_setitem template "_type" (PyStr "prompt")); reflexivity.
  - reflexivity.
Qed.

(** X4. No function of [track] or [prompts] calls the service more than
    once, and each calls only its own helper: [track.prompt] and
    [prompts.get_prompt] make exactly their one call on every input, the
    others make their one call or none. *)
Theorem one_remote_call_at_most :
  forall (load : pyval -> outcome pyval) (w : utils.world)
         (h : list utils.call) (a b c : pyval),
    snd (track.prompt a b c w h) = [utils.promptlayer_track_prompt a b c] /\
    (snd (track.metadata a b w h) = [] \/
     snd (track.metadata a b w h) = [utils.promptlayer_track_metadata a b]) /\
    (snd (track.score a b w h) = [] \/
     snd (track.score a b w h) = [utils.promptlayer_track_score a b]) /\
    snd (prompts.get_prompt load a b c w h) =
      [utils.promptlayer_get_prompt a c] /\
    (snd (prompts.publish_prompt a b c w h) = [] \/
     snd (prompts.publish_prompt a b c w h) =
       [utils.promptlayer_publish_prompt a c b] \/
     snd (prompts.publish_prompt a b c w h) =
       [utils.promptlayer_publish_prompt a (dict_method c) b]).
Proof.
  intros load w h a b c. split; [reflexivity |].
  split; [| split; [| split]].
  - destruct (str_str_mapping b) eqn:Hb.
    + right. now rewrite metadata_valid.
    + left. destruct (@metadata_invalid w h a b Hb) as [msg ->]. reflexivity.
  - destruct (score_in_range b) eqn:Hb.
    + right. now rewrite score_valid.
    + left. destruct (@score_invalid w h a b Hb) as [msg ->]. reflexivity.
  - apply get_prompt_calls.
  - unfold prompts.publish_prompt, bind, perform.
    destruct (type_is_dict c).
    + right; left. destruct (w h _); reflexivity.
    + destruct (isinstance_PromptTemplate c).
      * right; right. destruct (w h _); reflexivity.
      * left. reflexivity.
Qed.

(** X5. An exception raised by the remote helper comes out of
    [prompts.get_prompt] and [prompts.publish_prompt] unchanged:
    [get_prompt] raises it whatever [langchain] is and whatever the loader
    would do, and [publish_prompt] raises it instead of yielding [None]. *)
Theorem prompts_surface_remote_failure :
  forall (w : utils.world) (h : list utils.call) (e : exn),
    (forall load prompt_name langchain version,
       w h (utils.promptlayer_get_prompt prompt_name version) = Raise e ->
       prompts.get_prompt load prompt_name langchain version w h =
         (Raise e, [utils.promptlayer_get_prompt prompt_name version])) /\
    (forall prompt_name tags prompt_template,
       type_is_dict prompt_template = true ->
       w h (utils.promptlayer_publish_prompt prompt_name prompt_template tags)
         = Raise e ->
       prompts.publish_prompt prompt_name tags prompt_template w h =
         (Raise e,
          [utils.promptlayer_publish_prompt prompt_name prompt_template tags])) /\
    (forall prompt_name tags prompt_template,
       type_is_dict prompt_template = false ->
       isinstance_PromptTemplate prompt_template = true ->
       w h (utils.promptlayer_publish_prompt prompt_name
              (dict_method prompt_template) tags) = Raise e ->
       prompts.publish_prompt prompt_name tags prompt_template w h =
         (Raise e,
          [utils.promptlayer_publish_prompt prompt_name
             (dict_method prompt_template) tags])).
Proof.
  intros w h e. split; [| split].
  - intros load prompt_name langchain version Hraise.
    unfold prompts.get_prompt, bind, perform. now rewrite Hraise.
  - intros prompt_name tags prompt_template Hdict Hraise.
    unfold prompts.publish_prompt, bind, perform. now rewrite Hdict, Hraise.
  - intros prompt_name tags prompt_template Hdict Htemplate Hraise.
    unfold prompts.publish_prompt, bind, perform.
    now rewrite Hdict, Htemplate, Hraise.
Qed.

Lemma prompts_surface_remote_failure_witness :
  prompts.get_prompt load_identity (PyStr "greeting") (PyBool true) PyNone
    world_unreachable [] =
    (Raise (Foreign "requests.exceptions.ConnectionError"),
     [utils.promptlayer_get_prompt (PyStr "greeting") PyNone]) /\
  prompts.publish_prompt (PyStr "x") (PyList []) stored_template
    world_unreachable [] =
    (Raise (Foreign "requests.exceptions.ConnectionError"),
     [utils.promptlayer_publish_prompt (PyStr "x") stored_template (PyList [])]).
Proof.
  destruct (prompts_surface_remote_failure world_unreachable []
              (Foreign "requests.exceptions.ConnectionError"))
    as (Hget & Hpublish & _).
  split.
  - apply Hget. reflexivity.
  - apply Hpublish; reflexivity.
Defined.

Lemma get_prompt_langchain (load : pyval -> outcome pyval) (w : utils.world) h
    (prompt_name langchain version prompt prompt_template : pyval) :
  w h (utils.promptlayer_get_prompt prompt_name version) = Return prompt ->
  truthy langchain = true ->
  py_getitem prompt "prompt_template" = Return prompt_template ->
  prompts.get_prompt load prompt_name langchain version w h =
    (match py_in "_type" prompt_template with
     | Raise e => Raise e
     | Return true => load prompt_template
     | Return false =>
         match py_setitem prompt_template "_type" (PyStr "prompt") with
         | Return completed => load completed
         | Raise e => Raise e
         end
     end,
     [utils.promptlayer_get_prompt prompt_name version]).
Proof.
  intros Hremote Hl Hget.
  unfold prompts.get_prompt, bind, perform, lift, ret.
  rewrite Hremote, Hl, Hget. cbn.
  destruct (py_in "_type" prompt_template) as [[|] | e]; cbn.
  - now destruct (load prompt_template).
  - destruct (py_setitem prompt_template "_type" (PyStr "prompt"))
      as [completed | e]; cbn; [now destruct (load completed) | reflexivity].
  - reflexivity.
Qed.

(** X6. With a true [langchain] argument and a fetched template that is a
    dictionary, the configuration [prompts.get_prompt] hands to the loader
    is a dictionary that always has a ["_type"] entry: the fetched one when
    there is one (it is never overwritten), ["prompt"] otherwise; every other
    key reads as in the fetched template. *)
Theorem loader_always_sees_type :
  forall (load : pyval -> outcome pyval) (w : utils.world) (h : list utils.call)
         (prompt_name langchain version prompt prompt_template : pyval)
         (items : list (pyval * pyval)),
    w h (utils.promptlayer_get_prompt prompt_name version) = Return prompt ->
    py_getitem prompt "prompt_template" = Return prompt_template ->
    truthy langchain = true ->
    dict_items prompt_template = Some items ->
    exists config,
      prompts.get_prompt load prompt_name langchain version w h =
        (load config, [utils.promptlayer_get_prompt prompt_name version]) /\
      isinstance_dict config = true /\
      py_getitem config "_type" =
        Return (match assoc_get "_type" items with
                | Some kind => kind
                | None => PyStr "prompt"
                end) /\
      forall k, k <> "_type" ->
        py_getitem config k = py_getitem prompt_template k.
Proof.
  intros load w h prompt_name langchain version prompt prompt_template items
         Hremote Hget Hl Hitems.
  rewrite (@get_prompt_langchain load _ _ _ _ _ _ _ Hremote Hl Hget).
  rewrite (@py_in_dict "_type" _ _ Hitems).
  destruct (assoc_get "_type" items) as [kind |] eqn:Hkind.
  - exists prompt_template. split; [reflexivity |].
    split; [apply isinstance_dict_items; eauto |].
    split; [| reflexivity].
    now rewrite (@py_getitem_items _ _ "_type" Hitems), Hkind.
  - destruct (@py_setitem_dict "_type" (PyStr "prompt") _ _ Hitems)
      as (completed & -> & Hcompleted).
    exists completed. split; [reflexivity |].
    split; [apply isinstance_dict_items; eauto |].
    split.
    + now rewrite (@py_getitem_items _ _ "_type" Hcompleted),
        assoc_get_set_same.
    + intros k Hk.
      rewrite (@py_getitem_items _ _ k Hcompleted),
        (@py_getitem_items _ _ k Hitems).
      now rewrite assoc_get_set_other by congruence.
Qed.

Lemma loader_always_sees_type_witness :
  exists config,
    prompts.get_prompt load_identity (PyStr "greeting") (PyBool true) PyNone
      world_template [] =
      (Return config, [utils.promptlayer_get_prompt (PyStr "greeting") PyNone]) /\
    isinstance_dict config = true /\
    py_getitem config "_type" = Return (PyStr "prompt") /\
    forall k, k <> "_type" -> py_getitem config k = py_getitem stored_template k.
Proof.
  apply (@loader_always_sees_type load_identity world_template []
           (PyStr "greeting") (PyBool true) PyNone
           (PyDict [(PyStr "prompt_template", stored_template)])
           stored_template (items_of stored_template));
    reflexivity.
Defined.

(** X7. [prompts.get_prompt] has no guard of its own around the fetched
    value. After its one call to the service it raises [KeyError] when the
    answer is a dictionary without ["prompt_template"], and [TypeError] when
    the answer is not a dictionary, whatever [langchain] is.  When the
    template itself is [None], a boolean or a number, [langchain=False]
    returns it as it is while [langchain=True] raises [TypeError] at the
    ["_type"] test. *)
Theorem get_prompt_malformed_answer :
  forall (load : pyval -> outcome pyval) (w : utils.world) (h : list utils.call)
         (prompt_name langchain version prompt : pyval),
    let remote := utils.promptlayer_get_prompt prompt_name version in
    w h remote = Return prompt ->
    (forall items, dict_items prompt = Some items ->
       assoc_get "prompt_template" items = None ->
       prompts.get_prompt load prompt_name langchain version w h =
         (Raise (KeyError "prompt_template"), [remote])) /\
    (isinstance_dict prompt = false ->
       prompts.get_prompt load prompt_name langchain version w h =
         (Raise TypeError, [remote])) /\
    (forall prompt_template,
       py_getitem prompt "prompt_template" = Return prompt_template ->
       (prompt_template = PyNone \/ (exists b, prompt_template = PyBool b) \/
        (exists z, prompt_template = PyInt z) \/
        (exists q, prompt_template = PyFloat q)) ->
       prompts.get_prompt load prompt_name langchain version w h =
         (if truthy langchain then Raise TypeError else Return prompt_template,
          [remote])).
Proof.
  intros load w h prompt_name langchain version prompt remote Hremote.
  assert (Hfail : forall e, py_getitem prompt "prompt_template" = Raise e ->
            prompts.get_prompt load prompt_name langchain version w h =
              (Raise e, [remote])).
  { intros e Hget. unfold prompts.get_prompt, bind, perform, lift.
    fold remote. rewrite Hremote, Hget. now destruct (truthy langchain). }
  split; [| split].
  - intros items Hitems Habsent. apply Hfail.
    now rewrite (@py_getitem_items _ _ "prompt_template" Hitems), Habsent.
  - intros Hnot. apply Hfail. unfold isinstance_dict in Hnot.
    unfold py_getitem. now destruct (base_value prompt).
  - intros prompt_template Hget Hkind.
    destruct (truthy langchain) eqn:Hl.
    + rewrite (@get_prompt_langchain load _ _ _ _ _ _ _ Hremote Hl Hget).
      destruct Hkind as [-> | [[b ->] | [[z ->] | [q ->]]]]; reflexivity.
    + unfold prompts.get_prompt, bind, perform, lift.
      fold remote. now rewrite Hremote, Hl, Hget.
Qed.

Lemma get_prompt_malformed_answer_witness :
  prompts.get_prompt load_identity (PyStr "greeting") (PyBool false) PyNone
    world_counting [] =
    (Raise TypeError, [utils.promptlayer_get_prompt (PyStr "greeting") PyNone]) /\
  prompts.get_prompt load_identity (PyStr "greeting") (PyBool true) PyNone
    world_empty_answer [] =
    (Raise (KeyError "prompt_template"),
     [utils.promptlayer_get_prompt (PyStr "greeting") PyNone]) /\
  prompts.get_prompt load_identity (PyStr "greeting") (PyBool true) PyNone
    world_null_template [] =
    (Raise TypeError, [utils.promptlayer_get_prompt (PyStr "greeting") PyNone]).
Proof.
  destruct (@get_prompt_malformed_answer load_identity world_counting []
              (PyStr "greeting") (PyBool false) PyNone (PyInt 1) eq_refl)
    as (_ & Hnot_dict & _).
  destruct (@get_prompt_malformed_answer load_identity world_empty_answer []
              (PyStr "greeting") (PyBool true) PyNone (PyDict []) eq_refl)
    as (Hmissing & _ & _).
  destruct (@get_prompt_malformed_answer load_identity world_null_template []
              (PyStr "greeting") (PyBool true) PyNone
              (PyDict [(PyStr "prompt_template", PyNone)]) eq_refl)
    as (_ & _ & Hnull).
  split; [| split].
  - apply Hnot_dict. reflexivity.
  - apply (Hmissing []); reflexivity.
  - apply (Hnull PyNone eq_refl). now left.
Defined.

(** ** Further properties of the adapters *)

Lemma chat_loop_trace fname helper create_message_dicts self stop message_dicts
    t0 t1 llm_output (w : utils.world) request_usage :
  reports_return w helper ->
  (forall ms, returns (create_message_dicts ms stop)) ->
  py_getitem llm_output "token_usage" = Return request_usage ->
  forall generations h,
    List.length
      (snd (chat_loop fname helper create_message_dicts self stop
              message_dicts t0 t1 llm_output generations w h))
      = List.length generations /\
    forall k g response_dict params,
      nth_error generations k = Some g ->
      create_message_dicts [PromptLayerChatOpenAI.message g] stop
        = Return (response_dict, params) ->
      nth_error
        (snd (chat_loop fname helper create_message_dicts self stop
                message_dicts t0 t1 llm_output generations w h)) k
        = Some (helper (adapter_event fname self message_dicts params
                          response_dict t0 t1 request_usage)).
Proof.
  intros Hreports Hdicts Husage.
  induction generations as [| generation rest IH]; intros h.
  - split; [reflexivity |]. intros [| k] g ? ? Hg; discriminate Hg.
  - rewrite chat_loop_step.
    destruct (Hdicts [PromptLayerChatOpenAI.message generation])
      as [[response_dict params] Hresponse].
    rewrite Hresponse, Husage. cbv zeta.
    set (c := helper (adapter_event fname self message_dicts params
                        response_dict t0 t1 request_usage)).
    destruct (Hreports h (adapter_event fname self message_dicts params
                            response_dict t0 t1 request_usage))
      as [pl_request_id Hrid].
    fold c in Hrid. rewrite Hrid.
    destruct (IH (h ++ [c])) as [Hlen Hnth].
    destruct (chat_loop fname helper create_message_dicts self stop
                message_dicts t0 t1 llm_output rest w (h ++ [c]))
      as [[rest' | e] t]; cbn [fst snd] in *.
    + split; [simpl; now rewrite Hlen |].
      intros [| k] g response_dict' params' Hg Hg'; cbn [nth_error] in *.
      * injection Hg as <-. rewrite Hresponse in Hg'.
        injection Hg' as <- <-. reflexivity.
      * now apply Hnth with (g := g).
    + split; [simpl; now rewrite Hlen |].
      intros [| k] g response_dict' params' Hg Hg'; cbn [nth_error] in *.
      * injection Hg as <-. rewrite Hresponse in Hg'.
        injection Hg' as <- <-. reflexivity.
      * now apply Hnth with (g := g).
Qed.

Lemma completion_loop_trace fname helper identifying_params self t0 t1
    llm_output (w : utils.world) request_usage :
  reports_return w helper ->
  py_getitem llm_output "token_usage" = Return request_usage ->
  forall prompts i generations h,
    (forall k, (k < List.length prompts)%nat ->
       exists g tl, nth_error generations (i + k) = Some (g :: tl)) ->
    List.length
      (snd (completion_loop fname helper identifying_params self t0 t1
              llm_output i prompts generations w h))
      = List.length prompts /\
    forall k prompt g tl,
      nth_error prompts k = Some prompt ->
      nth_error generations (i + k) = Some (g :: tl) ->
      nth_error
        (snd (completion_loop fname helper identifying_params self t0 t1
                llm_output i prompts generations w h)) k
        = Some (helper (adapter_event fname self (PyList [PyStr prompt])
                          identifying_params
                          (PyDict [(PyStr "text",
                                    PyStr (PromptLayerOpenAI.text g))])
                          t0 t1 request_usage)).
Proof.
  intros Hreports Husage.
  induction prompts as [| prompt rest IH]; intros i generations h Hrows.
  - split; [reflexivity |]. intros [| k] ? ? ? Hp; discriminate Hp.
  - rewrite completion_loop_step. unfold py_index.
    destruct (Hrows 0%nat) as (g0 & tl0 & Hrow); [simpl; lia |].
    rewrite Nat.add_0_r in Hrow. rewrite Hrow. cbn [nth_error].
    rewrite Husage. cbv zeta.
    set (c := helper (adapter_event fname self (PyList [PyStr prompt])
                        identifying_params
                        (PyDict [(PyStr "text",
                                  PyStr (PromptLayerOpenAI.text g0))])
                        t0 t1 request_usage)).
    destruct (Hreports h (adapter_event fname self (PyList [PyStr prompt])
                identifying_params
                (PyDict [(PyStr "text", PyStr (PromptLayerOpenAI.text g0))])
                t0 t1 request_usage)) as [pl_request_id Hrid].
    fold c in Hrid. rewrite Hrid.
    set (generations1 :=
           if truthy (of_opt_bool (return_pl_id self))
           then PromptLayerOpenAI.store generations i
                  (PromptLayerOpenAI.set_generation_info g0
                     (annotated (PromptLayerOpenAI.generation_info g0)
                        pl_request_id))
           else generations).
    assert (Hsame : forall j, j <> i ->
              nth_error generations1 j = nth_error generations j).
    { intros j Hj. unfold generations1.
      destruct (truthy (of_opt_bool (return_pl_id self)));
        [now apply nth_error_store_other | reflexivity]. }
    assert (Hrows1 : forall k, (k < List.length rest)%nat ->
              exists g tl, nth_error generations1 (S i + k) = Some (g :: tl)).
    { intros k Hk. destruct (Hrows (S k)) as (g & tl & Hg); [simpl; lia |].
      exists g, tl. rewrite Hsame by lia.
      now rewrite Nat.add_succ_r in Hg. }
    destruct (IH (S i) generations1 (h ++ [c]) Hrows1) as [Hlen Hnth].
    destruct (completion_loop fname helper identifying_params self t0 t1
                llm_output (S i) rest generations1 w (h ++ [c])) as [r t].
    cbn [fst snd] in *.
    split; [simpl; now rewrite Hlen |].
    intros [| k] prompt' g tl Hp Hg; cbn [nth_error] in *.
    + injection Hp as <-. rewrite Nat.add_0_r, Hrow in Hg.
      injection Hg as <- <-. reflexivity.
    + apply Hnth with (tl := tl); [exact Hp |].
      rewrite Hsame by lia. now rewrite Nat.add_succ_r in Hg.
Qed.

Lemma chat_method_trace fname helper super_method create_message_dicts self
    messages stop t0 t1 (w : utils.world) h generated_responses message_dicts
    params0 :
  super_method messages stop = Return generated_responses ->
  create_message_dicts messages stop = Return (message_dicts, params0) ->
  snd (chat_method fname helper super_method create_message_dicts self
         messages stop t0 t1 w h) =
  snd (chat_loop fname helper create_message_dicts self stop message_dicts
         t0 t1 (PromptLayerChatOpenAI.llm_output generated_responses)
         (PromptLayerChatOpenAI.generations generated_responses) w h).
Proof.
  intros Hsuper Hdicts. rewrite chat_method_step, Hsuper, Hdicts.
  now destruct (chat_loop _ _ _ _ _ _ _ _ _ _ w h) as [[generations | e] t].
Qed.

Lemma completion_method_trace fname helper super_method identifying_params
    self prompts stop t0 t1 (w : utils.world) h generated_responses :
  super_method prompts stop = Return generated_responses ->
  snd (completion_method fname helper super_method identifying_params self
         prompts stop t0 t1 w h) =
  snd (completion_loop fname helper identifying_params self t0 t1
         (PromptLayerOpenAI.llm_output generated_responses) 0 prompts
         (PromptLayerOpenAI.generations generated_responses) w h).
Proof.
  intros Hsuper. rewrite completion_method_step, Hsuper.
  now destruct (completion_loop _ _ _ _ _ _ _ _ _ _ w h)
    as [[generations | e] t].
Qed.

(** X8. On a call that completes, the chat adapter reports once per
    generation of the inherited result, in order.  The report for a
    generation carries the dictionaries of all the input messages as args,
    the dictionary of that generation's message as response, the parameters
    [_create_message_dicts] returned with it as kwargs, and the result's
    token usage; this holds for [_generate] and, under the async name and
    helper, for [_agenerate], whether or not request ids are asked for. *)
Theorem chat_reports_one_per_generation :
  forall (self : fields) (stop : option (list string)) (t0 t1 : Q)
         (w : utils.world) (h : list utils.call)
         create_message_dicts messages generated_responses
         (message_dicts params0 request_usage : pyval),
    (forall ms, returns (create_message_dicts ms stop)) ->
    create_message_dicts messages stop = Return (message_dicts, params0) ->
    py_getitem (PromptLayerChatOpenAI.llm_output generated_responses)
      "token_usage" = Return request_usage ->
    (forall super_generate,
       reports_return w utils.promptlayer_api_request ->
       super_generate messages stop = Return generated_responses ->
       let trace :=
         snd (PromptLayerChatOpenAI._generate super_generate
                create_message_dicts self messages stop t0 t1 w h) in
       List.length trace =
         List.length (PromptLayerChatOpenAI.generations generated_responses) /\
       forall k g response_dict params,
         nth_error (PromptLayerChatOpenAI.generations generated_responses) k
           = Some g ->
         create_message_dicts [PromptLayerChatOpenAI.message g] stop
           = Return (response_dict, params) ->
         nth_error trace k =
           Some (utils.promptlayer_api_request
                   (adapter_event "langchain.PromptLayerChatOpenAI" self
                      message_dicts params response_dict t0 t1
                      request_usage))) /\
    (forall super_agenerate,
       reports_return w utils.promptlayer_api_request_async ->
       super_agenerate messages stop = Return generated_responses ->
       let trace :=
         snd (PromptLayerChatOpenAI._agenerate super_agenerate
                create_message_dicts self messages stop t0 t1 w h) in
       List.length trace =
         List.length (PromptLayerChatOpenAI.generations generated_responses) /\
       forall k g response_dict params,
         nth_error (PromptLayerChatOpenAI.generations generated_responses) k
           = Some g ->
         create_message_dicts [PromptLayerChatOpenAI.message g] stop
           = Return (response_dict, params) ->
         nth_error trace k =
           Some (utils.promptlayer_api_request_async
                   (adapter_event "langchain.PromptLayerChatOpenAI.async" self
                      message_dicts params response_dict t0 t1
                      request_usage))).
Proof.
  intros self stop t0 t1 w h create_message_dicts messages generated_responses
         message_dicts params0 request_usage Hdicts Hmessages Husage.
  split.
  - intros super_generate Hreports Hsuper trace. subst trace.
    rewrite chat_generate_shape.
    erewrite chat_method_trace by eassumption.
    now apply chat_loop_trace.
  - intros super_agenerate Hreports Hsuper trace. subst trace.
    rewrite chat_agenerate_shape.
    erewrite chat_method_trace by eassumption.
    now apply chat_loop_trace.
Qed.

Lemma chat_reports_one_per_generation_witness :
  let trace :=
    snd (PromptLayerChatOpenAI._generate chat_super message_dicts_of
           self_with_ids [hello] None clock_before clock_after
           world_counting []) in
  List.length trace = 1%nat /\
  nth_error trace 0 =
    Some (utils.promptlayer_api_request
            (adapter_event "langchain.PromptLayerChatOpenAI" self_with_ids
               (PyList [PyDict [(PyStr "role", PyStr "user");
                                (PyStr "content", PyStr "Hello")]])
               (PyDict [(PyStr "model", PyStr "gpt-3.5-turbo")])
               (PyList [PyDict [(PyStr "role", PyStr "assistant");
                                (PyStr "content", PyStr "Hi there")]])
               clock_before clock_after token_usage)).
Proof.
  destruct (@chat_reports_one_per_generation self_with_ids None clock_before
              clock_after world_counting [] message_dicts_of [hello]
              chat_result
              (PyList [PyDict [(PyStr "role", PyStr "user");
                               (PyStr "content", PyStr "Hello")]])
              (PyDict [(PyStr "model", PyStr "gpt-3.5-turbo")])
              token_usage (message_dicts_of_returns None) eq_refl eq_refl)
    as [Hsync _].
  destruct (Hsync chat_super (world_counting_reports _) eq_refl)
    as [Hlen Hnth].
  split; [exact Hlen |].
  apply (Hnth 0%nat _ _ _ eq_refl eq_refl).
Defined.

(** X9. On a call that completes, the completion adapter reports once per
    prompt, in order, however many generations each prompt received.  The
    report for prompt [k] carries the one-element list with that prompt as
    args, [_identifying_params] as kwargs, the token usage of the result and,
    as response, the text of [generations[k][0]] alone; this holds for
    [_generate] and, under the async name and helper, for [_agenerate],
    whether or not request ids are asked for. *)
Theorem completion_reports_one_per_prompt :
  forall (self : fields) (stop : option (list string)) (t0 t1 : Q)
         (w : utils.world) (h : list utils.call)
         (identifying_params : pyval) (prompts : list string)
         generated_responses (request_usage : pyval),
    (forall i, (i < List.length prompts)%nat ->
       exists g tl,
         nth_error (PromptLayerOpenAI.generations generated_responses) i
           = Some (g :: tl)) ->
    py_getitem (PromptLayerOpenAI.llm_output generated_responses)
      "token_usage" = Return request_usage ->
    (forall super_generate,
       reports_return w utils.promptlayer_api_request ->
       super_generate prompts stop = Return generated_responses ->
       let trace :=
         snd (PromptLayerOpenAI._generate super_generate identifying_params
                self prompts stop t0 t1 w h) in
       List.length trace = List.length prompts /\
       forall k prompt g tl,
         nth_error prompts k = Some prompt ->
         nth_error (PromptLayerOpenAI.generations generated_responses) k
           = Some (g :: tl) ->
         nth_error trace k =
           Some (utils.promptlayer_api_request
                   (adapter_event "langchain.PromptLayerOpenAI" self
                      (PyList [PyStr prompt]) identifying_params
                      (PyDict [(PyStr "text",
                                PyStr (PromptLayerOpenAI.text g))])
                      t0 t1 request_usage))) /\
    (forall super_agenerate,
       reports_return w utils.promptlayer_api_request_async ->
       super_agenerate prompts stop = Return generated_responses ->
       let trace :=
         snd (PromptLayerOpenAI._agenerate super_agenerate identifying_params
                self prompts stop t0 t1 w h) in
       List.length trace = List.length prompts /\
       forall k prompt g tl,
         nth_error prompts k = Some prompt ->
         nth_error (PromptLayerOpenAI.generations generated_responses) k
           = Some (g :: tl) ->
         nth_error trace k =
           Some (utils.promptlayer_api_request_async
                   (adapter_event "langchain.PromptLayerOpenAI.async" self
                      (PyList [PyStr prompt]) identifying_params
                      (PyDict [(PyStr "text",
                                PyStr (PromptLayerOpenAI.text g))])
                      t0 t1 request_usage))).
Proof.
  intros self stop t0 t1 w h identifying_params prompts generated_responses
         request_usage Hrows Husage.
  split.
  - intros super_generate Hreports Hsuper trace. subst trace.
    rewrite completion_generate_shape.
    erewrite completion_method_trace by eassumption.
    now apply completion_loop_trace.
  - intros super_agenerate Hreports Hsuper trace. subst trace.
    rewrite completion_agenerate_shape.
    erewrite completion_method_trace by eassumption.
    now apply completion_loop_trace.
Qed.

Lemma completion_reports_one_per_prompt_witness :
  let trace :=
    snd (PromptLayerOpenAI._agenerate completion_super
           sample_identifying_params self_with_ids ["Say hi"] None
           clock_before clock_after world_counting []) in
  List.length trace = 1%nat /\
  nth_error trace 0 =
    Some (utils.promptlayer_api_request_async
            (adapter_event "langchain.PromptLayerOpenAI.async" self_with_ids
               (PyList [PyStr "Say hi"]) sample_identifying_params
               (PyDict [(PyStr "text", PyStr "first")])
               clock_before clock_after token_usage)).
Proof.
  destruct (@completion_reports_one_per_prompt self_with_ids None clock_before
              clock_after world_counting [] sample_identifying_params
              ["Say hi"] completion_result token_usage
              completion_result_rows eq_refl)
    as [_ Hasync].
  destruct (Hasync completion_super (world_counting_reports _) eq_refl)
    as [Hlen Hnth].
  split; [exact Hlen |].
  apply (Hnth 0%nat "Say hi" first_choice [second_choice] eq_refl eq_refl).
Defined.

(** X10. Whatever happens later in the call, every helper call an adapter
    method makes is a report through its own reporting helper, and every
    report carries the method's own function name, the provider
    ["langchain"], the configured [pl_tags], the two clock readings taken
    around the inherited call (the same pair for every report of the call)
    and the [return_pl_id] flag. *)
Theorem adapter_reports_common_fields :
  forall (self : fields) (stop : option (list string)) (t0 t1 : Q)
         (w : utils.world) (h : list utils.call),
    let common (fname : string) (ev : utils.CallEvent) :=
      utils.function_name ev = fname /\
      utils.provider_type ev = "langchain" /\
      utils.tags ev = of_opt_strs (pl_tags self) /\
      utils.request_start_time ev = t0 /\
      utils.request_end_time ev = t1 /\
      utils.return_pl_id ev = of_opt_bool (return_pl_id self) in
    (forall super_generate create_message_dicts messages,
       Forall (fun c => exists ev,
                 c = utils.promptlayer_api_request ev /\
                 common "langchain.PromptLayerChatOpenAI" ev)
         (snd (PromptLayerChatOpenAI._generate super_generate
                 create_message_dicts self messages stop t0 t1 w h))) /\
    (forall super_agenerate create_message_dicts messages,
       Forall (fun c => exists ev,
                 c = utils.promptlayer_api_request_async ev /\
                 common "langchain.PromptLayerChatOpenAI.async" ev)
         (snd (PromptLayerChatOpenAI._agenerate super_agenerate
                 create_message_dicts self messages stop t0 t1 w h))) /\
    (forall super_generate identifying_params prompts,
       Forall (fun c => exists ev,
                 c = utils.promptlayer_api_request ev /\
                 common "langchain.PromptLayerOpenAI" ev)
         (snd (PromptLayerOpenAI._generate super_generate identifying_params
                 self prompts stop t0 t1 w h))) /\
    (forall super_agenerate identifying_params prompts,
       Forall (fun c => exists ev,
                 c = utils.promptlayer_api_request_async ev /\
                 common "langchain.PromptLayerOpenAI.async" ev)
         (snd (PromptLayerOpenAI._agenerate super_agenerate identifying_params
                 self prompts stop t0 t1 w h))).
Proof.
  intros self stop t0 t1 w h common.
  split; [| split; [| split]]; intros.
  - rewrite chat_generate_shape.
    apply chat_method_reports with (P := common _).
    intros; repeat split.
  - rewrite chat_agenerate_shape.
    apply chat_method_reports with (P := common _).
    intros; repeat split.
  - rewrite completion_generate_shape.
    apply completion_method_reports with (P := common _).
    intros; repeat split.
  - rewrite completion_agenerate_shape.
    apply completion_method_reports with (P := common _).
    intros; repeat split.
Qed.

(** X11. With nothing to loop over, an adapter method reports nothing and
    returns the inherited result as it is, whatever the flag, the service
    and [llm_output] are: the completion adapter for an empty list of
    prompts, the chat adapter for a result without generations (once
    [_create_message_dicts] has accepted the input messages). *)
Theorem nothing_to_report :
  forall (self : fields) (stop : option (list string)) (t0 t1 : Q)
         (w : utils.world) (h : list utils.call),
    (forall super_generate create_message_dicts messages llm_output,
       super_generate messages stop =
         Return {| PromptLayerChatOpenAI.generations := [];
                   PromptLayerChatOpenAI.llm_output := llm_output |} ->
       returns (create_message_dicts messages stop) ->
       PromptLayerChatOpenAI._generate super_generate create_message_dicts
         self messages stop t0 t1 w h =
         (Return {| PromptLayerChatOpenAI.generations := [];
                    PromptLayerChatOpenAI.llm_output := llm_output |}, [])) /\
    (forall super_agenerate create_message_dicts messages llm_output,
       super_agenerate messages stop =
         Return {| PromptLayerChatOpenAI.generations := [];
                   PromptLayerChatOpenAI.llm_output := llm_output |} ->
       returns (create_message_dicts messages stop) ->
       PromptLayerChatOpenAI._agenerate super_agenerate create_message_dicts
         self messages stop t0 t1 w h =
         (Return {| PromptLayerChatOpenAI.generations := [];
                    PromptLayerChatOpenAI.llm_output := llm_output |}, [])) /\
    (forall super_generate identifying_params generated_responses,
       super_generate [] stop = Return generated_responses ->
       PromptLayerOpenAI._generate super_generate identifying_params self
         [] stop t0 t1 w h = (Return generated_responses, [])) /\
    (forall super_agenerate identifying_params generated_responses,
       super_agenerate [] stop = Return generated_responses ->
       PromptLayerOpenAI._agenerate super_agenerate identifying_params self
         [] stop t0 t1 w h = (Return generated_responses, [])).
Proof.
  intros self stop t0 t1 w h. split; [| split; [| split]].
  - intros super_generate create_message_dicts messages llm_output Hsuper
           [[message_dicts params] Hdicts].
    rewrite chat_generate_shape, chat_method_step, Hsuper, Hdicts.
    reflexivity.
  - intros super_agenerate create_message_dicts messages llm_output Hsuper
           [[message_dicts params] Hdicts].
    rewrite chat_agenerate_shape, chat_method_step, Hsuper, Hdicts.
    reflexivity.
  - intros super_generate identifying_params generated_responses Hsuper.
    rewrite completion_generate_shape, completion_method_step, Hsuper.
    now destruct generated_responses.
  - intros super_agenerate identifying_params generated_responses Hsuper.
    rewrite completion_agenerate_shape, completion_method_step, Hsuper.
    now destruct generated_responses.
Qed.

Lemma nothing_to_report_witness :
  PromptLayerOpenAI._generate completion_super sample_identifying_params
    self_with_ids [] None clock_before clock_after world_unreachable [] =
    (Return completion_result, []) /\
  PromptLayerChatOpenAI._agenerate chat_super_empty message_dicts_of
    self_with_ids [hello] None clock_before clock_after world_unreachable [] =
    (Return {| PromptLayerChatOpenAI.generations := [];
               PromptLayerChatOpenAI.llm_output := PyNone |}, []).
Proof.
  destruct (nothing_to_report self_with_ids None clock_before clock_after
              world_unreachable [])
    as (_ & Hchat & Hcompletion & _).
  split.
  - apply Hcompletion. reflexivity.
  - apply Hchat; [reflexivity | apply message_dicts_of_returns].
Defined.

(** X12. The loops read [generated_responses.llm_output["token_usage"]]
    without a guard.  When that subscript raises ([TypeError] for an
    [llm_output] of [None], [KeyError] for a dictionary without the key) and
    there is a first generation to report, the adapter method raises that
    exception in place of the result the inherited call returned, and nothing
    has been reported. *)
Theorem missing_token_usage_loses_result :
  forall (self : fields) (stop : option (list string)) (t0 t1 : Q)
         (w : utils.world) (h : list utils.call) (e : exn),
    (forall super_generate create_message_dicts messages generated_responses
            generation rest,
       super_generate messages stop = Return generated_responses ->
       PromptLayerChatOpenAI.generations generated_responses
         = generation :: rest ->
       (forall ms, returns (create_message_dicts ms stop)) ->
       py_getitem (PromptLayerChatOpenAI.llm_output generated_responses)
         "token_usage" = Raise e ->
       PromptLayerChatOpenAI._generate super_generate create_message_dicts
         self messages stop t0 t1 w h = (Raise e, [])) /\
    (forall super_agenerate create_message_dicts messages generated_responses
            generation rest,
       super_agenerate messages stop = Return generated_responses ->
       PromptLayerChatOpenAI.generations generated_responses
         = generation :: rest ->
       (forall ms, returns (create_message_dicts ms stop)) ->
       py_getitem (PromptLayerChatOpenAI.llm_output generated_responses)
         "token_usage" = Raise e ->
       PromptLayerChatOpenAI._agenerate super_agenerate create_message_dicts
         self messages stop t0 t1 w h = (Raise e, [])) /\
    (forall super_generate identifying_params prompt prompts
            generated_responses g tl,
       super_generate (prompt :: prompts) stop = Return generated_responses ->
       nth_error (PromptLayerOpenAI.generations generated_responses) 0
         = Some (g :: tl) ->
       py_getitem (PromptLayerOpenAI.llm_output generated_responses)
         "token_usage" = Raise e ->
       PromptLayerOpenAI._generate super_generate identifying_params self
         (prompt :: prompts) stop t0 t1 w h = (Raise e, [])) /\
    (forall super_agenerate identifying_params prompt prompts
            generated_responses g tl,
       super_agenerate (prompt :: prompts) stop = Return generated_responses ->
       nth_error (PromptLayerOpenAI.generations generated_responses) 0
         = Some (g :: tl) ->
       py_getitem (PromptLayerOpenAI.llm_output generated_responses)
         "token_usage" = Raise e ->
       PromptLayerOpenAI._agenerate super_agenerate identifying_params self
         (prompt :: prompts) stop t0 t1 w h = (Raise e, [])).
Proof.
  intros self stop t0 t1 w h e. split; [| split; [| split]].
  - intros super_generate create_message_dicts messages generated_responses
           generation rest Hsuper Hgens Hdicts Husage.
    rewrite chat_generate_shape, chat_method_step, Hsuper.
    destruct (Hdicts messages) as [[message_dicts params] ->].
    rewrite Hgens, chat_loop_step.
    destruct (Hdicts [PromptLayerChatOpenAI.message generation])
      as [[response_dict kwargs] ->].
    now rewrite Husage.
  - intros super_agenerate create_message_dicts messages generated_responses
           generation rest Hsuper Hgens Hdicts Husage.
    rewrite chat_agenerate_shape, chat_method_step, Hsuper.
    destruct (Hdicts messages) as [[message_dicts params] ->].
    rewrite Hgens, chat_loop_step.
    destruct (Hdicts [PromptLayerChatOpenAI.message generation])
      as [[response_dict kwargs] ->].
    now rewrite Husage.
  - intros super_generate identifying_params prompt prompts
           generated_responses g tl Hsuper Hrow Husage.
    rewrite completion_generate_shape, completion_method_step, Hsuper.
    rewrite completion_loop_step. unfold py_index. rewrite Hrow.
    cbn [nth_error]. now rewrite Husage.
  - intros super_agenerate identifying_params prompt prompts
           generated_responses g tl Hsuper Hrow Husage.
    rewrite completion_agenerate_shape, completion_method_step, Hsuper.
    rewrite completion_loop_step. unfold py_index. rewrite Hrow.
    cbn [nth_error]. now rewrite Husage.
Qed.

Lemma missing_token_usage_loses_result_witness :
  PromptLayerChatOpenAI._generate chat_super_streaming message_dicts_of
    self_plain [hello] None clock_before clock_after world_counting [] =
    (Raise TypeError, []).
Proof.
  destruct (missing_token_usage_loses_result self_plain None clock_before
              clock_after world_counting [] TypeError) as (Hchat & _).
  apply (Hchat chat_super_streaming message_dicts_of [hello]
           {| PromptLayerChatOpenAI.generations := [streamed_generation];
              PromptLayerChatOpenAI.llm_output := PyNone |}
           streamed_generation []);
    [reflexivity | reflexivity | apply message_dicts_of_returns | reflexivity].
Defined.

Lemma completion_loop_short fname helper identifying_params self t0 t1
    llm_output (w : utils.world) :
  reports_return w helper ->
  returns (py_getitem llm_output "token_usage") ->
  forall prompts m i generations h,
    (forall k, (k < m)%nat ->
       exists g tl, nth_error generations (i + k) = Some (g :: tl)) ->
    nth_error generations (i + m) = None ->
    (m < List.length prompts)%nat ->
    fst (completion_loop fname helper identifying_params self t0 t1
           llm_output i prompts generations w h) = Raise IndexError /\
    List.length
      (snd (completion_loop fname helper identifying_params self t0 t1
              llm_output i prompts generations w h)) = m.
Proof.
  intros Hreports [request_usage Husage].
  induction prompts as [| prompt rest IH];
    intros m i generations h Hrows Hend Hm; [simpl in Hm; lia |].
  rewrite completion_loop_step. unfold py_index.
  destruct m as [| m].
  - rewrite Nat.add_0_r in Hend. rewrite Hend. split; reflexivity.
  - destruct (Hrows 0%nat) as (g0 & tl0 & Hrow); [lia |].
    rewrite Nat.add_0_r in Hrow. rewrite Hrow. cbn [nth_error].
    rewrite Husage. cbv zeta.
    match goal with
    | |- context [w h ?c] =>
        match c with
        | helper ?ev => destruct (Hreports h ev) as [pl_request_id ->]
        end
    end.
    match goal with
    | |- context [completion_loop _ _ _ _ _ _ _ (S i) rest ?g1 w ?h1] =>
        assert (Hsame : forall j, j <> i ->
                  nth_error g1 j = nth_error generations j)
          by (intros j Hj;
              destruct (truthy (of_opt_bool (return_pl_id self)));
              [now apply nth_error_store_other | reflexivity]);
        destruct (IH m (S i) g1 h1) as [Hfst Hlen];
        [ intros k Hk; destruct (Hrows (S k)) as (g & tl & Hg); [lia |];
          exists g, tl; rewrite Hsame by lia;
          now rewrite Nat.add_succ_r in Hg
        | rewrite Hsame by lia; now rewrite Nat.add_succ_r in Hend
        | simpl in Hm; lia
        | destruct (completion_loop fname helper identifying_params self t0 t1
                      llm_output (S i) rest g1 w h1) as [r t] ]
    end.
    cbn [fst snd] in *. split; [exact Hfst | simpl; now rewrite Hlen].
Qed.

(** X13. The completion adapter takes the number of iterations from
    [prompts] and indexes [generations] with it, without comparing the two
    lengths.  When the inherited result has fewer rows than there are
    prompts (each row with a first generation), the adapter reports the rows
    there are, one for one, and then raises [IndexError] in place of the
    result. *)
Theorem fewer_rows_than_prompts :
  forall (self : fields) (stop : option (list string)) (t0 t1 : Q)
         (w : utils.world) (h : list utils.call)
         (identifying_params : pyval) (prompts : list string)
         generated_responses,
    (List.length (PromptLayerOpenAI.generations generated_responses)
       < List.length prompts)%nat ->
    Forall (fun row => row <> [])
      (PromptLayerOpenAI.generations generated_responses) ->
    returns (py_getitem (PromptLayerOpenAI.llm_output generated_responses)
               "token_usage") ->
    (forall super_generate,
       reports_return w utils.promptlayer_api_request ->
       super_generate prompts stop = Return generated_responses ->
       let run := PromptLayerOpenAI._generate super_generate
                    identifying_params self prompts stop t0 t1 w h in
       fst run = Raise IndexError /\
       List.length (snd run) =
         List.length (PromptLayerOpenAI.generations generated_responses)) /\
    (forall super_agenerate,
       reports_return w utils.promptlayer_api_request_async ->
       super_agenerate prompts stop = Return generated_responses ->
       let run := PromptLayerOpenAI._agenerate super_agenerate
                    identifying_params self prompts stop t0 t1 w h in
       fst run = Raise IndexError /\
       List.length (snd run) =
         List.length (PromptLayerOpenAI.generations generated_responses)).
Proof.
  intros self stop t0 t1 w h identifying_params prompts generated_responses
         Hshort Hrows Husage.
  assert (Hfirst : forall k,
            (k < List.length
                   (PromptLayerOpenAI.generations generated_responses))%nat ->
            exists g tl,
              nth_error (PromptLayerOpenAI.generations generated_responses)
                (0 + k) = Some (g :: tl)).
  { intros k Hk. simpl.
    destruct (nth_error (PromptLayerOpenAI.generations generated_responses) k)
      as [row |] eqn:Hrow; [| apply nth_error_None in Hrow; lia].
    rewrite Forall_forall in Hrows.
    specialize (Hrows row (nth_error_In _ _ Hrow)).
    destruct row as [| g tl]; [congruence | eauto]. }
  assert (Hend : nth_error (PromptLayerOpenAI.generations generated_responses)
                   (0 + List.length
                          (PromptLayerOpenAI.generations generated_responses))
                 = None)
    by (apply nth_error_None; simpl; lia).
  split.
  - intros super_generate Hreports Hsuper run. subst run.
    rewrite completion_generate_shape, completion_method_step, Hsuper.
    destruct (@completion_loop_short "langchain.PromptLayerOpenAI"
                utils.promptlayer_api_request identifying_params self t0 t1
                _ w Hreports Husage prompts _ 0%nat _ h Hfirst Hend Hshort)
      as [Hfst Hlen].
    destruct (completion_loop _ _ _ _ _ _ _ _ _ _ w h) as [[r | e] t];
      cbn [fst snd] in *; [discriminate | split; congruence].
  - intros super_agenerate Hreports Hsuper run. subst run.
    rewrite completion_agenerate_shape, completion_method_step, Hsuper.
    destruct (@completion_loop_short "langchain.PromptLayerOpenAI.async"
                utils.promptlayer_api_request_async identifying_params self
                t0 t1 _ w Hreports Husage prompts _ 0%nat _ h Hfirst Hend
                Hshort)
      as [Hfst Hlen].
    destruct (completion_loop _ _ _ _ _ _ _ _ _ _ w h) as [[r | e] t];
      cbn [fst snd] in *; [discriminate | split; congruence].
Qed.

Lemma fewer_rows_than_prompts_witness :
  let run := PromptLayerOpenAI._generate completion_super
               sample_identifying_params self_with_ids ["Say hi"; "Say bye"]
               None clock_before clock_after world_counting [] in
  fst run = Raise IndexError /\ List.length (snd run) = 1%nat.
Proof.
  assert (Hshort : (List.length
                      (PromptLayerOpenAI.generations completion_result)
                    < List.length ["Say hi"; "Say bye"])%nat)
    by (simpl; lia).
  assert (Hrows : Forall (fun row => row <> [])
                    (PromptLayerOpenAI.generations completion_result))
    by (repeat constructor; discriminate).
  destruct (@fewer_rows_than_prompts self_with_ids None clock_before
              clock_after world_counting [] sample_identifying_params
              ["Say hi"; "Say bye"] completion_result Hshort Hrows
              sample_usage_returns) as [Hsync _].
  apply (Hsync completion_super (world_counting_reports _) eq_refl).
Defined.

Lemma assoc_set_twice (k : string) (a b : pyval) (items : list (pyval * pyval)) :
  assoc_set k b (assoc_set k a items) = assoc_set k b items.
Proof.
  induction items as [| [key v] rest IH]; simpl.
  - unfold key_is, str_value. cbn [base_value]. now rewrite String.eqb_refl.
  - destruct (key_is k key) eqn:Hkey; simpl; rewrite Hkey;
      [reflexivity | now rewrite IH].
Qed.

Lemma py_setitem_twice (k : string) (a b d : pyval) :
  isinstance_dict d = true ->
  exists d',
    py_setitem d k a = Return d' /\
    isinstance_dict d' = true /\ is_None d' = false /\
    py_setitem d' k b = py_setitem d k b.
Proof.
  unfold isinstance_dict. induction d; simpl; try discriminate.
  - intros _. eexists. split; [reflexivity |]. cbn.
    repeat split. now rewrite assoc_set_twice.
  - intros Hd. destruct (IHd Hd) as (d' & -> & Hdict & _ & Htwice).
    eexists. split; [reflexivity |]. cbn. rewrite Htwice.
    repeat split. exact Hdict.
Qed.

(** X14. The block that stores the request id never raises, whatever
    [generation_info] holds, and leaves a dictionary behind; storing a second
    id over the first gives the same [generation_info] as storing the second
    id alone, so a generation that passes through an adapter again keeps
    only the latest request id. *)
Theorem request_id_last_write_wins :
  forall (generation_info first_id second_id : pyval),
    exists stored,
      set_pl_request_id generation_info first_id = Return stored /\
      isinstance_dict stored = true /\
      set_pl_request_id stored second_id =
        set_pl_request_id generation_info second_id.
Proof.
  intros generation_info first_id second_id. unfold set_pl_request_id at 1 3.
  destruct (is_None generation_info || negb (isinstance_dict generation_info))
    eqn:Hfresh.
  - eexists. split; [reflexivity |]. split; [reflexivity |].
    unfold set_pl_request_id. cbn [is_None isinstance_dict base_value
                                   negb orb py_setitem].
    now rewrite (assoc_set_twice "pl_request_id" first_id second_id []).
  - apply orb_false_elim in Hfresh as [_ Hd]. apply negb_false_iff in Hd.
    destruct (@py_setitem_twice "pl_request_id" first_id second_id
                generation_info Hd)
      as (stored & Hstored & Hdict & Hnone & Htwice).
    exists stored. split; [exact Hstored |]. split; [exact Hdict |].
    unfold set_pl_request_id. now rewrite Hnone, Hdict.
Qed.

(** X15. No adapter method guards its reporting call: if the helper raises
    on the first report, the method raises that exception in place of the
    result of the inherited call, after that one helper call. *)
Theorem reporting_failure_reaches_caller :
  forall (self : fields) (stop : option (list string)) (t0 t1 : Q)
         (w : utils.world) (h : list utils.call) (e : exn),
    (forall super_method create_message_dicts messages message_dicts params
            generation rest llm_output response_dict kwargs request_usage,
       super_method messages stop =
         Return {| PromptLayerChatOpenAI.generations := generation :: rest;
                   PromptLayerChatOpenAI.llm_output := llm_output |} ->
       create_message_dicts messages stop = Return (message_dicts, params) ->
       create_message_dicts [PromptLayerChatOpenAI.message generation] stop =
         Return (response_dict, kwargs) ->
       py_getitem llm_output "token_usage" = Return request_usage ->
       let report := utils.promptlayer_api_request
                       (adapter_event "langchain.PromptLayerChatOpenAI" self
                          message_dicts kwargs response_dict t0 t1
                          request_usage) in
       let report_async := utils.promptlayer_api_request_async
                             (adapter_event
                                "langchain.PromptLayerChatOpenAI.async" self
                                message_dicts kwargs response_dict t0 t1
                                request_usage) in
       (w h report = Raise e ->
        PromptLayerChatOpenAI._generate super_method create_message_dicts
          self messages stop t0 t1 w h = (Raise e, [report])) /\
       (w h report_async = Raise e ->
        PromptLayerChatOpenAI._agenerate super_method create_message_dicts
          self messages stop t0 t1 w h = (Raise e, [report_async]))) /\
    (forall super_method identifying_params prompt prompts generated_responses
            g tl request_usage,
       super_method (prompt :: prompts) stop = Return generated_responses ->
       nth_error (PromptLayerOpenAI.generations generated_responses) 0
         = Some (g :: tl) ->
       py_getitem (PromptLayerOpenAI.llm_output generated_responses)
         "token_usage" = Return request_usage ->
       let report := utils.promptlayer_api_request
                       (adapter_event "langchain.PromptLayerOpenAI" self
                          (PyList [PyStr prompt]) identifying_params
                          (PyDict [(PyStr "text",
                                    PyStr (PromptLayerOpenAI.text g))])
                          t0 t1 request_usage) in
       let report_async := utils.promptlayer_api_request_async
                             (adapter_event "langchain.PromptLayerOpenAI.async"
                                self (PyList [PyStr prompt]) identifying_params
                                (PyDict [(PyStr "text",
                                          PyStr (PromptLayerOpenAI.text g))])
                                t0 t1 request_usage) in
       (w h report = Raise e ->
        PromptLayerOpenAI._generate super_method identifying_params self
          (prompt :: prompts) stop t0 t1 w h = (Raise e, [report])) /\
       (w h report_async = Raise e ->
        PromptLayerOpenAI._agenerate super_method identifying_params self
          (prompt :: prompts) stop t0 t1 w h = (Raise e, [report_async]))).
Proof.
  intros self stop t0 t1 w h e. split.
  - intros super_method create_message_dicts messages message_dicts params
           generation rest llm_output response_dict kwargs request_usage
           Hsuper Hdicts Hresponse Husage report report_async.
    split; intros Hraise.
    + rewrite chat_generate_shape, chat_method_step, Hsuper, Hdicts.
      cbn [PromptLayerChatOpenAI.generations PromptLayerChatOpenAI.llm_output].
      rewrite chat_loop_step, Hresponse, Husage. cbv zeta.
      fold report. now rewrite Hraise.
    + rewrite chat_agenerate_shape, chat_method_step, Hsuper, Hdicts.
      cbn [PromptLayerChatOpenAI.generations PromptLayerChatOpenAI.llm_output].
      rewrite chat_loop_step, Hresponse, Husage. cbv zeta.
      fold report_async. now rewrite Hraise.
  - intros super_method identifying_params prompt prompts generated_responses
           g tl request_usage Hsuper Hrow Husage report report_async.
    split; intros Hraise.
    + rewrite completion_generate_shape, completion_method_step, Hsuper.
      rewrite completion_loop_step. unfold py_index. rewrite Hrow.
      cbn [nth_error]. rewrite Husage. cbv zeta.
      fold report. now rewrite Hraise.
    + rewrite completion_agenerate_shape, completion_method_step, Hsuper.
      rewrite completion_loop_step. unfold py_index. rewrite Hrow.
      cbn [nth_error]. rewrite Husage. cbv zeta.
      fold report_async. now rewrite Hraise.
Qed.

Lemma reporting_failure_reaches_caller_witness :
  fst (PromptLayerChatOpenAI._generate chat_super message_dicts_of self_plain
         [hello] None clock_before clock_after world_unreachable [])
    = Raise (Foreign "requests.exceptions.ConnectionError") /\
  fst (PromptLayerOpenAI._agenerate completion_super sample_identifying_params
         self_plain ["Say hi"] None clock_before clock_after
         world_unreachable [])
    = Raise (Foreign "requests.exceptions.ConnectionError").
Proof.
  destruct (reporting_failure_reaches_caller self_plain None clock_before
              clock_after world_unreachable []
              (Foreign "requests.exceptions.ConnectionError"))
    as [Hchat Hcompletion].
  split.
  - destruct (Hchat chat_super message_dicts_of [hello] _ _ _ _ _ _ _ _
                eq_refl eq_refl eq_refl eq_refl) as [Hsync _].
    now rewrite (Hsync eq_refl).
  - destruct (Hcompletion completion_super sample_identifying_params "Say hi"
                [] completion_result first_choice [second_choice] token_usage
                eq_refl eq_refl eq_refl) as [_ Hasync].
    now rewrite (Hasync eq_refl).
Defined.

Lemma chat_loop_calls_independent fname helper create_message_dicts self stop
    message_dicts t0 t1 llm_output (w w' : utils.world) :
  reports_return w helper ->
  reports_return w' helper ->
  forall generations h h',
    snd (chat_loop fname helper create_message_dicts self stop message_dicts
           t0 t1 llm_output generations w h) =
    snd (chat_loop fname helper create_message_dicts self stop message_dicts
           t0 t1 llm_output generations w' h').
Proof.
  intros Hw Hw'.
  induction generations as [| generation rest IH]; intros h h'.
  - reflexivity.
  - rewrite !chat_loop_step.
    destruct (create_message_dicts _ stop) as [[response_dict params] | e];
      [| reflexivity].
    destruct (py_getitem llm_output "token_usage") as [request_usage | e];
      [| reflexivity].
    cbv zeta.
    destruct (Hw h (adapter_event fname self message_dicts params
                      response_dict t0 t1 request_usage)) as [rid ->].
    destruct (Hw' h' (adapter_event fname self message_dicts params
                        response_dict t0 t1 request_usage)) as [rid' ->].
    match goal with
    | |- snd match ?l1 with _ => _ end = snd match ?l2 with _ => _ end =>
        match l1 with
        | chat_loop _ _ _ _ _ _ _ _ _ _ _ ?h1 =>
            match l2 with
            | chat_loop _ _ _ _ _ _ _ _ _ _ _ ?h2 =>
                specialize (IH h1 h2);
                destruct l1 as [[r1 | e1] t1']; destruct l2 as [[r2 | e2] t2']
            end
        end
    end; simpl in *; now rewrite IH.
Qed.

Lemma completion_loop_calls_independent fname helper identifying_params self
    t0 t1 llm_output (w w' : utils.world) :
  reports_return w helper ->
  reports_return w' helper ->
  forall prompts i gs gs' h h',
    Forall2 (Forall2 (fun a b =>
               PromptLayerOpenAI.text a = PromptLayerOpenAI.text b)) gs gs' ->
    snd (completion_loop fname helper identifying_params self t0 t1 llm_output
           i prompts gs w h) =
    snd (completion_loop fname helper identifying_params self t0 t1 llm_output
           i prompts gs' w' h').
Proof.
  intros Hw Hw'.
  induction prompts as [| prompt rest IH]; intros i gs gs' h h' Hrel.
  - reflexivity.
  - rewrite !completion_loop_step. unfold py_index.
    destruct (Forall2_nth_error_cases i Hrel)
      as [[-> ->] | (row & row' & -> & -> & Hrow)]; [reflexivity |].
    destruct (Forall2_nth_error_cases 0 Hrow)
      as [[-> ->] | (g & g' & -> & -> & Htext)]; [reflexivity |].
    destruct (py_getitem llm_output "token_usage") as [request_usage | e];
      [| reflexivity].
    cbv zeta. rewrite <- Htext.
    destruct (Hw h (adapter_event fname self (PyList [PyStr prompt])
                identifying_params
                (PyDict [(PyStr "text", PyStr (PromptLayerOpenAI.text g))])
                t0 t1 request_usage)) as [rid ->].
    destruct (Hw' h' (adapter_event fname self (PyList [PyStr prompt])
                identifying_params
                (PyDict [(PyStr "text", PyStr (PromptLayerOpenAI.text g))])
                t0 t1 request_usage)) as [rid' ->].
    match goal with
    | |- snd (let (_, _) := ?l1 in _) = snd (let (_, _) := ?l2 in _) =>
        match l1 with
        | completion_loop _ _ _ _ _ _ _ _ _ ?g1 _ ?h1 =>
            match l2 with
            | completion_loop _ _ _ _ _ _ _ _ _ ?g2 _ ?h2 =>
                assert (Hrel' : Forall2 (Forall2 (fun a b =>
                          PromptLayerOpenAI.text a = PromptLayerOpenAI.text b))
                          g1 g2);
                [ destruct (truthy (of_opt_bool (return_pl_id self)));
                  [apply store_same_texts; [exact Hrel | exact Htext]
                  | exact Hrel]
                | specialize (IH (S i) g1 g2 h1 h2 Hrel');
                  destruct l1 as [r1 t1']; destruct l2 as [r2 t2'] ]
            end
        end
    end.
    simpl in *. now rewrite IH.
Qed.

(** X16. What an adapter method reports does not depend on what the service
    answers: for the same inputs and inherited result, two services that both
    answer every report (with whatever request ids, after whatever earlier
    calls) receive the same reports in the same order, although with
    [return_pl_id] set the loop writes each answer into the generations it
    keeps reading from. *)
Theorem reports_independent_of_answers :
  forall (self : fields) (stop : option (list string)) (t0 t1 : Q)
         (w w' : utils.world) (h h' : list utils.call),
    (reports_return w utils.promptlayer_api_request ->
     reports_return w' utils.promptlayer_api_request ->
     (forall super_generate create_message_dicts messages,
        snd (PromptLayerChatOpenAI._generate super_generate
               create_message_dicts self messages stop t0 t1 w h) =
        snd (PromptLayerChatOpenAI._generate super_generate
               create_message_dicts self messages stop t0 t1 w' h')) /\
     (forall super_generate identifying_params prompts,
        snd (PromptLayerOpenAI._generate super_generate identifying_params
               self prompts stop t0 t1 w h) =
        snd (PromptLayerOpenAI._generate super_generate identifying_params
               self prompts stop t0 t1 w' h'))) /\
    (reports_return w utils.promptlayer_api_request_async ->
     reports_return w' utils.promptlayer_api_request_async ->
     (forall super_agenerate create_message_dicts messages,
        snd (PromptLayerChatOpenAI._agenerate super_agenerate
               create_message_dicts self messages stop t0 t1 w h) =
        snd (PromptLayerChatOpenAI._agenerate super_agenerate
               create_message_dicts self messages stop t0 t1 w' h')) /\
     (forall super_agenerate identifying_params prompts,
        snd (PromptLayerOpenAI._agenerate super_agenerate identifying_params
               self prompts stop t0 t1 w h) =
        snd (PromptLayerOpenAI._agenerate super_agenerate identifying_params
               self prompts stop t0 t1 w' h'))).
Proof.
  intros self stop t0 t1 w w' h h'.
  assert (Hchat : forall fname helper super_method create_message_dicts
                         messages,
            reports_return w helper -> reports_return w' helper ->
            snd (chat_method fname helper super_method create_message_dicts
                   self messages stop t0 t1 w h) =
            snd (chat_method fname helper super_method create_message_dicts
                   self messages stop t0 t1 w' h')).
  { intros fname helper super_method create_message_dicts messages Hw Hw'.
    rewrite !chat_method_step.
    destruct (super_method messages stop) as [generated_responses | e];
      [| reflexivity].
    destruct (create_message_dicts messages stop)
      as [[message_dicts params] | e]; [| reflexivity].
    pose proof (@chat_loop_calls_independent fname helper create_message_dicts
                  self stop message_dicts t0 t1
                  (PromptLayerChatOpenAI.llm_output generated_responses)
                  w w' Hw Hw'
                  (PromptLayerChatOpenAI.generations generated_responses)
                  h h') as Hloop.
    destruct (chat_loop _ _ _ _ _ _ _ _ _ _ w h) as [[r1 | e1] t1'];
      destruct (chat_loop _ _ _ _ _ _ _ _ _ _ w' h') as [[r2 | e2] t2'];
      exact Hloop. }
  assert (Hcompletion : forall fname helper super_method identifying_params
                               prompts,
            reports_return w helper -> reports_return w' helper ->
            snd (completion_method fname helper super_method
                   identifying_params self prompts stop t0 t1 w h) =
            snd (completion_method fname helper super_method
                   identifying_params self prompts stop t0 t1 w' h')).
  { intros fname helper super_method identifying_params prompts Hw Hw'.
    rewrite !completion_method_step.
    destruct (super_method prompts stop) as [generated_responses | e];
      [| reflexivity].
    pose proof (@completion_loop_calls_independent fname helper
                  identifying_params self t0 t1
                  (PromptLayerOpenAI.llm_output generated_responses)
                  w w' Hw Hw' prompts 0%nat
                  (PromptLayerOpenAI.generations generated_responses)
                  (PromptLayerOpenAI.generations generated_responses) h h'
                  (Forall2_same _ _
                     (fun row => Forall2_same _ row (fun g => eq_refl))))
      as Hloop.
    destruct (completion_loop _ _ _ _ _ _ _ _ _ _ w h) as [[r1 | e1] t1'];
      destruct (completion_loop _ _ _ _ _ _ _ _ _ _ w' h') as [[r2 | e2] t2'];
      exact Hloop. }
  split; intros Hw Hw'; split; intros.
  - rewrite !chat_generate_shape. now apply Hchat.
  - rewrite !completion_generate_shape. now apply Hcompletion.
  - rewrite !chat_agenerate_shape. now apply Hchat.
  - rewrite !completion_agenerate_shape. now apply Hcompletion.
Qed.

Lemma reports_independent_of_answers_witness :
  snd (PromptLayerChatOpenAI._generate chat_super message_dicts_of
         self_with_ids [hello] None clock_before clock_after
         world_counting []) =
  snd (PromptLayerChatOpenAI._generate chat_super message_dicts_of
         self_with_ids [hello] None clock_before clock_after
         world_silent [utils.promptlayer_get_prompt (PyStr "greeting") PyNone]) /\
  snd (PromptLayerOpenAI._agenerate completion_super sample_identifying_params
         self_with_ids ["Say hi"] None clock_before clock_after
         world_counting []) =
  snd (PromptLayerOpenAI._agenerate completion_super sample_identifying_params
         self_with_ids ["Say hi"] None clock_before clock_after
         world_silent []).
Proof.
  destruct (reports_independent_of_answers self_with_ids None clock_before
              clock_after world_counting world_silent []
              [utils.promptlayer_get_prompt (PyStr "greeting") PyNone])
    as [Hsync _].
  destruct (reports_independent_of_answers self_with_ids None clock_before
              clock_after world_counting world_silent [] [])
    as [_ Hasync].
  split.
  - apply (Hsync (world_counting_reports _) (world_silent_reports _)).
  - apply (Hasync (world_counting_reports _) (world_silent_reports _)).
Defined.

(** ** The adapters with object identity: the loops *)

































(** Why the generations must not share a dictionary: two prompts whose first
    generations refer to one [generation_info] dictionary are reported
    separately (ids 1 and 2), the second write replaces the first in that
    one dictionary, and both generations end with id 2. *)
Lemma shared_dictionary_keeps_last_id :
  final_info
    (PromptLayerOpenAI_identity._generate completion_super_shared
       sample_identifying_params self_with_ids ["Say hi"; "Say bye"] None
       clock_before clock_after world_counting []) 0
    = Some (PyDict [(PyStr "finish_reason", PyStr "stop");
                    (PyStr "pl_request_id", PyInt 2)]) /\
  final_info
    (PromptLayerOpenAI_identity._generate completion_super_shared
       sample_identifying_params self_with_ids ["Say hi"; "Say bye"] None
       clock_before clock_after world_counting []) 1
    = Some (PyDict [(PyStr "finish_reason", PyStr "stop");
                    (PyStr "pl_request_id", PyInt 2)]) /\
  ~ separate_generations shared_store [0%nat; 1%nat].
Proof.
  split; [reflexivity |]. split; [reflexivity |].
  intros (_ & _ & Hshare).
  specialize (Hshare 0%nat 1%nat (or_introl eq_refl)
                (or_intror (or_introl eq_refl))).
  discriminate Hshare; [discriminate | reflexivity].
Qed.

(** A [generation_info] that is the [llm_output] dictionary itself: the
    request id is written into [llm_output]. *)
Lemma aliased_llm_output_is_extended :
  final_value
    (PromptLayerOpenAI_identity._generate completion_super_aliased
       sample_identifying_params self_with_ids ["Say hi"] None clock_before
       clock_after world_counting []) 0
    = Some (PyDict [(PyStr "token_usage", token_usage);
                    (PyStr "model_name", PyStr "gpt-3.5-turbo");
                    (PyStr "pl_request_id", PyInt 1)]).
Proof. reflexivity. Qed.
